(** * A SOCKS5 server with an IP admission gate: the connection handler

    A shallow embedding of the [socks5] package's server (construction of
    the server, the accept loop, the allow-list setter, and the
    per-connection handler [ServeConn] with its pre-authentication
    admission gate), of the part of [main] that builds the server and its
    allow-list, and of the functions of Go's [net] and [net/netip] packages
    that this code calls, the text form of a TCP peer's address among
    them.

    Bytes and fixed-width integers are [Z]; Go strings (byte sequences) are
    [string]; Go's [(value, error)] results are pairs whose second component
    is an [option error] ([None] is [nil]). *)

From Stdlib Require Import ZArith Lia Bool List Ascii String.
From stdpp Require Import base gmap list strings.
Import ListNotations.
Local Open Scope Z_scope.

(** ** Errors *)

(** The error values the program creates or receives.  [Errorf0],
    [ErrorfV] and [ErrorfE] are [fmt.Errorf] with no argument, with a byte
    slice and with an error under the verb [%v]; the format string is kept
    unexpanded. *)
Inductive error : Type :=
  | parseAddrError (input msg at_ : string)
  | parsePrefixError (input msg : string)
  | parsePrefixErrorE (input : string) (cause : error)
  | AddrError (Err Addr : string)
  | io_EOF
  | io_ErrUnexpectedEOF
  | TransportError (msg : string)
  | ErrUnrecognizedAddrType
  | Errorf0 (format : string)
  | ErrorfV (format : string) (v : list Z)
  | ErrorfE (format : string) (e : error).

(** ** Byte strings *)

Module bytealg.

Definition byte_of (c : ascii) : Z := Z.of_N (N_of_ascii c).

Definition char_of (b : Z) : ascii := ascii_of_N (Z.to_N b).

Definition len (s : string) : Z := Z.of_nat (String.length s).

(** [s[i:]] and [s[:i]] *)
Definition from (i : nat) (s : string) : string :=
  String.substring i (String.length s - i) s.

Definition upto (i : nat) (s : string) : string := String.substring 0 i s.

(** Index of the first [c] in [s], counted from [i]. *)
Fixpoint index_from (i : nat) (c : ascii) (s : string) : option nat :=
  match s with
  | EmptyString => None
  | String a s' =>
      if Ascii.eqb a c then Some i else index_from (S i) c s'
  end.

Definition IndexByteString (s : string) (c : ascii) : option nat :=
  index_from 0 c s.

Fixpoint last_index_from (i : nat) (c : ascii) (s : string) : option nat :=
  match s with
  | EmptyString => None
  | String a s' =>
      match last_index_from (S i) c s' with
      | Some j => Some j
      | None => if Ascii.eqb a c then Some i else None
      end
  end.

Definition LastIndexByteString (s : string) (c : ascii) : option nat :=
  last_index_from 0 c s.

(** [string(b)] for a byte slice [b] *)
Fixpoint string_of_bytes (b : list Z) : string :=
  match b with
  | [] => EmptyString
  | x :: b' => String (char_of x) (string_of_bytes b')
  end.

Definition is_digit (c : ascii) : bool :=
  (byte_of "0" <=? byte_of c) && (byte_of c <=? byte_of "9").

End bytealg.

(** ** Package [net/netip] *)

Module netip.
Import bytealg.

(** The [z] field of an address: [z0] for the zero [Addr], [z4] for an
    IPv4 address, [z6 zone] for an IPv6 address, where the empty zone is
    Go's [z6noz]. *)
Inductive zoneTag : Type :=
  | z0
  | z4
  | z6 (zone : string).

(** [Addr]: a 128-bit value in two 64-bit halves and the tag.  An IPv4
    address is held as the IPv4-mapped IPv6 value. *)
Record Addr : Type := mkAddr { hi : Z; lo : Z; z : zoneTag }.

(** [Addr{}] *)
Definition zeroAddr : Addr := mkAddr 0 0 z0.

Definition IsValid (ip : Addr) : bool :=
  match z ip with z0 => false | _ => true end.

Definition Is4 (ip : Addr) : bool :=
  match z ip with z4 => true | _ => false end.

Definition Is6 (ip : Addr) : bool :=
  match z ip with z6 _ => true | _ => false end.

Definition BitLen (ip : Addr) : Z :=
  match z ip with z0 => 0 | z4 => 32 | z6 _ => 128 end.

Definition Zone (ip : Addr) : string :=
  match z ip with z6 zone => zone | _ => EmptyString end.

Definition hasZone (ip : Addr) : bool :=
  match z ip with
  | z6 EmptyString => false
  | z6 _ => true
  | _ => false
  end.

Definition withoutZone (ip : Addr) : Addr :=
  if hasZone ip then mkAddr (hi ip) (lo ip) (z6 EmptyString) else ip.

Definition WithZone (ip : Addr) (zone : string) : Addr :=
  if negb (Is6 ip) then ip else mkAddr (hi ip) (lo ip) (z6 zone).

Definition isZero (ip : Addr) : bool :=
  match z ip with z0 => true | _ => false end.

Definition byte_at (addr : list Z) (i : nat) : Z := nth i addr 0.

(** [AddrFrom4]: the address [addr[0].addr[1].addr[2].addr[3]] *)
Definition AddrFrom4 (addr : list Z) : Addr :=
  mkAddr 0
    (Z.lor 0xffff00000000
       (Z.lor (Z.lor (Z.lor (Z.shiftl (byte_at addr 0) 24)
                            (Z.shiftl (byte_at addr 1) 16))
                     (Z.shiftl (byte_at addr 2) 8))
              (byte_at addr 3)))
    z4.

(** Big-endian value of a byte sequence. *)
Definition beUint (b : list Z) : Z :=
  fold_left (fun acc x => Z.lor (Z.shiftl acc 8) x) b 0.

Definition AddrFrom16 (addr : list Z) : Addr :=
  mkAddr (beUint (firstn 8 addr)) (beUint (firstn 8 (skipn 8 addr)))
         (z6 EmptyString).

Definition IPv6Unspecified : Addr := mkAddr 0 0 (z6 EmptyString).

(** [ip.Compare(ip2)]: -1, 0 or 1 *)
Definition Compare (ip ip2 : Addr) : Z :=
  let f1 := BitLen ip in
  let f2 := BitLen ip2 in
  if f1 <? f2 then -1
  else if f2 <? f1 then 1
  else if hi ip <? hi ip2 then -1
  else if hi ip2 <? hi ip then 1
  else if lo ip <? lo ip2 then -1
  else if lo ip2 <? lo ip then 1
  else if Is6 ip then
    match String.compare (Zone ip) (Zone ip2) with
    | Lt => -1
    | Gt => 1
    | Eq => 0
    end
  else 0.

(** *** Parsing *)

Definition perr (input msg at_ : string) : error :=
  parseAddrError input msg at_.

(** The loop of [parseIPv4Fields] over [s = in[off:end]]: [rest] is
    [s[i:]]. *)
Fixpoint parseIPv4Fields_loop (input s rest : string) (i : nat)
    (val : Z) (pos : nat) (digLen : Z) (fields : list Z)
    : list Z * option error :=
  match rest with
  | EmptyString =>
      if (pos <? 3)%nat
      then (fields, Some (perr input "IPv4 address too short" ""))
      else (<[3%nat := val mod 256]> fields, None)
  | String c rest' =>
      if is_digit c then
        if (digLen =? 1) && (val =? 0)
        then (fields,
              Some (perr input "IPv4 field has octet with leading zero" ""))
        else
          let val' := val * 10 + byte_of c - byte_of "0" in
          if 255 <? val'
          then (fields, Some (perr input "IPv4 field has value >255" ""))
          else parseIPv4Fields_loop input s rest' (S i) val' pos
                 (digLen + 1) fields
      else if Ascii.eqb c "." then
        if (i =? 0)%nat
           || (match rest' with EmptyString => true | _ => false end)
           || (match String.get (i - 1) s with
               | Some p => Ascii.eqb p "."
               | None => false
               end)
        then (fields,
              Some (perr input "IPv4 field must have at least one digit"
                      rest))
        else if (pos =? 3)%nat
        then (fields, Some (perr input "IPv4 address too long" ""))
        else parseIPv4Fields_loop input s rest' (S i) 0 (S pos) 0
               (<[pos := val mod 256]> fields)
      else (fields, Some (perr input "unexpected character" rest))
  end.

Definition parseIPv4Fields (input s : string) (fields : list Z)
    : list Z * option error :=
  parseIPv4Fields_loop input s s 0 0 0 0 fields.

Definition parseIPv4 (s : string) : Addr * option error :=
  match parseIPv4Fields s s [0; 0; 0; 0] with
  | (_, Some err) => (zeroAddr, Some err)
  | (fields, None) => (AddrFrom4 fields, None)
  end.

Definition hex_value (c : ascii) : option Z :=
  let b := byte_of c in
  if (byte_of "0" <=? b) && (b <=? byte_of "9") then Some (b - byte_of "0")
  else if (byte_of "a" <=? b) && (b <=? byte_of "f")
  then Some (b - byte_of "a" + 10)
  else if (byte_of "A" <=? b) && (b <=? byte_of "F")
  then Some (b - byte_of "A" + 10)
  else None.

(** The inner loop of [parseIPv6] reading one hexadecimal group of [s]:
    [rest] is [s[off:]]; the result is [off] and [acc]. *)
Fixpoint hex_group (input s rest : string) (off : nat) (acc : Z)
    : (nat * Z) * option error :=
  match rest with
  | EmptyString => ((off, acc), None)
  | String c rest' =>
      match hex_value c with
      | None => ((off, acc), None)
      | Some d =>
          let acc' := (Z.shiftl acc 4 + d) mod 2 ^ 32 in
          if (3 <? off)%nat
          then ((off, acc'),
                Some (perr input "each group must have 4 or less digits" s))
          else if 65535 <? acc'
          then ((off, acc'),
                Some (perr input "IPv6 field has value >=2^16" s))
          else hex_group input s rest' (S off) acc'
      end
  end.

Definition head_is (s : string) (c : ascii) : bool :=
  match s with String a _ => Ascii.eqb a c | EmptyString => false end.

Definition tail (s : string) : string :=
  match s with String _ s' => s' | EmptyString => EmptyString end.

(** [ip[i], ip[i+1], ... = bs] *)
Fixpoint store (ip : list Z) (i : nat) (bs : list Z) : list Z :=
  match bs with
  | [] => ip
  | b :: bs' => store (<[i := b]> ip) (S i) bs'
  end.

(** What the main loop of [parseIPv6] leaves: the unread rest of [s],
    the write position [i], the position of the ellipsis and the bytes. *)
Record v6loop : Type :=
  mkV6 { v6_s : string; v6_i : nat; v6_ellipsis : option nat;
         v6_ip : list Z }.

(** The main loop of [parseIPv6], [for i < 16].  Each turn that goes on
    adds 2 to [i], so 8 turns are all it can take from [i = 0]. *)
Fixpoint parseIPv6_loop (turns : nat) (input s : string) (i : nat)
    (ellipsis : option nat) (ip : list Z) : v6loop * option error :=
  match turns with
  | O => (mkV6 s i ellipsis ip, None)
  | S turns' =>
      if (16 <=? i)%nat then (mkV6 s i ellipsis ip, None) else
      match hex_group input s s 0 0 with
      | (_, Some err) => (mkV6 s i ellipsis ip, Some err)
      | ((off, acc), None) =>
          if (off =? 0)%nat
          then (mkV6 s i ellipsis ip,
                Some (perr input
                  "each colon-separated field must have at least one digit"
                  s))
          else if head_is (from off s) "." then
            if (match ellipsis with None => true | _ => false end)
               && negb (i =? 12)%nat
            then (mkV6 s i ellipsis ip,
                  Some (perr input
                    "embedded IPv4 address must replace the final 2 fields of the address"
                    s))
            else if (16 <? i + 4)%nat
            then (mkV6 s i ellipsis ip,
                  Some (perr input
                    "too many hex fields to fit an embedded IPv4 at the end of the address"
                    s))
            else
              match parseIPv4Fields input s
                      (firstn 4 (skipn i ip)) with
              | (_, Some err) => (mkV6 s i ellipsis ip, Some err)
              | (fields, None) =>
                  (mkV6 EmptyString (i + 4) ellipsis (store ip i fields),
                   None)
              end
          else
            let ip1 :=
              store ip i [Z.shiftr acc 8 mod 256; acc mod 256] in
            let i1 := (i + 2)%nat in
            let s1 := from off s in
            match s1 with
            | EmptyString => (mkV6 s1 i1 ellipsis ip1, None)
            | String c s2 =>
                if negb (Ascii.eqb c ":")
                then (mkV6 s1 i1 ellipsis ip1,
                      Some (perr input
                        "unexpected character, want colon" s1))
                else
                  match s2 with
                  | EmptyString =>
                      (mkV6 s1 i1 ellipsis ip1,
                       Some (perr input
                         "colon must be followed by more characters" s1))
                  | String c2 s3 =>
                      if Ascii.eqb c2 ":" then
                        match ellipsis with
                        | Some _ =>
                            (mkV6 s2 i1 ellipsis ip1,
                             Some (perr input "multiple :: in address" s2))
                        | None =>
                            match s3 with
                            | EmptyString =>
                                (mkV6 s3 i1 (Some i1) ip1, None)
                            | _ =>
                                parseIPv6_loop turns' input s3 i1
                                  (Some i1) ip1
                            end
                        end
                      else parseIPv6_loop turns' input s2 i1 ellipsis ip1
                  end
            end
      end
  end.

(** Expanding the ellipsis: the bytes [ip[ellipsis:i]] move up by
    [n = 16 - i] and [ip[ellipsis:ellipsis+n]] is cleared. *)
Definition expand_ellipsis (ip : list Z) (ellipsis i : nat) : list Z :=
  let n := (16 - i)%nat in
  firstn ellipsis ip ++ repeat 0 n
    ++ firstn (i - ellipsis) (skipn ellipsis ip).

Definition parseIPv6 (input : string) : Addr * option error :=
  let split :=
    match IndexByteString input "%" with
    | Some i => (upto i input, from (S i) input, true)
    | None => (input, EmptyString, false)
    end in
  let '(s, zone, explicit) := split in
  if explicit && (len zone =? 0)
  then (zeroAddr,
        Some (perr input "zone must be a non-empty string" ""))
  else
    let lead := head_is s ":" && head_is (tail s) ":" in
    let s0 := if lead then from 2 s else s in
    let ellipsis0 := if lead then Some 0%nat else None in
    if lead && (len s0 =? 0)
    then (WithZone IPv6Unspecified zone, None)
    else
      match parseIPv6_loop 8 input s0 0 ellipsis0 (repeat 0 16) with
      | (_, Some err) => (zeroAddr, Some err)
      | (r, None) =>
          if negb (len (v6_s r) =? 0)
          then (zeroAddr,
                Some (perr input "trailing garbage after address"
                        (v6_s r)))
          else if (v6_i r <? 16)%nat then
            match v6_ellipsis r with
            | None =>
                (zeroAddr, Some (perr input "address string too short" ""))
            | Some e =>
                (WithZone
                   (AddrFrom16 (expand_ellipsis (v6_ip r) e (v6_i r)))
                   zone, None)
            end
          else
            match v6_ellipsis r with
            | Some _ =>
                (zeroAddr,
                 Some (perr input
                   "the :: must expand to at least one field of zeros" ""))
            | None => (WithZone (AddrFrom16 (v6_ip r)) zone, None)
            end
      end.

(** The scan of [ParseAddr] for the first of ['.'], [':'] and ['%']. *)
Fixpoint ParseAddr_scan (s rest : string) : Addr * option error :=
  match rest with
  | EmptyString => (zeroAddr, Some (perr s "unable to parse IP" ""))
  | String c rest' =>
      if Ascii.eqb c "." then parseIPv4 s
      else if Ascii.eqb c ":" then parseIPv6 s
      else if Ascii.eqb c "%"
      then (zeroAddr, Some (perr s "missing IPv6 address" ""))
      else ParseAddr_scan s rest'
  end.

Definition ParseAddr (s : string) : Addr * option error :=
  ParseAddr_scan s s.

(** *** Prefixes *)

Record Prefix : Type := mkPrefix { ip : Addr; bitsPlusOne : Z }.

Definition zeroPrefix : Prefix := mkPrefix zeroAddr 0.

Definition PrefixIsValid (p : Prefix) : bool := 0 <? bitsPlusOne p.

Definition Bits (p : Prefix) : Z := bitsPlusOne p - 1.

Definition PrefixFrom (a : Addr) (bits : Z) : Prefix :=
  let bitsPlusOne :=
    if negb (isZero a) && (0 <=? bits) && (bits <=? BitLen a)
    then (bits mod 256 + 1) mod 256 else 0 in
  mkPrefix (withoutZone a) bitsPlusOne.

(** [strconv.Atoi] on the strings [ParsePrefix] lets through to it: a
    sign is refused before the call unless it stands alone, and alone it
    is a syntax error, so decimal digits are all that converts. *)
Fixpoint atoi_digits (s : string) (acc : Z) : option Z :=
  match s with
  | EmptyString => Some acc
  | String c s' =>
      if is_digit c
      then atoi_digits s' (acc * 10 + byte_of c - byte_of "0")
      else None
  end.

Definition Atoi (s : string) : option Z :=
  match s with
  | EmptyString => None
  | _ => atoi_digits s 0
  end.

Definition ParsePrefix (s : string) : Prefix * option error :=
  match LastIndexByteString s "/" with
  | None => (zeroPrefix, Some (parsePrefixError s "no '/'"))
  | Some i =>
      match ParseAddr (upto i s) with
      | (_, Some err) => (zeroPrefix, Some (parsePrefixErrorE s err))
      | (a, None) =>
          if Is6 a && hasZone a
          then (zeroPrefix,
                Some (parsePrefixError s
                        "IPv6 zones cannot be present in a prefix"))
          else
            let bitsStr := from (S i) s in
            if (1 <? len bitsStr)
               && negb ((byte_of "1" <=? byte_of (default "0"%char
                                                    (String.get 0 bitsStr)))
                        && (byte_of (default "0"%char
                                       (String.get 0 bitsStr))
                            <=? byte_of "9"))
            then (zeroPrefix,
                  Some (parsePrefixError s "bad bits after slash"))
            else
              match Atoi bitsStr with
              | None =>
                  (zeroPrefix,
                   Some (parsePrefixError s "bad bits after slash"))
              | Some bits =>
                  let maxBits := if Is6 a then 128 else 32 in
                  if (bits <? 0) || (maxBits <? bits)
                  then (zeroPrefix,
                        Some (parsePrefixError s
                                "prefix length out of range"))
                  else (PrefixFrom a bits, None)
              end
      end
  end.

(** [MustParsePrefix] panics where [ParsePrefix] fails; the prefixes the
    program passes are literals that parse ([MustParsePrefix_classB],
    [MustParsePrefix_cgnat] below), and the panic is not modelled. *)
Definition MustParsePrefix (s : string) : Prefix := fst (ParsePrefix s).

Definition not64 (x : Z) : Z := Z.lxor x (Z.ones 64).

Definition shr64 (x n : Z) : Z := if n <? 64 then Z.shiftr x n else 0.

Definition shl64 (x n : Z) : Z :=
  if n <? 64 then Z.shiftl x n mod 2 ^ 64 else 0.

(** [mask6 n]: the two halves of the 128-bit mask with [n] leading ones *)
Definition mask6 (n : Z) : Z * Z :=
  (not64 (shr64 (Z.ones 64) n), shl64 (Z.ones 64) (128 - n)).

Definition Contains (p : Prefix) (a : Addr) : bool :=
  if negb (PrefixIsValid p) || hasZone a then false
  else
    let f1 := BitLen (ip p) in
    let f2 := BitLen a in
    if (f1 =? 0) || (f2 =? 0) || negb (f1 =? f2) then false
    else if Is4 a then
      Z.land (Z.shiftr (Z.lxor (lo a) (lo (ip p)))
                (Z.land (32 - Bits p) 63))
             (Z.ones 32) =? 0
    else
      let m := mask6 (Bits p) in
      (Z.land (Z.lxor (hi a) (hi (ip p))) (fst m) =? 0)
      && (Z.land (Z.lxor (lo a) (lo (ip p))) (snd m) =? 0).

(** *** The text of an address *)

(** [digits[i]], of the constant ["0123456789abcdef"] *)
Definition digit (i : Z) : ascii :=
  default "0"%char (String.get (Z.to_nat i) "0123456789abcdef").

(** [appendDecimal(b, x)]: a byte in decimal *)
Definition appendDecimal (b : string) (x : Z) : string :=
  let b := if 100 <=? x then (b ++ String (digit (x / 100)) "")%string else b in
  let b :=
    if 10 <=? x then (b ++ String (digit (x / 10 mod 10)) "")%string else b in
  (b ++ String (digit (x mod 10)) "")%string.

(** [appendHex(b, x)]: a 16-bit group in hexadecimal, no leading zero *)
Definition appendHex (b : string) (x : Z) : string :=
  let b :=
    if 0x1000 <=? x then (b ++ String (digit (Z.shiftr x 12)) "")%string
    else b in
  let b :=
    if 0x100 <=? x
    then (b ++ String (digit (Z.land (Z.shiftr x 8) 0xf)) "")%string else b in
  let b :=
    if 0x10 <=? x
    then (b ++ String (digit (Z.land (Z.shiftr x 4) 0xf)) "")%string else b in
  (b ++ String (digit (Z.land x 0xf)) "")%string.

(** [ip.v4(i)]: the [i]th byte of an IPv4 address *)
Definition v4byte (a : Addr) (i : Z) : Z :=
  Z.shiftr (lo a) ((3 - i) * 8) mod 256.

(** [ip.v6u16(i)]: the [i]th 16-bit group of an IPv6 address *)
Definition v6u16 (a : Addr) (i : Z) : Z :=
  Z.shiftr (if (i / 4) mod 2 =? 0 then hi a else lo a) ((3 - i mod 4) * 16)
    mod 2 ^ 16.

Definition appendTo4 (ret : string) (a : Addr) : string :=
  let ret := appendDecimal ret (v4byte a 0) in
  let ret := (ret ++ ".")%string in
  let ret := appendDecimal ret (v4byte a 1) in
  let ret := (ret ++ ".")%string in
  let ret := appendDecimal ret (v4byte a 2) in
  let ret := (ret ++ ".")%string in
  appendDecimal ret (v4byte a 3).

(** The inner loop of the first loop of [appendTo6]: the end of the run
    of zero groups that starts at group [j]. *)
Fixpoint zero_run (a : Addr) (n : nat) (j : Z) : Z :=
  match n with
  | O => j
  | S n' => if (j <? 8) && (v6u16 a j =? 0) then zero_run a n' (j + 1) else j
  end.

(** The first loop of [appendTo6]: the longest run of two or more zero
    groups, the first such if there are several. *)
Definition longest_zero_run (a : Addr) : Z * Z :=
  fold_left
    (fun '(zeroStart, zeroEnd) i =>
       let j := zero_run a 8 i in
       let l := j - i in
       if (2 <=? l) && (zeroEnd - zeroStart <? l) then (i, j)
       else (zeroStart, zeroEnd))
    [0; 1; 2; 3; 4; 5; 6; 7] (255, 255).

(** The second loop of [appendTo6], from group [i]. *)
Fixpoint appendTo6_loop (a : Addr) (zeroStart zeroEnd : Z) (n : nat) (i : Z)
    (ret : string) : string :=
  match n with
  | O => ret
  | S n' =>
      if 8 <=? i then ret
      else if i =? zeroStart then
        let ret := (ret ++ "::")%string in
        let i := zeroEnd in
        if 8 <=? i then ret
        else appendTo6_loop a zeroStart zeroEnd n' (i + 1)
               (appendHex ret (v6u16 a i))
      else
        let ret := if 0 <? i then (ret ++ ":")%string else ret in
        appendTo6_loop a zeroStart zeroEnd n' (i + 1)
          (appendHex ret (v6u16 a i))
  end.

Definition appendTo6 (ret : string) (a : Addr) : string :=
  let '(zeroStart, zeroEnd) := longest_zero_run a in
  let ret := appendTo6_loop a zeroStart zeroEnd 8 0 ret in
  if negb (len (Zone a) =? 0) then (ret ++ "%" ++ Zone a)%string else ret.

(** [ip.Is4In6()]: an IPv4-mapped IPv6 address *)
Definition Is4In6 (a : Addr) : bool :=
  Is6 a && (hi a =? 0) && (Z.shiftr (lo a) 32 =? 0xffff).

(** [appendTo4In6]; the address it unmaps has a zero upper half. *)
Definition appendTo4In6 (ret : string) (a : Addr) : string :=
  let ret := (ret ++ "::ffff:")%string in
  let ret := appendTo4 ret (mkAddr 0 (lo a) z4) in
  if negb (len (Zone a) =? 0) then (ret ++ "%" ++ Zone a)%string else ret.

(** [ip.String()] *)
Definition Addr_String (a : Addr) : string :=
  match z a with
  | z0 => "invalid IP"
  | z4 => appendTo4 "" a
  | z6 _ => if Is4In6 a then appendTo4In6 "" a else appendTo6 "" a
  end.

End netip.

(** ** Package [internal/itoa] *)

Module itoa.
Import bytealg.

(** The loop of [Uitoa], which writes the digits from the last one; a Go
    [uint] has at most twenty of them. *)
Fixpoint Uitoa_loop (n : nat) (val : Z) (buf : string) : string :=
  match n with
  | O => buf
  | S n' =>
      if 10 <=? val then
        let q := val / 10 in
        Uitoa_loop n' q (String (char_of (byte_of "0" + val - q * 10)) buf)
      else String (char_of (byte_of "0" + val)) buf
  end.

Definition Uitoa (val : Z) : string :=
  if val =? 0 then "0" else Uitoa_loop 20 val "".

Definition Itoa (val : Z) : string :=
  if val <? 0 then ("-" ++ Uitoa (- val))%string else Uitoa val.

End itoa.

(** ** Package [net] *)

Module net.
Import bytealg.

Definition addrErr (addr why : string)
    : string * string * option error :=
  (EmptyString, EmptyString, Some (AddrError why addr)).

Definition has (s : string) (c : ascii) : bool :=
  match IndexByteString s c with Some _ => true | None => false end.

Definition SplitHostPort (hostport : string)
    : string * string * option error :=
  let missingPort := "missing port in address" in
  let tooManyColons := "too many colons in address" in
  match LastIndexByteString hostport ":" with
  | None => addrErr hostport missingPort
  | Some i =>
      let finish (host : string) (j k : nat) :=
        if has (from j hostport) "["
        then addrErr hostport "unexpected '[' in address"
        else if has (from k hostport) "]"
        then addrErr hostport "unexpected ']' in address"
        else (host, from (S i) hostport, None) in
      if netip.head_is hostport "[" then
        match IndexByteString hostport "]" with
        | None => addrErr hostport "missing ']' in address"
        | Some e =>
            if (S e =? String.length hostport)%nat
            then addrErr hostport missingPort
            else if (S e =? i)%nat
            then finish (String.substring 1 (e - 1) hostport) 1%nat (S e)
            else if netip.head_is (from (S e) hostport) ":"
            then addrErr hostport tooManyColons
            else addrErr hostport missingPort
        end
      else
        let host := upto i hostport in
        if has host ":"
        then addrErr hostport tooManyColons
        else finish host 0%nat 0%nat
  end.

(** [*net.TCPAddr] *)
Record TCPAddr : Type :=
  mkTCPAddr { IP : list Z; Port : Z; Zone : string }.

(** A [net.Addr] as the handler sees it: the result of its [String]
    method, and the outcome of the type assertion to [*net.TCPAddr]. *)
Record Addr : Type :=
  mkAddr { String_ : string; asTCPAddr : option TCPAddr }.

(** *** The text of a TCP address *)

Definition JoinHostPort (host port : string) : string :=
  if has host ":" then ("[" ++ host ++ "]:" ++ port)%string
  else (host ++ ":" ++ port)%string.

Definition isZeros (p : list Z) : bool := forallb (fun b => b =? 0) p.

(** [ip.To4()]; the empty list is [nil]. *)
Definition To4 (ip : list Z) : list Z :=
  if (length ip =? 4)%nat then ip
  else if (length ip =? 16)%nat && isZeros (firstn 10 ip)
          && (nth 10 ip 0 =? 0xff) && (nth 11 ip 0 =? 0xff)
  then firstn 4 (skipn 12 ip)
  else [].

Definition hexString (b : list Z) : string :=
  fold_right
    (fun tn s =>
       String (netip.digit (Z.shiftr tn 4))
         (String (netip.digit (Z.land tn 0xf)) s))
    EmptyString b.

(** [ip.String()] of a [net.IP] *)
Definition IP_String (ip : list Z) : string :=
  if (length ip =? 0)%nat then "<nil>"
  else if negb (length ip =? 4)%nat && negb (length ip =? 16)%nat
  then ("?" ++ hexString ip)%string
  else if (length (To4 ip) =? 4)%nat
  then netip.Addr_String (netip.AddrFrom4 (To4 ip))
  else netip.Addr_String (netip.AddrFrom16 ip).

Definition ipEmptyString (ip : list Z) : string :=
  if (length ip =? 0)%nat then "" else IP_String ip.

(** [a.String()] of a [*net.TCPAddr]: what [conn.RemoteAddr().String()]
    is on a TCP connection. *)
Definition TCPAddr_String (a : TCPAddr) : string :=
  let ip := ipEmptyString (IP a) in
  if negb (len (Zone a) =? 0)
  then JoinHostPort (ip ++ "%" ++ Zone a) (itoa.Itoa (Port a))
  else JoinHostPort ip (itoa.Itoa (Port a)).

End net.

(** ** Package [socks5] *)

Module socks5.
Import bytealg.

Definition socks5Version : Z := 5.

(** *** Declarations of the package that the server file uses *)

(** Modelled from the spec: the [CredentialStore] interface is declared
    outside the server file; the spec has it as a mapping from username
    to secret. *)
Definition CredentialStore : Type := list (string * string).

(** Modelled from the spec: the [Authenticator] interface and the two
    default authenticators are declared outside the server file.  Each
    authenticator is keyed by a one-byte method identifier; the no-auth
    and the username/password methods are the defaults, with RFC 1928's
    and RFC 1929's identifiers. *)
Inductive Authenticator : Type :=
  | NoAuthAuthenticator
  | UserPassAuthenticator (Credentials : CredentialStore)
  | CustomAuthenticator (code : Z) (name : string).

Definition NoAuth : Z := 0.
Definition UserPassAuth : Z := 2.

Definition GetCode (a : Authenticator) : Z :=
  match a with
  | NoAuthAuthenticator => NoAuth
  | UserPassAuthenticator _ => UserPassAuth
  | CustomAuthenticator code _ => code mod 256
  end.

(** Modelled from the spec: the resolver, rule set and rewriter
    capabilities with their defaults. *)
Inductive NameResolver : Type :=
  | DNSResolver
  | CustomResolver (name : string).

Inductive RuleSet : Type :=
  | PermitAll
  | PermitDestAddrPattern (pattern : string)
  | CustomRules (name : string).

Inductive AddressRewriter : Type :=
  | CustomRewriter (name : string).

Inductive logrus_Logger : Type :=
  | StandardLogger
  | CustomLogger (name : string).

Inductive Dialer : Type :=
  | CustomDial (name : string).

(** Modelled from the spec: the Authentication Context records the method
    that succeeded and its payload. *)
Record AuthContext : Type :=
  mkAuthContext { Method : Z; Payload : list (string * string) }.

(** Modelled from the spec: an Address Specification is a domain name or
    an IP address, and a port. *)
Record AddrSpec : Type :=
  mkAddrSpec { FQDN : string; IP : netip.Addr; Port : Z }.

(** Modelled from the spec: a Request has the command, the destination,
    the Authentication Context and the observed remote address. *)
Record Request : Type :=
  mkRequest { Version : Z; Command : Z;
              ReqAuthContext : option AuthContext;
              RemoteAddr : option AddrSpec;
              DestAddr : option AddrSpec }.

(** *** [Config] and [Server] *)

Record Config : Type :=
  mkConfig { AuthMethods : list Authenticator;
             Credentials : option CredentialStore;
             Resolver : option NameResolver;
             Rules : option RuleSet;
             Rewriter : option AddressRewriter;
             BindIP : netip.Addr;
             Logger : option logrus_Logger;
             Dial : option Dialer }.

Record Server : Type :=
  mkServer { config : Config;
             authMethods : gmap Z Authenticator;
             isIPAllowed : netip.Addr -> bool }.

Definition set_AuthMethods (l : list Authenticator) (c : Config) : Config :=
  mkConfig l (Credentials c) (Resolver c) (Rules c) (Rewriter c)
    (BindIP c) (Logger c) (Dial c).

Definition set_Resolver (r : option NameResolver) (c : Config) : Config :=
  mkConfig (AuthMethods c) (Credentials c) r (Rules c) (Rewriter c)
    (BindIP c) (Logger c) (Dial c).

Definition set_Rules (r : option RuleSet) (c : Config) : Config :=
  mkConfig (AuthMethods c) (Credentials c) (Resolver c) r (Rewriter c)
    (BindIP c) (Logger c) (Dial c).

Definition set_Logger (l : option logrus_Logger) (c : Config) : Config :=
  mkConfig (AuthMethods c) (Credentials c) (Resolver c) (Rules c)
    (Rewriter c) (BindIP c) l (Dial c).

Definition set_authMethods (m : gmap Z Authenticator) (s : Server)
    : Server :=
  mkServer (config s) m (isIPAllowed s).

Definition set_isIPAllowed (f : netip.Addr -> bool) (s : Server) : Server :=
  mkServer (config s) (authMethods s) f.

(** [New] creates a new Server; [conf] is updated in place and the server
    keeps it. *)
Definition New (conf : Config) : Server * option error :=
  (* Ensure we have at least one authentication method enabled *)
  let conf :=
    if (length (AuthMethods conf) =? 0)%nat then
      match Credentials conf with
      | Some credentials =>
          set_AuthMethods [UserPassAuthenticator credentials] conf
      | None => set_AuthMethods [NoAuthAuthenticator] conf
      end
    else conf in
  (* Ensure we have a DNS resolver *)
  let conf :=
    match Resolver conf with
    | None => set_Resolver (Some DNSResolver) conf
    | Some _ => conf
    end in
  (* Ensure we have a rule set *)
  let conf :=
    match Rules conf with
    | None => set_Rules (Some PermitAll) conf
    | Some _ => conf
    end in
  (* Ensure we have a log target *)
  let conf :=
    match Logger conf with
    | None => set_Logger (Some StandardLogger) conf
    | Some _ => conf
    end in
  let server := mkServer conf ∅ (fun _ => false) in
  let server :=
    fold_left
      (fun server a =>
         set_authMethods (<[GetCode a := a]> (authMethods server)) server)
      (AuthMethods conf) server in
  (* Set default IP whitelist function *)
  let server := set_isIPAllowed (fun ip => false) server in
  (server, None).

(** The closure [SetIPWhitelist] installs: a scan of [allowedIPs]. *)
Fixpoint scan_allowed (ip : netip.Addr) (allowedIPs : list netip.Addr)
    : bool :=
  match allowedIPs with
  | [] => false
  | allowedIP :: rest =>
      if netip.Compare ip allowedIP =? 0 then true
      else scan_allowed ip rest
  end.

Definition SetIPWhitelist (s : Server) (allowedIPs : list netip.Addr)
    : Server :=
  set_isIPAllowed (fun ip => scan_allowed ip allowedIPs) s.

Definition IsDockerNetwork (s : Server) (ip : netip.Addr) : bool :=
  if negb (netip.IsValid ip) || negb (netip.Is4 ip) then false
  else
    (* Class B private range in CIDR notation: 172.16.0.0/12 *)
    let classBCIDR := netip.MustParsePrefix "172.16.0.0/12" in
    netip.Contains classBCIDR ip.

Definition IsTailScale (s : Server) (ip : netip.Addr) : bool :=
  if negb (netip.IsValid ip) || negb (netip.Is4 ip) then false
  else
    (* CGNAT range in CIDR notation: 100.64.0.0/10 *)
    let cgnatCIDR := netip.MustParsePrefix "100.64.0.0/10" in
    netip.Contains cgnatCIDR ip.

(** *** The connection and the log, as the handler drives them *)

Inductive Level : Type := ErrorLevel | WarnLevel | InfoLevel.

Inductive LogArg : Type :=
  | ArgString (s : string)
  | ArgError (e : error).

(** What one [Read] on the connection returns: [Data b] is
    [(len(b), nil)], [Fail e] is [(0, e)]. *)
Inductive ReadOutcome : Type :=
  | Data (b : list Z)
  | Fail (e : error).

(** What the handler does to the outside, in order: a line handed to the
    logger (format and argument, unexpanded), a [Read] on the connection
    with what it returned, a [Write] on the connection with the bytes
    passed to it, and the [Close]. *)
Inductive Event : Type :=
  | EvLog (lvl : Level) (format : string) (arg : LogArg)
  | EvRead (o : ReadOutcome)
  | EvWrite (b : list Z)
  | EvClose.

(** A [net.Conn]: its remote address, and what its successive [Read] and
    [Write] calls will return (past the end of [reads], end of stream;
    past the end of [writes], success). *)
Record Conn : Type :=
  mkConn { ConnRemoteAddr : net.Addr;
           reads : list ReadOutcome;
           writes : list (option error) }.

(** The state a run of the handler threads: the bytes the [bufio.Reader]
    holds unread, what is left of the connection's reads and writes, and
    the events so far. *)
Record State : Type :=
  mkState { bufConn : list Z;
            rd : list ReadOutcome;
            wr : list (option error);
            trace : list Event }.

Definition emit (e : Event) (st : State) : State :=
  mkState (bufConn st) (rd st) (wr st) (trace st ++ [e]).

Definition set_bufConn (b : list Z) (st : State) : State :=
  mkState b (rd st) (wr st) (trace st).

Definition Errorf (format : string) (arg : LogArg) (st : State) : State :=
  emit (EvLog ErrorLevel format arg) st.

Definition Warnf (format : string) (arg : LogArg) (st : State) : State :=
  emit (EvLog WarnLevel format arg) st.

Definition Infof (format : string) (arg : LogArg) (st : State) : State :=
  emit (EvLog InfoLevel format arg) st.

(** [conn.Read(p)] *)
Definition conn_Read (st : State) : ReadOutcome * State :=
  match rd st with
  | [] => (Fail io_EOF, emit (EvRead (Fail io_EOF)) st)
  | o :: rest =>
      (o, emit (EvRead o) (mkState (bufConn st) rest (wr st) (trace st)))
  end.

(** [conn.Write(b)] *)
Definition conn_Write (b : list Z) (st : State) : option error * State :=
  match wr st with
  | [] => (None, emit (EvWrite b) st)
  | r :: rest =>
      (r, emit (EvWrite b) (mkState (bufConn st) (rd st) rest (trace st)))
  end.

(** [conn.Close()] *)
Definition conn_Close (st : State) : State := emit EvClose st.

(** [bufConn.Read(p)] for a slice [p] of [k] bytes, [k] positive and
    smaller than the reader's buffer: with nothing buffered, one [Read]
    on the connection fills the buffer; then as much as fits is copied.
    The result is the bytes copied into [p] and the error. *)
Definition bufio_Read (k : nat) (st : State)
    : (list Z * option error) * State :=
  match bufConn st with
  | [] =>
      match conn_Read st with
      | (Fail e, st) => (([], Some e), st)
      | (Data [], st) => (([], None), st)
      | (Data b, st) => ((firstn k b, None), set_bufConn (skipn k b) st)
      end
  | b => ((firstn k b, None), set_bufConn (skipn k b) st)
  end.

(** *** Request decoding and reply encoding *)

Definition ipv4Address : Z := 1.
Definition fqdnAddress : Z := 3.
Definition ipv6Address : Z := 4.

Definition addrTypeNotSupported : Z := 8.

(** Reading exactly [need] bytes through the buffered reader: what is
    buffered first, then reads on the connection until enough has come
    or one fails. *)
Definition unexpected (acc : list Z) (e : error) : error :=
  match e, acc with
  | io_EOF, _ :: _ => io_ErrUnexpectedEOF
  | _, _ => e
  end.

Fixpoint fill (need : nat) (acc : list Z) (script : list ReadOutcome)
    (w : list (option error)) (tr : list Event)
    : (list Z * option error) * State :=
  match script with
  | [] =>
      ((acc, Some (unexpected acc io_EOF)),
       mkState [] [] w (tr ++ [EvRead (Fail io_EOF)]))
  | o :: script' =>
      let tr := tr ++ [EvRead o] in
      match o with
      | Fail e => ((acc, Some (unexpected acc e)), mkState [] script' w tr)
      | Data b =>
          if (need <=? length b)%nat
          then ((acc ++ firstn need b, None),
                mkState (skipn need b) script' w tr)
          else fill (need - length b) (acc ++ b) script' w tr
      end
  end.

Definition ReadFull (need : nat) (st : State)
    : (list Z * option error) * State :=
  let b := bufConn st in
  if (need <=? length b)%nat
  then ((firstn need b, None), set_bufConn (skipn need b) st)
  else fill (need - length b) b (rd st) (wr st) (trace st).

Definition port_of (b : list Z) : Z :=
  Z.lor (Z.shiftl (netip.byte_at b 0) 8) (netip.byte_at b 1).

(** Modelled from the spec: the address part of a request, which the
    package decodes outside the server file.  One byte selects IPv4
    (4 bytes), a domain name (1 length byte and that many bytes) or IPv6
    (16 bytes); any other byte is the unrecognized-address-type error;
    a 2-byte big-endian port follows. *)
Definition readAddrSpec (st : State) : (AddrSpec + error) * State :=
  match ReadFull 1 st with
  | ((_, Some err), st) => (inr err, st)
  | ((addrType, None), st) =>
      let atyp := netip.byte_at addrType 0 in
      let port (d : AddrSpec) (st : State) :=
        match ReadFull 2 st with
        | ((_, Some err), st) => (inr err, st)
        | ((p, None), st) =>
            (inl (mkAddrSpec (FQDN d) (IP d) (port_of p)), st)
        end in
      if atyp =? ipv4Address then
        match ReadFull 4 st with
        | ((_, Some err), st) => (inr err, st)
        | ((addr, None), st) =>
            port (mkAddrSpec "" (netip.AddrFrom4 addr) 0) st
        end
      else if atyp =? fqdnAddress then
        match ReadFull 1 st with
        | ((_, Some err), st) => (inr err, st)
        | ((l, None), st) =>
            match ReadFull (Z.to_nat (netip.byte_at l 0)) st with
            | ((_, Some err), st) => (inr err, st)
            | ((fqdn, None), st) =>
                port (mkAddrSpec (string_of_bytes fqdn) netip.zeroAddr 0) st
            end
        end
      else if atyp =? ipv6Address then
        match ReadFull 16 st with
        | ((_, Some err), st) => (inr err, st)
        | ((addr, None), st) =>
            port (mkAddrSpec "" (netip.AddrFrom16 addr) 0) st
        end
      else (inr ErrUnrecognizedAddrType, st)
  end.

(** Modelled from the spec: [NewRequest], declared outside the server
    file, decodes the request [VER(1)=5, CMD(1), RSV(1), ATYP(1),
    DST.ADDR, DST.PORT(2)] from the buffered reader or fails; the
    unrecognized address type is the distinguished error. *)
Definition NewRequest (st : State) : (Request + error) * State :=
  match ReadFull 3 st with
  | ((_, Some err), st) =>
      (inr (ErrorfE "failed to get command version: %v" err), st)
  | ((header, None), st) =>
      if negb (netip.byte_at header 0 =? socks5Version)
      then (inr (ErrorfV "unsupported command version: %v"
                   [netip.byte_at header 0]), st)
      else
        match readAddrSpec st with
        | (inr err, st) => (inr err, st)
        | (inl dest, st) =>
            (inl (mkRequest socks5Version (netip.byte_at header 1)
                    None None (Some dest)), st)
        end
  end.

(** The 16 bytes of an address, and the last 4 of them. *)
Definition be_bytes (n : nat) (x : Z) : list Z :=
  map (fun i => Z.shiftr x (8 * Z.of_nat (n - 1 - i)) mod 256) (seq 0 n).

Definition As16 (a : netip.Addr) : list Z :=
  be_bytes 8 (netip.hi a) ++ be_bytes 8 (netip.lo a).

Definition As4 (a : netip.Addr) : list Z := be_bytes 4 (netip.lo a).

(** Modelled from the spec: [sendReply], declared outside the server
    file, writes one reply frame: version byte, reply code, reserved
    byte, and the bound address with its port; an absent address is
    written as the zero IPv4 address and port. *)
Definition sendReply (resp : Z) (addr : option AddrSpec) (st : State)
    : option error * State :=
  let body :=
    match addr with
    | None => inl (ipv4Address, [0; 0; 0; 0], 0)
    | Some a =>
        if negb (len (FQDN a) =? 0)
        then inl (fqdnAddress,
                  len (FQDN a) mod 256
                    :: map byte_of (list_ascii_of_string (FQDN a)),
                  Port a)
        else if netip.Is4 (IP a) then inl (ipv4Address, As4 (IP a), Port a)
        else if netip.Is6 (IP a) then inl (ipv6Address, As16 (IP a), Port a)
        else inr (Errorf0 "failed to format address")
    end in
  match body with
  | inr err => (Some err, st)
  | inl (addrType, addrBody, addrPort) =>
      conn_Write
        ([socks5Version; resp; 0; addrType] ++ addrBody
           ++ [Z.shiftr addrPort 8 mod 256; addrPort mod 256]) st
  end.

(** *** The connection handler *)

Section Handler.

(** The two steps of the handler that the package implements outside
    the server file: the authentication negotiation, which reads from
    the buffered reader and writes to the connection, and the
    processing of the decoded request. *)
Variable authenticate :
  Server -> State -> (option AuthContext * option error) * State.
Variable handleRequest :
  Server -> Request -> State -> option error * State.

(** A call of an outside step: the step works on the connection and the
    buffered reader as they are, and what it does is added to the events
    so far. *)
Definition call {A : Type} (step : State -> A * State) (st : State)
    : A * State :=
  let '(a, st') := step (mkState (bufConn st) (rd st) (wr st) []) in
  (a, mkState (bufConn st') (rd st') (wr st') (trace st ++ trace st')).

(** The state in which the handler starts on [conn]: the new
    [bufio.Reader] holds nothing. *)
Definition start (conn : Conn) : State :=
  mkState [] (reads conn) (writes conn) [].

Definition set_AuthContext (a : option AuthContext) (r : Request)
    : Request :=
  mkRequest (Version r) (Command r) a (RemoteAddr r) (DestAddr r).

Definition set_RemoteAddr (a : option AddrSpec) (r : Request) : Request :=
  mkRequest (Version r) (Command r) (ReqAuthContext r) a (DestAddr r).

(** The body of [ServeConn], from the check of the client IP on. *)
Definition serve (s : Server) (conn : Conn) (st : State)
    : option error * State :=
  (* Check client IP against whitelist *)
  match net.SplitHostPort (net.String_ (ConnRemoteAddr conn)) with
  | (_, _, Some err) =>
      (Some err,
       Errorf "failed to get client IP address: %v" (ArgError err) st)
  | (clientIP, _, None) =>
      let ip := fst (netip.ParseAddr clientIP) in
      let gate :=
        if IsDockerNetwork s ip then
          (None,
           Infof "connection from Docker IP address: %s"
             (ArgString clientIP) st)
        else if IsTailScale s ip then
          (None,
           Infof "connection from Tailscale IP address: %s"
             (ArgString clientIP) st)
        else if isIPAllowed s ip then
          (None,
           Infof "connection from allowed address: %s"
             (ArgString clientIP) st)
        else
          (Some (Errorf0 "connection from not allowed IP address"),
           Warnf "connection from not allowed IP address: %s"
             (ArgString clientIP) st) in
      match gate with
      | (Some err, st) => (Some err, st)
      | (None, st) =>
          (* Read the version byte *)
          match bufio_Read 1 st with
          | ((_, Some err), st) =>
              (Some err,
               Errorf "failed to get version byte: %v" (ArgError err) st)
          | ((b, None), st) =>
              let version := match b with [] => [0] | _ => b end in
              (* Ensure we are compatible *)
              if negb (netip.byte_at version 0 =? socks5Version) then
                let err :=
                  ErrorfV "unsupported SOCKS version: %v" version in
                (Some err, Errorf "socks: %v" (ArgError err) st)
              else
                (* Authenticate the connection *)
                match call (authenticate s) st with
                | ((_, Some err), st) =>
                    let err := ErrorfE "failed to authenticate: %v" err in
                    (Some err, Errorf "socks: %v" (ArgError err) st)
                | ((authContext, None), st) =>
                    match NewRequest st with
                    | (inr err, st) =>
                        match err with
                        | ErrUnrecognizedAddrType =>
                            match sendReply addrTypeNotSupported None st
                            with
                            | (Some err, st) =>
                                (Some (ErrorfE
                                         "failed to send reply: %v" err),
                                 st)
                            | (None, st) =>
                                (Some (ErrorfE
                                   "failed to read destination address: %v"
                                   err), st)
                            end
                        | _ =>
                            (Some (ErrorfE
                               "failed to read destination address: %v"
                               err), st)
                        end
                    | (inl request, st) =>
                        let request :=
                          set_AuthContext authContext request in
                        let request :=
                          match net.asTCPAddr (ConnRemoteAddr conn) with
                          | Some client =>
                              let addr :=
                                fst (netip.ParseAddr
                                       (string_of_bytes (net.IP client)))
                              in
                              set_RemoteAddr
                                (Some (mkAddrSpec "" addr
                                         (net.Port client))) request
                          | None => request
                          end in
                        (* Process the client request *)
                        match call (handleRequest s request) st with
                        | (Some err, st) =>
                            let err :=
                              ErrorfE "failed to handle request: %v" err
                            in
                            (Some err,
                             Errorf "socks: %v" (ArgError err) st)
                        | (None, st) => (None, st)
                        end
                    end
                end
          end
      end
  end.

(** [ServeConn] serves a single connection; the deferred [Close] runs
    when it returns. *)
Definition ServeConn (s : Server) (conn : Conn) : option error * State :=
  let '(err, st) := serve s conn (start conn) in
  (err, conn_Close st).

End Handler.

(** *** Instances of the two outside steps, for running the handler *)

(** An authentication step: RFC 1928's negotiation, which reads the
    client's method list and answers with the no-auth method when the
    server has it registered and the client offers it, and with "no
    acceptable method" otherwise. *)
Definition authenticate_noauth (s : Server) (st : State)
    : (option AuthContext * option error) * State :=
  match ReadFull 1 st with
  | ((_, Some err), st) => ((None, Some err), st)
  | ((n, None), st) =>
      match ReadFull (Z.to_nat (netip.byte_at n 0)) st with
      | ((_, Some err), st) => ((None, Some err), st)
      | ((methods, None), st) =>
          if existsb
               (fun m =>
                  (m =? NoAuth)
                  && match authMethods s !! m with
                     | Some NoAuthAuthenticator => true
                     | _ => false
                     end) methods
          then
            match conn_Write [socks5Version; NoAuth] st with
            | (Some err, st) => ((None, Some err), st)
            | (None, st) => ((Some (mkAuthContext NoAuth []), None), st)
            end
          else
            let '(_, st) := conn_Write [socks5Version; 255] st in
            ((None, Some (Errorf0 "no supported authentication mechanism")),
             st)
      end
  end.

(** A request step that answers every request with the success reply
    and no bound address. *)
Definition handleRequest_succeed (s : Server) (req : Request) (st : State)
    : option error * State :=
  sendReply 0 None st.

(** *** The accept loop *)

(** One call of [l.Accept()]. *)
Inductive AcceptOutcome : Type :=
  | Accepted (conn : Conn)
  | AcceptFail (err : error).

(** How a call of [Serve] ends: it returns, or it waits in [Accept] for
    ever. *)
Inductive ServeOutcome : Type :=
  | Returns (err : option error)
  | Blocks.

Section Listener.

Variable authenticate :
  Server -> State -> (option AuthContext * option error) * State.
Variable handleRequest : Server -> Request -> State -> option error * State.

(** [Serve] on a listener whose calls of [Accept] come out as [l], in
    order; after the last of them [Accept] does not return.  Each accepted
    connection is handled in a goroutine of its own: the second component
    is the runs of [ServeConn] started, in the order of their start. *)
Fixpoint Serve (s : Server) (l : list AcceptOutcome)
    : ServeOutcome * list (option error * State) :=
  match l with
  | [] => (Blocks, [])
  | AcceptFail err :: _ => (Returns (Some err), [])
  | Accepted conn :: l' =>
      let '(r, spawned) := Serve s l' in
      (r, ServeConn authenticate handleRequest s conn :: spawned)
  end.

(** [net.Listen]: the listener, as the outcomes of its calls of [Accept],
    or an error. *)
Variable net_Listen : string -> string -> list AcceptOutcome * option error.

Definition ListenAndServe (s : Server) (network addr : string)
    : ServeOutcome * list (option error * State) :=
  match net_Listen network addr with
  | (_, Some err) => (Returns (Some err), [])
  | (l, None) => Serve s l
  end.

End Listener.

End socks5.

(** ** Package [main] *)

Module main.

Record params : Type :=
  mkParams { User : string; Password : string; Port : string;
             AllowedDestFqdn : string; AllowedIPs : list string }.

(** The allow-list [main] builds: each entry parsed, the error dropped. *)
Definition whitelist (AllowedIPs : list string) : list netip.Addr :=
  map (fun ip => fst (netip.ParseAddr ip)) AllowedIPs.

(** [main] from the configuration of the server to its allow-list.  The
    credentials it reads again from the environment are those of
    [cfg]. *)
Definition setup (cfg : params) : socks5.Server * option error :=
  (* Initialize socks5 config *)
  let socks5conf :=
    socks5.mkConfig [] None None None None netip.zeroAddr None None in
  let socks5conf :=
    if negb (bytealg.len (User cfg ++ Password cfg) =? 0) then
      let creds := [(User cfg, Password cfg)] in
      let cator := socks5.UserPassAuthenticator creds in
      socks5.set_AuthMethods [cator] socks5conf
    else socks5conf in
  let socks5conf :=
    if negb (bytealg.len (AllowedDestFqdn cfg) =? 0)
    then socks5.set_Rules
           (Some (socks5.PermitDestAddrPattern (AllowedDestFqdn cfg)))
           socks5conf
    else socks5conf in
  match socks5.New socks5conf with
  | (server, Some err) => (server, Some err)
  | (server, None) =>
      (* Set IP whitelist *)
      if (0 <? length (AllowedIPs cfg))%nat
      then (socks5.SetIPWhitelist server (whitelist (AllowedIPs cfg)), None)
      else (server, None)
  end.

End main.

(** * The vocabulary of the properties *)

Module Spec.
Import bytealg netip socks5.

(** The IPv4-mapped prefix [::ffff:0:0] that [lo] carries for an IPv4
    address. *)
Definition v4mapped : Z := 0xffff00000000.

(** The 32-bit value of an IPv4 address. *)
Definition v4 (a : Addr) : Z := Z.land (lo a) (Z.ones 32).

(** The 32-bit value of [a.b.c.d]. *)
Definition ipv4 (a b c d : Z) : Z := a * 2 ^ 24 + b * 2 ^ 16 + c * 2 ^ 8 + d.

Definition is_byte (x : Z) : Prop := 0 <= x < 256.

(** A well-formed IPv4 address: the mapped prefix and a 32-bit value. *)
Definition wf4 (a : Addr) : Prop :=
  exists v, 0 <= v < 2 ^ 32 /\ a = mkAddr 0 (v4mapped + v) z4.

(** An IPv4 address inside 172.16.0.0/12: 172.16.0.0 to 172.31.255.255. *)
Definition inside_172_16_12 (a : Addr) : Prop :=
  Is4 a = true /\ ipv4 172 16 0 0 <= v4 a <= ipv4 172 31 255 255.

(** An IPv4 address inside 100.64.0.0/10: 100.64.0.0 to 100.127.255.255. *)
Definition inside_100_64_10 (a : Addr) : Prop :=
  Is4 a = true /\ ipv4 100 64 0 0 <= v4 a <= ipv4 100 127 255 255.

(** The remote IP address of a connection: the host part of the remote
    address string, and the address parsed from it. *)
Definition client_of (conn : Conn) : option (string * Addr) :=
  match net.SplitHostPort (net.String_ (ConnRemoteAddr conn)) with
  | (clientIP, _, None) => Some (clientIP, fst (ParseAddr clientIP))
  | (_, _, Some _) => None
  end.

Definition docker_origin : string := "connection from Docker IP address: %s".
Definition tailscale_origin : string :=
  "connection from Tailscale IP address: %s".
Definition allowed_origin : string := "connection from allowed address: %s".

(** The run [r] of the handler was denied at the gate: the error is
    returned, the rejected origin is logged, the connection is closed, and
    nothing was read from or written to it. *)
Definition denied (conn : Conn) (clientIP : string)
    (r : option error * State) : Prop :=
  r = (Some (Errorf0 "connection from not allowed IP address"),
       mkState [] (reads conn) (writes conn)
         [EvLog WarnLevel "connection from not allowed IP address: %s"
            (ArgString clientIP);
          EvClose]).

(** The run [r] of the handler was admitted at the gate under [origin]:
    the origin is logged first, and the handler goes on to read from the
    connection. *)
Definition admitted_as (origin clientIP : string)
    (r : option error * State) : Prop :=
  exists o rest,
    trace (snd r)
    = EvLog InfoLevel origin (ArgString clientIP) :: EvRead o :: rest.

(** The gate admits the address [a] on server [s], logging [origin]. *)
Definition gate_admits (s : Server) (a : Addr) (origin : string) : Prop :=
  (IsDockerNetwork s a = true /\ origin = docker_origin)
  \/ (IsDockerNetwork s a = false /\ IsTailScale s a = true
      /\ origin = tailscale_origin)
  \/ (IsDockerNetwork s a = false /\ IsTailScale s a = false
      /\ isIPAllowed s a = true /\ origin = allowed_origin).

(** The handler on [conn] passes the gate, the version check and the
    authentication, and comes to decode the request in state [st] with
    the authentication context [ctx]. *)
Definition reaches_decode
    (authenticate :
       Server -> State -> (option AuthContext * option error) * State)
    (s : Server) (conn : Conn) (ctx : option AuthContext) (st : State)
    : Prop :=
  exists clientIP origin b st0,
    client_of conn = Some (clientIP, fst (ParseAddr clientIP))
    /\ gate_admits s (fst (ParseAddr clientIP)) origin
    /\ bufio_Read 1 (Infof origin (ArgString clientIP) (start conn))
       = ((b, None), st0)
    /\ byte_at (match b with [] => [0] | _ => b end) 0 = socks5Version
    /\ call (authenticate s) st0 = ((ctx, None), st).

(** The bytes of a read script up to its first failure. *)
Fixpoint script_bytes (script : list ReadOutcome) : list Z :=
  match script with
  | [] => []
  | Fail _ :: _ => []
  | Data b :: script' => b ++ script_bytes script'
  end.

(** The bytes the client has sent that the handler has not consumed. *)
Definition pending (st : State) : list Z := bufConn st ++ script_bytes (rd st).

(** From [st] to [st'] events were added, and no event was lost. *)
Definition extends (st st' : State) : Prop :=
  exists evs, trace st' = trace st ++ evs.

Definition is_read (e : Event) : Prop :=
  match e with EvRead _ => True | _ => False end.

Definition is_write (e : Event) : Prop :=
  match e with EvWrite _ => True | _ => False end.

(** From [st] to [st'] the connection was read and nothing else was done
    to the outside. *)
Definition reads_only (st st' : State) : Prop :=
  wr st' = wr st
  /\ exists evs, trace st' = trace st ++ evs /\ Forall is_read evs.

(** The reply frame with code 8, address type not supported: version,
    code, reserved byte, and the zero IPv4 address and port. *)
Definition reply_addrTypeNotSupported : list Z :=
  [5; 8; 0; 1; 0; 0; 0; 0; 0; 0].

(** What [ServeConn] makes of the outcome of the request step. *)
Definition handled (r : option error * State) : option error * State :=
  match r with
  | (Some err, st) =>
      (Some (ErrorfE "failed to handle request: %v" err),
       conn_Close
         (Errorf "socks: %v"
            (ArgError (ErrorfE "failed to handle request: %v" err)) st))
  | (None, st) => (None, conn_Close st)
  end.

(** The no-auth method is registered in the dispatch map. *)
Definition noauth_registered (s : Server) : Prop :=
  authMethods s !! NoAuth = Some NoAuthAuthenticator.

(** The last authenticator of [l] whose method identifier is [k]. *)
Definition last_with_code (k : Z) (l : list Authenticator)
    : option Authenticator :=
  find (fun a => GetCode a =? k) (rev l).

(** The request [req] as the handler hands it to the request step on
    [conn], after the authentication step gave [ctx]. *)
Definition stamped (conn : Conn) (ctx : option AuthContext) (req : Request)
    : Request :=
  match net.asTCPAddr (ConnRemoteAddr conn) with
  | Some client =>
      set_RemoteAddr
        (Some (mkAddrSpec ""
                 (fst (ParseAddr (string_of_bytes (net.IP client))))
                 (net.Port client)))
        (set_AuthContext ctx req)
  | None => set_AuthContext ctx req
  end.

(** The decimal text of a byte. *)
Definition dec (x : Z) : string := appendDecimal "" x.

(** A hexadecimal digit, in lower case, or a colon. *)
Definition hexcolon (c : ascii) : bool := net.has "0123456789abcdef:" c.

Fixpoint all_hexcolon (s : string) : bool :=
  match s with
  | EmptyString => true
  | String c s' => hexcolon c && all_hexcolon s'
  end.

End Spec.

(** * Servers and connections to run the handler on *)

Module Examples.
Import bytealg netip socks5.

(** The zero [Config], and the server [New] makes of it. *)
Definition conf0 : Config := mkConfig [] None None None None zeroAddr None None.

Definition server0 : Server := fst (New conf0).

(** A connection whose remote address prints as [remote] and is not a
    [*net.TCPAddr], with the reads [rs]. *)
Definition conn_of (remote : string) (rs : list ReadOutcome) : Conn :=
  mkConn (net.mkAddr remote None) rs [].

(** A TCP connection from [b0.b1.b2.b3], printed as [remote], with the
    reads [rs]. *)
Definition tcp_conn (remote : string) (peer : list Z) (port : Z)
    (rs : list ReadOutcome) : Conn :=
  mkConn (net.mkAddr remote (Some (net.mkTCPAddr peer port ""))) rs [].

(** A Docker peer that negotiates no-auth and then sends a request with
    address type 2. *)
Definition conn_atyp2 : Conn :=
  tcp_conn "172.16.0.5:40000" [172; 16; 0; 5] 40000
    [Data [5; 1; 0]; Data [5; 1; 0; 2; 10; 0; 0; 1; 0; 80]].

(** The same peer sending a CONNECT request to 10.0.0.1:80. *)
Definition conn_connect : Conn :=
  tcp_conn "172.16.0.5:40000" [172; 16; 0; 5] 40000
    [Data [5; 1; 0]; Data [5; 1; 0; 1; 10; 0; 0; 1; 0; 80]].

(** The state of the handler on that peer after the authentication, with
    the bytes [request] yet to be read. *)
Definition at_decode (request : list Z) : State :=
  mkState [] [Data request] []
    [EvLog InfoLevel "connection from Docker IP address: %s"
       (ArgString "172.16.0.5");
     EvRead (Data [5; 1; 0]); EvWrite [5; 0]].

(** A configuration with a credential store and no authenticator. *)
Definition conf_creds : Config :=
  mkConfig [] (Some [("alice", "s3cret")]) None None None zeroAddr None None.

(** The parameters of [main] with the allow-list [10.0.0.1,bogus]. *)
Definition cfg_bogus : main.params :=
  main.mkParams "" "" "1080" "" ["10.0.0.1"; "bogus"].

(** A configuration with two authenticators of one method identifier. *)
Definition conf_dup : Config :=
  mkConfig [CustomAuthenticator 0 "first"; UserPassAuthenticator [];
            NoAuthAuthenticator]
    (Some [("alice", "s3cret")]) None None None zeroAddr None None.

(** A TCP peer with an IPv6 address. *)
Definition peer6 : net.TCPAddr :=
  net.mkTCPAddr [0x20; 0x01; 0x0d; 0xb8; 0; 0; 0; 0; 0; 0; 0; 0; 0; 0; 0; 1]
    4000 "".

(** The peer of [conn_atyp2] on a connection whose second write fails. *)
Definition conn_atyp2_broken : Conn :=
  mkConn
    (net.mkAddr "172.16.0.5:40000"
       (Some (net.mkTCPAddr [172; 16; 0; 5] 40000 "")))
    [Data [5; 1; 0]; Data [5; 1; 0; 2; 10; 0; 0; 1; 0; 80]]
    [None; Some (TransportError "broken pipe")].

End Examples.

(** * Facts about the [net/netip] functions *)

Module netip_facts.
Import bytealg netip Spec.

(** The functions on some addresses. *)

Example ParseAddr_dotted :
  ParseAddr "172.16.0.1" = (AddrFrom4 [172; 16; 0; 1], None).
Proof. reflexivity. Qed.

Example ParseAddr_leading_zero :
  ParseAddr "172.016.0.1"
  = (zeroAddr,
     Some (parseAddrError "172.016.0.1"
             "IPv4 field has octet with leading zero" "")).
Proof. reflexivity. Qed.

Example ParseAddr_zone :
  ParseAddr "fe80::1%eth0" = (mkAddr 0xfe80000000000000 1 (z6 "eth0"), None).
Proof. reflexivity. Qed.

Example ParseAddr_mapped :
  ParseAddr "::ffff:172.16.0.1" = (mkAddr 0 0xffffac100001 (z6 ""), None).
Proof. reflexivity. Qed.

Example ParseAddr_name :
  ParseAddr "bogus"
  = (zeroAddr, Some (parseAddrError "bogus" "unable to parse IP" "")).
Proof. reflexivity. Qed.

Example Contains_mapped_outside :
  Contains (MustParsePrefix "172.16.0.0/12")
    (fst (ParseAddr "::ffff:172.16.0.1")) = false.
Proof. reflexivity. Qed.

Example Contains_v6 :
  Contains (MustParsePrefix "fe80::/10") (fst (ParseAddr "fe80::1")) = true
  /\ Contains (MustParsePrefix "fe80::/10") (fst (ParseAddr "fec0::1"))
     = false
  /\ Contains (MustParsePrefix "fe80::/10") (fst (ParseAddr "fe80::1%eth0"))
     = false.
Proof. repeat split. Qed.

Example SplitHostPort_v4 :
  net.SplitHostPort "172.16.0.1:1080" = ("172.16.0.1", "1080", None).
Proof. reflexivity. Qed.

Example SplitHostPort_v6 :
  net.SplitHostPort "[fe80::1%eth0]:1080" = ("fe80::1%eth0", "1080", None).
Proof. reflexivity. Qed.

Example SplitHostPort_no_port :
  net.SplitHostPort "pipe"
  = ("", "", Some (AddrError "missing port in address" "pipe")).
Proof. reflexivity. Qed.

Lemma Compare_refl (a : Addr) : Compare a a = 0.
Proof.
  unfold Compare. rewrite !Z.ltb_irrefl.
  destruct (Is6 a); [|reflexivity].
  pose proof (String.compare_antisym (Zone a) (Zone a)) as H.
  destruct (String.compare (Zone a) (Zone a)); cbn in H;
    congruence.
Qed.

Lemma Compare_eq (a b : Addr) : Compare a b = 0 -> a = b.
Proof.
  destruct a as [h1 l1 t1], b as [h2 l2 t2]. unfold Compare, BitLen, Is6, Zone.
  cbn [hi lo z].
  destruct t1, t2; cbn;
    try discriminate;
    destruct (Z.ltb_spec h1 h2); try discriminate;
    destruct (Z.ltb_spec h2 h1); try discriminate;
    destruct (Z.ltb_spec l1 l2); try discriminate;
    destruct (Z.ltb_spec l2 l1); try discriminate;
    assert (h1 = h2) by lia; assert (l1 = l2) by lia; subst;
    try reflexivity.
  destruct (String.compare zone zone0) eqn:E; try discriminate.
  apply String.compare_eq_iff in E. now subst.
Qed.

(** [Compare] returns 0 on equal addresses and on them only. *)
Lemma Compare_eq_iff (a b : Addr) : Compare a b = 0 <-> a = b.
Proof.
  split; [apply Compare_eq | intros ->; apply Compare_refl].
Qed.

Lemma land_mul_pow2_small (x k b : Z) :
  0 <= k -> 0 <= b < 2 ^ k -> Z.land (x * 2 ^ k) b = 0.
Proof.
  intros Hk Hb. apply Z.bits_inj'. intros n Hn.
  rewrite Z.land_spec, Z.bits_0.
  destruct (Z.lt_ge_cases n k) as [Hlt | Hge].
  - rewrite Z.mul_pow2_bits_low by lia. reflexivity.
  - rewrite <- (Z.mod_small b (2 ^ k)) by lia.
    rewrite Z.mod_pow2_bits_high by lia. apply andb_false_r.
Qed.

Lemma lor_mul_pow2_small (x k b : Z) :
  0 <= k -> 0 <= b < 2 ^ k -> Z.lor (x * 2 ^ k) b = x * 2 ^ k + b.
Proof.
  intros Hk Hb.
  pose proof (Z.add_lor_land (x * 2 ^ k) b) as H.
  rewrite land_mul_pow2_small in H by assumption. lia.
Qed.

Lemma lxor_mul_pow2_small (x k b : Z) :
  0 <= k -> 0 <= b < 2 ^ k -> Z.lxor (x * 2 ^ k) b = x * 2 ^ k + b.
Proof.
  intros Hk Hb.
  rewrite <- Z.add_nocarry_lxor by (apply land_mul_pow2_small; assumption).
  reflexivity.
Qed.

(** The value [AddrFrom4] builds from four bytes. *)
Lemma AddrFrom4_value (b0 b1 b2 b3 : Z) :
  is_byte b0 -> is_byte b1 -> is_byte b2 -> is_byte b3 ->
  AddrFrom4 [b0; b1; b2; b3] = mkAddr 0 (v4mapped + ipv4 b0 b1 b2 b3) z4.
Proof.
  unfold is_byte, AddrFrom4, byte_at, ipv4, v4mapped. cbn [nth].
  intros H0 H1 H2 H3. f_equal.
  rewrite !Z.shiftl_mul_pow2 by lia.
  rewrite (lor_mul_pow2_small b0 24) by lia.
  replace (b0 * 2 ^ 24 + b1 * 2 ^ 16) with ((b0 * 2 ^ 8 + b1) * 2 ^ 16) by lia.
  rewrite (lor_mul_pow2_small _ 16) by lia.
  replace ((b0 * 2 ^ 8 + b1) * 2 ^ 16 + b2 * 2 ^ 8)
    with ((b0 * 2 ^ 16 + b1 * 2 ^ 8 + b2) * 2 ^ 8) by lia.
  rewrite (lor_mul_pow2_small _ 8) by lia.
  change 0xffff00000000 with (0xffff * 2 ^ 32).
  rewrite (lor_mul_pow2_small 0xffff 32) by lia.
  lia.
Qed.

Lemma v4_value (v : Z) :
  0 <= v < 2 ^ 32 -> v4 (mkAddr 0 (v4mapped + v) z4) = v.
Proof.
  intros Hv. unfold v4, v4mapped. cbn [lo].
  rewrite Z.land_ones by lia.
  change 0xffff00000000 with (0xffff * 2 ^ 32).
  rewrite Z.add_comm, Z.mod_add by lia. apply Z.mod_small. lia.
Qed.

Lemma is_byte_mod (x : Z) : is_byte (x mod 256).
Proof. unfold is_byte. apply Z.mod_pos_bound. lia. Qed.

(** [parseIPv4Fields] leaves bytes in the four fields. *)
Lemma parseIPv4Fields_loop_bytes (input s rest : string) :
  forall (i : nat) (val : Z) (pos : nat) (digLen : Z) (fields out : list Z),
    Forall is_byte fields -> length fields = 4%nat ->
    parseIPv4Fields_loop input s rest i val pos digLen fields = (out, None) ->
    Forall is_byte out /\ length out = 4%nat.
Proof.
  induction rest as [|c rest IH]; intros i val pos digLen fields out HF HL;
    cbn [parseIPv4Fields_loop].
  - destruct (pos <? 3)%nat; [discriminate|].
    intros [= <-]. split.
    + apply Forall_insert; [assumption | apply is_byte_mod].
    + now rewrite length_insert.
  - destruct (is_digit c).
    + destruct ((digLen =? 1) && (val =? 0)); [discriminate|].
      destruct (255 <? _); [discriminate|].
      apply IH; assumption.
    + destruct (Ascii.eqb c "."); [|discriminate].
      destruct (_ || _); [discriminate|].
      destruct (pos =? 3)%nat; [discriminate|].
      apply IH.
      * apply Forall_insert; [assumption | apply is_byte_mod].
      * now rewrite length_insert.
Qed.

Lemma ipv4_bound (b0 b1 b2 b3 : Z) :
  is_byte b0 -> is_byte b1 -> is_byte b2 -> is_byte b3 ->
  0 <= ipv4 b0 b1 b2 b3 < 2 ^ 32.
Proof. unfold is_byte, ipv4. lia. Qed.

Lemma parseIPv4_wf (s : string) :
  Is4 (fst (parseIPv4 s)) = true -> wf4 (fst (parseIPv4 s)).
Proof.
  unfold parseIPv4, parseIPv4Fields.
  destruct (parseIPv4Fields_loop s s s 0 0 0 0 [0; 0; 0; 0])
    as [out [err|]] eqn:E; cbn [fst]; [discriminate|].
  intros _.
  apply parseIPv4Fields_loop_bytes in E as [HF HL];
    [| repeat constructor; unfold is_byte; lia | reflexivity].
  destruct out as [|b0 [|b1 [|b2 [|b3 [|? ?]]]]]; try discriminate.
  inversion HF as [|? ? H0 HF1]; subst.
  inversion HF1 as [|? ? H1 HF2]; subst.
  inversion HF2 as [|? ? H2 HF3]; subst.
  inversion HF3 as [|? ? H3 _]; subst.
  exists (ipv4 b0 b1 b2 b3). split.
  - now apply ipv4_bound.
  - now apply AddrFrom4_value.
Qed.

Lemma WithZone_not4 (a : Addr) (zone : string) :
  Is4 a = false -> Is4 (WithZone a zone) = false.
Proof. unfold WithZone. destruct (Is6 a); cbn; auto. Qed.

Lemma parseIPv6_not4 (s : string) : Is4 (fst (parseIPv6 s)) = false.
Proof.
  unfold parseIPv6.
  repeat match goal with
         | |- context [let '(_, _) := ?x in _] => destruct x
         | |- context [match ?x with _ => _ end] => destruct x
         end;
    cbn [fst]; try reflexivity; apply WithZone_not4; reflexivity.
Qed.

Lemma ParseAddr_scan_wf (s rest : string) :
  Is4 (fst (ParseAddr_scan s rest)) = true -> wf4 (fst (ParseAddr_scan s rest)).
Proof.
  induction rest as [|c rest IH]; cbn [ParseAddr_scan].
  - discriminate.
  - destruct (Ascii.eqb c "."); [apply parseIPv4_wf|].
    destruct (Ascii.eqb c ":"); [rewrite parseIPv6_not4; discriminate|].
    destruct (Ascii.eqb c "%"); [discriminate | exact IH].
Qed.

(** Every IPv4 address [ParseAddr] returns is well-formed. *)
Lemma ParseAddr_wf (s : string) :
  Is4 (fst (ParseAddr s)) = true -> wf4 (fst (ParseAddr s)).
Proof. apply ParseAddr_scan_wf. Qed.

Lemma ParseAddr_scan_error (s rest : string) :
  snd (ParseAddr_scan s rest) <> None ->
  fst (ParseAddr_scan s rest) = zeroAddr.
Proof.
  induction rest as [|c rest IH]; cbn [ParseAddr_scan]; [reflexivity|].
  destruct (Ascii.eqb c ".").
  { unfold parseIPv4. destruct (parseIPv4Fields s s _) as [? [?|]];
      cbn; congruence. }
  destruct (Ascii.eqb c ":").
  { unfold parseIPv6.
    repeat match goal with
           | |- context [let '(_, _) := ?x in _] => destruct x
           | |- context [match ?x with _ => _ end] => destruct x
           end;
      cbn [fst snd]; congruence. }
  destruct (Ascii.eqb c "%"); [reflexivity | exact IH].
Qed.

(** Where [ParseAddr] fails, the address it returns is the zero [Addr]. *)
Lemma ParseAddr_error (s : string) :
  snd (ParseAddr s) <> None -> fst (ParseAddr s) = zeroAddr.
Proof. apply ParseAddr_scan_error. Qed.

Lemma lxor_cancel_l (k a b : Z) : Z.lxor (Z.lxor k a) (Z.lxor k b) = Z.lxor a b.
Proof.
  apply Z.bits_inj'. intros n _. rewrite !Z.lxor_spec.
  destruct (Z.testbit k n), (Z.testbit a n), (Z.testbit b n); reflexivity.
Qed.

Lemma land_ones_small (x : Z) : 0 <= x < 2 ^ 32 -> Z.land x (Z.ones 32) = x.
Proof. intros H. rewrite Z.land_ones by lia. apply Z.mod_small. lia. Qed.

Lemma lxor_small (a b : Z) :
  0 <= a < 2 ^ 32 -> 0 <= b < 2 ^ 32 -> 0 <= Z.lxor a b < 2 ^ 32.
Proof.
  intros Ha Hb.
  assert (Hn : 0 <= Z.lxor a b) by (apply Z.lxor_nonneg; lia).
  split; [assumption|].
  destruct (Z.eq_dec (Z.lxor a b) 0) as [-> | Hne]; [lia|].
  apply Z.log2_lt_pow2; [lia|].
  eapply Z.le_lt_trans; [apply Z.log2_lxor; lia|].
  apply Z.max_lub_lt.
  - destruct (Z.eq_dec a 0) as [-> | ?]; [cbn; lia|].
    apply Z.log2_lt_pow2; lia.
  - destruct (Z.eq_dec b 0) as [-> | ?]; [cbn; lia|].
    apply Z.log2_lt_pow2; lia.
Qed.

(** The IPv4 branch of [Contains]: the two values agree above the low [k]
    bits. *)
Lemma contains4_core (v p k : Z) :
  0 <= v < 2 ^ 32 -> 0 <= p < 2 ^ 32 -> 0 <= k ->
  (Z.land (Z.shiftr (Z.lxor (v4mapped + v) (v4mapped + p)) k) (Z.ones 32)
   =? 0)
  = (v / 2 ^ k =? p / 2 ^ k).
Proof.
  intros Hv Hp Hk. unfold v4mapped.
  change 0xffff00000000 with (0xffff * 2 ^ 32).
  rewrite <- !(lxor_mul_pow2_small 0xffff 32) by lia.
  rewrite lxor_cancel_l, Z.shiftr_lxor, !Z.shiftr_div_pow2 by lia.
  assert (Hpow : 0 < 2 ^ k) by (apply Z.pow_pos_nonneg; lia).
  assert (Ha : 0 <= v / 2 ^ k < 2 ^ 32).
  { split; [apply Z.div_pos; lia|].
    eapply Z.le_lt_trans; [apply Z.div_le_upper_bound with (q := v); nia|lia]. }
  assert (Hb : 0 <= p / 2 ^ k < 2 ^ 32).
  { split; [apply Z.div_pos; lia|].
    eapply Z.le_lt_trans; [apply Z.div_le_upper_bound with (q := p); nia|lia]. }
  rewrite land_ones_small by (apply lxor_small; assumption).
  destruct (Z.eqb_spec (v / 2 ^ k) (p / 2 ^ k)) as [-> | Hne].
  - rewrite Z.lxor_nilpotent. reflexivity.
  - apply Z.eqb_neq. intros H. apply Z.lxor_eq in H. contradiction.
Qed.

Lemma MustParsePrefix_classB :
  ParsePrefix "172.16.0.0/12"
  = (mkPrefix (mkAddr 0 (v4mapped + ipv4 172 16 0 0) z4) 13, None).
Proof. vm_compute. reflexivity. Qed.

Lemma MustParsePrefix_cgnat :
  ParsePrefix "100.64.0.0/10"
  = (mkPrefix (mkAddr 0 (v4mapped + ipv4 100 64 0 0) z4) 11, None).
Proof. vm_compute. reflexivity. Qed.

End netip_facts.

(** * The admission gate *)

Module gate_facts.
Import bytealg netip socks5 Spec netip_facts.

Local Opaque v4mapped ipv4.

Lemma IsDockerNetwork_wf4 (s : Server) (v : Z) :
  0 <= v < 2 ^ 32 ->
  IsDockerNetwork s (mkAddr 0 (v4mapped + v) z4)
  = (v / 2 ^ 20 =? ipv4 172 16 0 0 / 2 ^ 20).
Proof.
  intros Hv. unfold IsDockerNetwork, MustParsePrefix.
  rewrite MustParsePrefix_classB.
  unfold Contains, PrefixIsValid, hasZone, BitLen, Is4, IsValid, Bits.
  cbn [fst ip bitsPlusOne z lo hi].
  change (Z.land (32 - (13 - 1)) 63) with 20.
  cbn [negb orb Z.ltb Z.eqb Z.compare Pos.compare Pos.compare_cont Pos.eqb].
  apply contains4_core; [assumption | | lia].
  Local Transparent ipv4. unfold ipv4. lia.
Qed.

Lemma IsTailScale_wf4 (s : Server) (v : Z) :
  0 <= v < 2 ^ 32 ->
  IsTailScale s (mkAddr 0 (v4mapped + v) z4)
  = (v / 2 ^ 22 =? ipv4 100 64 0 0 / 2 ^ 22).
Proof.
  intros Hv. unfold IsTailScale, MustParsePrefix.
  rewrite MustParsePrefix_cgnat.
  unfold Contains, PrefixIsValid, hasZone, BitLen, Is4, IsValid, Bits.
  cbn [fst ip bitsPlusOne z lo hi].
  change (Z.land (32 - (11 - 1)) 63) with 22.
  cbn [negb orb Z.ltb Z.eqb Z.compare Pos.compare Pos.compare_cont Pos.eqb].
  apply contains4_core; [assumption | | lia].
  unfold ipv4. lia.
Qed.

(** Both range checks refuse what is not an IPv4 address. *)
Lemma range_checks_not4 (s : Server) (a : Addr) :
  Is4 a = false -> IsDockerNetwork s a = false /\ IsTailScale s a = false.
Proof.
  intros H. unfold IsDockerNetwork, IsTailScale. rewrite H.
  cbn [negb]. rewrite !orb_true_r. split; reflexivity.
Qed.

(** [IsDockerNetwork] holds of the well-formed addresses inside
    172.16.0.0/12 and of them only. *)
Lemma IsDockerNetwork_iff (s : Server) (a : Addr) :
  (Is4 a = true -> wf4 a) ->
  IsDockerNetwork s a = true <-> inside_172_16_12 a.
Proof.
  intros Hwf. unfold inside_172_16_12.
  destruct (Is4 a) eqn:E4.
  - destruct (Hwf eq_refl) as (v & Hv & ->).
    rewrite IsDockerNetwork_wf4, v4_value by assumption.
    rewrite Z.eqb_eq. unfold ipv4.
    split; [intros H; split; [reflexivity|] | intros [_ H]];
      Z.div_mod_to_equations; lia.
  - destruct (range_checks_not4 s a E4) as [-> _].
    split; [discriminate | intros [? _]; discriminate].
Qed.

(** [IsTailScale] holds of the well-formed addresses inside 100.64.0.0/10
    and of them only. *)
Lemma IsTailScale_iff (s : Server) (a : Addr) :
  (Is4 a = true -> wf4 a) ->
  IsTailScale s a = true <-> inside_100_64_10 a.
Proof.
  intros Hwf. unfold inside_100_64_10.
  destruct (Is4 a) eqn:E4.
  - destruct (Hwf eq_refl) as (v & Hv & ->).
    rewrite IsTailScale_wf4, v4_value by assumption.
    rewrite Z.eqb_eq. unfold ipv4.
    split; [intros H; split; [reflexivity|] | intros [_ H]];
      Z.div_mod_to_equations; lia.
  - destruct (range_checks_not4 s a E4) as [_ ->].
    split; [discriminate | intros [? _]; discriminate].
Qed.

Lemma ranges_disjoint (a : Addr) :
  inside_100_64_10 a -> ~ inside_172_16_12 a.
Proof.
  unfold inside_100_64_10, inside_172_16_12, ipv4. intros [_ H] [_ H']. lia.
Qed.

(** The scan of the allow-list finds the addresses in it and no other. *)
Lemma scan_allowed_In (a : Addr) (allowedIPs : list Addr) :
  scan_allowed a allowedIPs = true <-> In a allowedIPs.
Proof.
  induction allowedIPs as [|x l IH]; cbn [scan_allowed In].
  - split; [discriminate | tauto].
  - destruct (Z.eqb_spec (Compare a x) 0) as [E | E].
    + apply Compare_eq_iff in E. subst. tauto.
    + rewrite IH. split; [tauto|].
      intros [-> | ?]; [|assumption].
      exfalso. apply E. apply Compare_refl.
Qed.

Lemma client_of_inv (conn : Conn) (clientIP : string) (a : Addr) :
  client_of conn = Some (clientIP, a) ->
  a = fst (ParseAddr clientIP)
  /\ exists port,
       net.SplitHostPort (net.String_ (ConnRemoteAddr conn))
       = (clientIP, port, None).
Proof.
  unfold client_of.
  destruct (net.SplitHostPort _) as [[h p] [e|]]; [discriminate|].
  intros [= -> <-]. split; [reflexivity | now exists p].
Qed.

Lemma client_wf (conn : Conn) (clientIP : string) (a : Addr) :
  client_of conn = Some (clientIP, a) -> Is4 a = true -> wf4 a.
Proof.
  intros H. apply client_of_inv in H as [-> _]. apply ParseAddr_wf.
Qed.

End gate_facts.

(** * The connection handler *)

Module handler_facts.
Import bytealg netip socks5 Spec netip_facts gate_facts.

Lemma reads_only_refl (st : State) : reads_only st st.
Proof.
  split; [reflexivity|]. exists []. now rewrite app_nil_r.
Qed.

Lemma reads_only_trans (st1 st2 st3 : State) :
  reads_only st1 st2 -> reads_only st2 st3 -> reads_only st1 st3.
Proof.
  intros [Hw1 (e1 & Ht1 & Hf1)] [Hw2 (e2 & Ht2 & Hf2)]. split.
  - congruence.
  - exists (e1 ++ e2). split.
    + now rewrite Ht2, Ht1, app_assoc.
    + now apply Forall_app.
Qed.

Lemma reads_only_extends (st st' : State) : reads_only st st' -> extends st st'.
Proof. intros [_ (evs & H & _)]. now exists evs. Qed.

Lemma extends_refl (st : State) : extends st st.
Proof. exists []. now rewrite app_nil_r. Qed.

Lemma extends_trans (st1 st2 st3 : State) :
  extends st1 st2 -> extends st2 st3 -> extends st1 st3.
Proof.
  intros [e1 H1] [e2 H2]. exists (e1 ++ e2). now rewrite H2, H1, app_assoc.
Qed.

Lemma extends_emit (e : Event) (st : State) : extends st (emit e st).
Proof. now exists [e]. Qed.

Lemma extends_set_bufConn (b : list Z) (st : State) :
  extends st (set_bufConn b st).
Proof. exists []. cbn. now rewrite app_nil_r. Qed.

(** A call of an outside step adds events. *)
Lemma call_extends {A : Type} (step : State -> A * State) (st st' : State)
    (a : A) :
  call step st = (a, st') -> extends st st'.
Proof.
  unfold call. destruct (step _) as [a' st1]. intros [= _ <-].
  now exists (trace st1).
Qed.

Lemma conn_Write_extends (b : list Z) (st : State) :
  trace (snd (conn_Write b st)) = trace st ++ [EvWrite b].
Proof. unfold conn_Write. destruct (wr st); reflexivity. Qed.

Lemma fill_reads_only (script : list ReadOutcome) :
  forall (need : nat) (acc : list Z) (w : list (option error))
         (tr : list Event),
    wr (snd (fill need acc script w tr)) = w
    /\ exists evs,
         trace (snd (fill need acc script w tr)) = tr ++ evs
         /\ Forall is_read evs.
Proof.
  induction script as [|o script IH]; intros need acc w tr; cbn [fill].
  - split; [reflexivity|]. eexists. split; [reflexivity|].
    repeat constructor.
  - destruct o as [b | e].
    + destruct (need <=? length b)%nat.
      * split; [reflexivity|]. eexists. split; [reflexivity|].
        repeat constructor.
      * destruct (IH (need - length b)%nat (acc ++ b) w (tr ++ [EvRead (Data b)]))
          as [Hw (evs & Ht & Hf)].
        split; [assumption|].
        exists (EvRead (Data b) :: evs). split.
        -- now rewrite Ht, <- app_assoc.
        -- constructor; [exact I | assumption].
    + split; [reflexivity|]. eexists. split; [reflexivity|].
      repeat constructor.
Qed.

(** Reading through the buffered reader reads the connection and does
    nothing else. *)
Lemma ReadFull_reads_only (need : nat) (st : State) :
  reads_only st (snd (ReadFull need st)).
Proof.
  unfold ReadFull. destruct (need <=? length (bufConn st))%nat.
  - cbn. split; [reflexivity|]. exists []. split; [|constructor].
    now rewrite app_nil_r.
  - apply fill_reads_only.
Qed.

Ltac read_step n st :=
  let H := fresh "Hro" in
  pose proof (ReadFull_reads_only n st) as H;
  let r := fresh "r" in
  let e := fresh "e" in
  let st' := fresh "st" in
  destruct (ReadFull n st) as [[r [e|]] st']; cbn [snd] in H.

Lemma readAddrSpec_reads_only (st : State) :
  reads_only st (snd (readAddrSpec st)).
Proof.
  unfold readAddrSpec.
  read_step 1%nat st; [assumption|].
  destruct (_ =? ipv4Address).
  { read_step 4%nat st0; [eauto using reads_only_trans|].
    read_step 2%nat st1; cbn [snd]; eauto using reads_only_trans. }
  destruct (_ =? fqdnAddress).
  { read_step 1%nat st0; [eauto using reads_only_trans|].
    match goal with
    | |- context [ReadFull ?n st1] => read_step n st1
    end; [eauto using reads_only_trans|].
    read_step 2%nat st2; cbn [snd]; eauto 6 using reads_only_trans. }
  destruct (_ =? ipv6Address).
  { read_step 16%nat st0; [eauto using reads_only_trans|].
    read_step 2%nat st1; cbn [snd]; eauto using reads_only_trans. }
  assumption.
Qed.

(** Decoding the request reads the connection and does nothing else. *)
Lemma NewRequest_reads_only (st : State) :
  reads_only st (snd (NewRequest st)).
Proof.
  unfold NewRequest.
  read_step 3%nat st; [assumption|].
  destruct (negb _); [assumption|].
  pose proof (readAddrSpec_reads_only st0) as H.
  destruct (readAddrSpec st0) as [[d | e] st1]; cbn [snd] in *;
    eauto using reads_only_trans.
Qed.

End handler_facts.

Module gate_runs.
Import bytealg netip socks5 Spec netip_facts gate_facts handler_facts.

Lemma sendReply_None (resp : Z) (st : State) :
  sendReply resp None st
  = conn_Write [socks5Version; resp; 0; ipv4Address; 0; 0; 0; 0; 0; 0] st.
Proof. reflexivity. Qed.

Ltac leaf :=
  repeat match goal with
         | H : extends _ _ |- _ => destruct H as [? H]
         | H : reads_only _ _ |- _ => apply reads_only_extends in H
         end;
  cbn [trace emit snd fst conn_Close Errorf Infof Warnf set_bufConn] in *;
  repeat match goal with
         | H : trace _ = _ |- _ => rewrite H
         end;
  cbn [trace emit snd fst conn_Close Errorf Infof Warnf set_bufConn app];
  rewrite <- ?app_assoc; cbn [app];
  eexists _, _; reflexivity.

(** The gate as [serve] has it, once it admits. *)
Lemma gate_admits_eq (s : Server) (conn : Conn) (clientIP origin : string) :
  gate_admits s (fst (ParseAddr clientIP)) origin ->
  (if IsDockerNetwork s (fst (ParseAddr clientIP))
   then (None, Infof "connection from Docker IP address: %s"
                 (ArgString clientIP) (start conn))
   else if IsTailScale s (fst (ParseAddr clientIP))
   then (None, Infof "connection from Tailscale IP address: %s"
                 (ArgString clientIP) (start conn))
   else if isIPAllowed s (fst (ParseAddr clientIP))
   then (None, Infof "connection from allowed address: %s"
                 (ArgString clientIP) (start conn))
   else (Some (Errorf0 "connection from not allowed IP address"),
         Warnf "connection from not allowed IP address: %s"
           (ArgString clientIP) (start conn)))
  = (None, Infof origin (ArgString clientIP) (start conn)).
Proof.
  intros [[H1 ->] | [(H1 & H2 & ->) | (H1 & H2 & H3 & ->)]];
    rewrite ?H1, ?H2, ?H3; reflexivity.
Qed.

(** A connection the gate admits has its origin logged, and the handler
    goes on to read from it. *)
Lemma ServeConn_admitted authenticate handleRequest
    (s : Server) (conn : Conn) (clientIP : string) (a : Addr)
    (origin : string) :
  client_of conn = Some (clientIP, a) ->
  gate_admits s a origin ->
  admitted_as origin clientIP (ServeConn authenticate handleRequest s conn).
Proof.
  intros Hc Hg. apply client_of_inv in Hc as [-> [port Hs]].
  unfold admitted_as, ServeConn, serve. rewrite Hs. cbv zeta.
  rewrite (gate_admits_eq s conn clientIP origin Hg).
  unfold bufio_Read, conn_Read, Infof, start.
  cbn [bufConn emit rd wr trace app].
  destruct (reads conn) as [|[[|b bs] | e] rest];
    cbn [set_bufConn bufConn rd wr trace emit app firstn skipn byte_at nth].
  - leaf.
  - leaf.
  - destruct (negb (b =? socks5Version)); [leaf|].
    match goal with
    | |- context [call ?f ?st] =>
        destruct (call f st) as [[ctx [e|]] st3] eqn:Ecall;
        apply call_extends in Ecall
    end; [leaf|].
    pose proof (NewRequest_reads_only st3) as Hnr.
    destruct (NewRequest st3) as [[req | err] st4]; cbn [snd] in Hnr.
    + match goal with
      | |- context [call ?f ?st] =>
          destruct (call f st) as [[e|] st5] eqn:Ecall2;
          apply call_extends in Ecall2
      end; leaf.
    + destruct err; try leaf.
      rewrite sendReply_None.
      pose proof (conn_Write_extends
                    [socks5Version; addrTypeNotSupported; 0; ipv4Address;
                     0; 0; 0; 0; 0; 0] st4) as Hw.
      destruct (conn_Write _ st4) as [[e|] st5]; cbn [snd] in Hw; leaf.
  - leaf.
Qed.

(** A whole run: a Docker peer negotiates no-auth and sends a CONNECT
    request to 10.0.0.1:80. *)
Example ServeConn_connect :
  ServeConn authenticate_noauth handleRequest_succeed Examples.server0
    Examples.conn_connect
  = (None,
     mkState [] [] []
       [EvLog InfoLevel docker_origin (ArgString "172.16.0.5");
        EvRead (Data [5; 1; 0]); EvWrite [5; 0];
        EvRead (Data [5; 1; 0; 1; 10; 0; 0; 1; 0; 80]);
        EvWrite [5; 0; 0; 1; 0; 0; 0; 0; 0; 0]; EvClose]).
Proof. reflexivity. Qed.

(** The server [New] returns allows no address. *)
Lemma New_isIPAllowed (conf : Config) (a : Addr) :
  isIPAllowed (fst (New conf)) a = false.
Proof. reflexivity. Qed.

(** A connection that fails all three checks of the gate is denied. *)
Lemma ServeConn_denied authenticate handleRequest
    (s : Server) (conn : Conn) (clientIP : string) (a : Addr) :
  client_of conn = Some (clientIP, a) ->
  IsDockerNetwork s a = false -> IsTailScale s a = false ->
  isIPAllowed s a = false ->
  denied conn clientIP (ServeConn authenticate handleRequest s conn).
Proof.
  intros Hc H1 H2 H3. apply client_of_inv in Hc as [-> [port Hs]].
  unfold denied, ServeConn, serve. rewrite Hs. cbv zeta.
  rewrite H1, H2, H3. reflexivity.
Qed.

(** The predicate [SetIPWhitelist] installs is membership in the list. *)
Lemma SetIPWhitelist_allowed (s : Server) (l : list Addr) (a : Addr) :
  isIPAllowed (SetIPWhitelist s l) a = true <-> In a l.
Proof. apply scan_allowed_In. Qed.

End gate_runs.

(** * The properties of the admission gate *)

Module Admission.
Import bytealg netip socks5 Spec Examples.
Import netip_facts gate_facts handler_facts gate_runs.

Ltac not_inside :=
  intros [_ [H1 H2]]; vm_compute in H1, H2;
  first [now apply H1 | now apply H2].

(** C1.  A connection whose remote IP address is in neither reserved range
    is denied, and [ServeConn] returns the error, when the address is not
    in the configured allow-list; when the address is in the allow-list the
    connection is admitted as allow-listed and the handler goes on to read
    protocol bytes.  A server as [New] returns it, with no allow-list
    installed, denies every such connection. *)
Theorem allowlist_decides authenticate handleRequest
    (s : Server) (allowedIPs : list Addr) (conn : Conn)
    (clientIP : string) (a : Addr) :
  client_of conn = Some (clientIP, a) ->
  ~ inside_172_16_12 a -> ~ inside_100_64_10 a ->
  (~ In a allowedIPs ->
   denied conn clientIP
     (ServeConn authenticate handleRequest (SetIPWhitelist s allowedIPs) conn))
  /\ (In a allowedIPs ->
      admitted_as allowed_origin clientIP
        (ServeConn authenticate handleRequest (SetIPWhitelist s allowedIPs)
           conn))
  /\ (forall conf : Config,
         denied conn clientIP
           (ServeConn authenticate handleRequest (fst (New conf)) conn)).
Proof.
  intros Hc Hd Ht.
  pose proof (client_wf _ _ _ Hc) as Hwf.
  assert (H1 : forall s', IsDockerNetwork s' a = false).
  { intros s'. destruct (IsDockerNetwork s' a) eqn:E; [|reflexivity].
    apply (IsDockerNetwork_iff _ _ Hwf) in E; contradiction. }
  assert (H2 : forall s', IsTailScale s' a = false).
  { intros s'. destruct (IsTailScale s' a) eqn:E; [|reflexivity].
    apply (IsTailScale_iff _ _ Hwf) in E; contradiction. }
  split; [|split].
  - intros Hin. apply ServeConn_denied with (a := a); auto.
    destruct (isIPAllowed _ a) eqn:E; [|reflexivity].
    apply SetIPWhitelist_allowed in E. contradiction.
  - intros Hin. eapply ServeConn_admitted; [eassumption|].
    right; right. repeat split; auto.
    now apply SetIPWhitelist_allowed.
  - intros conf. apply ServeConn_denied with (a := a); auto.
Qed.

(** With the allow-list [10.0.0.1], the peer 10.0.0.9 is denied and the
    peer 10.0.0.1 is admitted. *)
Lemma allowlist_decides_witness :
  denied (conn_of "10.0.0.9:4000" [Data [5; 1; 0]]) "10.0.0.9"
    (ServeConn authenticate_noauth handleRequest_succeed
       (SetIPWhitelist server0 (main.whitelist ["10.0.0.1"]))
       (conn_of "10.0.0.9:4000" [Data [5; 1; 0]]))
  /\ admitted_as allowed_origin "10.0.0.1"
       (ServeConn authenticate_noauth handleRequest_succeed
          (SetIPWhitelist server0 (main.whitelist ["10.0.0.1"]))
          (conn_of "10.0.0.1:4000" [Data [5; 1; 0]])).
Proof.
  split.
  - refine (proj1 (allowlist_decides authenticate_noauth
              handleRequest_succeed server0 (main.whitelist ["10.0.0.1"])
              (conn_of "10.0.0.9:4000" [Data [5; 1; 0]]) "10.0.0.9"
              (fst (ParseAddr "10.0.0.9")) _ _ _) _).
    + vm_compute. reflexivity.
    + not_inside.
    + not_inside.
    + vm_compute. intros [H | []]. discriminate H.
  - refine (proj1 (proj2 (allowlist_decides authenticate_noauth
              handleRequest_succeed server0 (main.whitelist ["10.0.0.1"])
              (conn_of "10.0.0.1:4000" [Data [5; 1; 0]]) "10.0.0.1"
              (fst (ParseAddr "10.0.0.1")) _ _ _)) _).
    + vm_compute. reflexivity.
    + not_inside.
    + not_inside.
    + vm_compute. left. reflexivity.
Defined.

(** C2.  A connection whose remote address is a valid IPv4 address inside
    172.16.0.0/12 is admitted and logged as a Docker origin, on every
    server: whatever its allow-list predicate, and so with every allow-list
    installed. *)
Theorem docker_range_admitted authenticate handleRequest
    (s : Server) (conn : Conn) (clientIP : string) (a : Addr) :
  client_of conn = Some (clientIP, a) ->
  inside_172_16_12 a ->
  admitted_as docker_origin clientIP
    (ServeConn authenticate handleRequest s conn)
  /\ forall allowedIPs : list Addr,
       admitted_as docker_origin clientIP
         (ServeConn authenticate handleRequest (SetIPWhitelist s allowedIPs)
            conn).
Proof.
  intros Hc Hin.
  pose proof (client_wf _ _ _ Hc) as Hwf.
  assert (H : forall s', gate_admits s' a docker_origin).
  { intros s'. left. split; [|reflexivity].
    now apply (IsDockerNetwork_iff s' a Hwf). }
  split; [|intros allowedIPs]; eapply ServeConn_admitted; eauto.
Qed.

(** The peer 172.20.1.2 is admitted as a Docker origin by the server that
    has no allow-list. *)
Lemma docker_range_admitted_witness :
  admitted_as docker_origin "172.20.1.2"
    (ServeConn authenticate_noauth handleRequest_succeed server0
       (conn_of "172.20.1.2:51000" [Data [5; 1; 0]])).
Proof.
  refine (proj1 (docker_range_admitted authenticate_noauth
            handleRequest_succeed server0
            (conn_of "172.20.1.2:51000" [Data [5; 1; 0]]) "172.20.1.2"
            (fst (ParseAddr "172.20.1.2")) _ _)).
  - vm_compute. reflexivity.
  - split; [reflexivity | vm_compute; split; discriminate].
Defined.

(** C3.  A connection whose remote address is a valid IPv4 address inside
    100.64.0.0/10 (such an address is never inside 172.16.0.0/12) is
    admitted, on every server and so with every allow-list installed. *)
Theorem cgnat_range_admitted authenticate handleRequest
    (s : Server) (conn : Conn) (clientIP : string) (a : Addr) :
  client_of conn = Some (clientIP, a) ->
  inside_100_64_10 a ->
  ~ inside_172_16_12 a
  /\ admitted_as tailscale_origin clientIP
       (ServeConn authenticate handleRequest s conn)
  /\ forall allowedIPs : list Addr,
       admitted_as tailscale_origin clientIP
         (ServeConn authenticate handleRequest (SetIPWhitelist s allowedIPs)
            conn).
Proof.
  intros Hc Hin.
  pose proof (client_wf _ _ _ Hc) as Hwf.
  pose proof (ranges_disjoint a Hin) as Hdis.
  assert (H : forall s', gate_admits s' a tailscale_origin).
  { intros s'. right; left. repeat split.
    - destruct (IsDockerNetwork s' a) eqn:E; [|reflexivity].
      apply (IsDockerNetwork_iff s' a Hwf) in E. contradiction.
    - now apply (IsTailScale_iff s' a Hwf). }
  split; [assumption|].
  split; [|intros allowedIPs]; eapply ServeConn_admitted; eauto.
Qed.

(** The peer 100.100.7.7 is admitted as a Tailscale origin by the server
    that has no allow-list. *)
Lemma cgnat_range_admitted_witness :
  admitted_as tailscale_origin "100.100.7.7"
    (ServeConn authenticate_noauth handleRequest_succeed server0
       (conn_of "100.100.7.7:51000" [Data [5; 1; 0]])).
Proof.
  refine (proj1 (proj2 (cgnat_range_admitted authenticate_noauth
            handleRequest_succeed server0
            (conn_of "100.100.7.7:51000" [Data [5; 1; 0]]) "100.100.7.7"
            (fst (ParseAddr "100.100.7.7")) _ _))).
  - vm_compute. reflexivity.
  - split; [reflexivity | vm_compute; split; discriminate].
Defined.

(** C8.  For an address that is not a valid IPv4 address, both range checks
    return false, and the gate's decision on a connection from it is the
    allow-list check: admitted as allow-listed where the check holds,
    denied where it does not. *)
Theorem non_ipv4_allowlist_only (s : Server) (a : Addr) :
  IsValid a && Is4 a = false ->
  IsDockerNetwork s a = false
  /\ IsTailScale s a = false
  /\ forall authenticate handleRequest (conn : Conn) (clientIP : string),
       client_of conn = Some (clientIP, a) ->
       if isIPAllowed s a
       then admitted_as allowed_origin clientIP
              (ServeConn authenticate handleRequest s conn)
       else denied conn clientIP
              (ServeConn authenticate handleRequest s conn).
Proof.
  intros Hv.
  assert (H4 : Is4 a = false).
  { destruct (Is4 a) eqn:E; [|reflexivity].
    unfold IsValid, Is4 in *. destruct (z a); discriminate. }
  destruct (range_checks_not4 s a H4) as [Hd Ht].
  repeat split; try assumption.
  intros authenticate handleRequest conn clientIP Hc.
  destruct (isIPAllowed s a) eqn:Ea.
  - eapply ServeConn_admitted; [eassumption|].
    right; right. repeat split; assumption.
  - now apply ServeConn_denied with (a := a).
Qed.

(** For the IPv6 peer fe80::1%eth0 both checks are false; on the server
    with no allow-list it is denied. *)
Lemma non_ipv4_allowlist_only_witness :
  IsDockerNetwork server0 (fst (ParseAddr "fe80::1%eth0")) = false
  /\ IsTailScale server0 (fst (ParseAddr "fe80::1%eth0")) = false
  /\ denied (conn_of "[fe80::1%eth0]:4000" [Data [5; 1; 0]]) "fe80::1%eth0"
       (ServeConn authenticate_noauth handleRequest_succeed server0
          (conn_of "[fe80::1%eth0]:4000" [Data [5; 1; 0]])).
Proof.
  destruct (non_ipv4_allowlist_only server0 (fst (ParseAddr "fe80::1%eth0"))
              eq_refl) as (Hd & Ht & Hrun).
  split; [exact Hd|]. split; [exact Ht|].
  exact (Hrun authenticate_noauth handleRequest_succeed
           (conn_of "[fe80::1%eth0]:4000" [Data [5; 1; 0]]) "fe80::1%eth0"
           eq_refl).
Defined.

(** C9.  A connection the gate denies is closed with nothing read from it
    and nothing written to it: the handler logs the rejected origin,
    returns the error, and the deferred [Close] is the only thing done to
    the connection; the bytes the client sent stay unread. *)
Theorem denied_no_protocol_io authenticate handleRequest
    (s : Server) (conn : Conn) (clientIP : string) (a : Addr) :
  client_of conn = Some (clientIP, a) ->
  IsDockerNetwork s a = false -> IsTailScale s a = false ->
  isIPAllowed s a = false ->
  let r := ServeConn authenticate handleRequest s conn in
  fst r = Some (Errorf0 "connection from not allowed IP address")
  /\ trace (snd r)
     = [EvLog WarnLevel "connection from not allowed IP address: %s"
          (ArgString clientIP);
        EvClose]
  /\ Forall (fun e => ~ is_read e /\ ~ is_write e) (trace (snd r))
  /\ rd (snd r) = reads conn
  /\ wr (snd r) = writes conn
  /\ bufConn (snd r) = [].
Proof.
  intros Hc H1 H2 H3 r.
  pose proof (ServeConn_denied authenticate handleRequest s conn clientIP a
                Hc H1 H2 H3) as Hden.
  unfold denied in Hden. subst r. rewrite Hden. cbn [fst snd trace rd wr bufConn].
  repeat split; repeat constructor; cbn; tauto.
Qed.

(** The peer 10.0.0.9 on the server with no allow-list: the three bytes it
    sent are still unread when the connection is closed. *)
Lemma denied_no_protocol_io_witness :
  let r := ServeConn authenticate_noauth handleRequest_succeed server0
             (conn_of "10.0.0.9:4000" [Data [5; 1; 0]]) in
  trace (snd r)
  = [EvLog WarnLevel "connection from not allowed IP address: %s"
       (ArgString "10.0.0.9");
     EvClose]
  /\ rd (snd r) = [Data [5; 1; 0]].
Proof.
  destruct (denied_no_protocol_io authenticate_noauth handleRequest_succeed
              server0 (conn_of "10.0.0.9:4000" [Data [5; 1; 0]]) "10.0.0.9"
              (fst (ParseAddr "10.0.0.9")) eq_refl eq_refl eq_refl eq_refl)
    as (_ & Ht & _ & Hr & _).
  split; assumption.
Defined.

Lemma New_no_error (conf : Config) : snd (New conf) = None.
Proof. reflexivity. Qed.

(** With a non-empty [AllowedIPs], the server [main] sets up checks the
    allow-list parsed from it. *)
Lemma setup_isIPAllowed (cfg : main.params) (a : Addr) :
  main.AllowedIPs cfg <> [] ->
  isIPAllowed (fst (main.setup cfg)) a
  = scan_allowed a (main.whitelist (main.AllowedIPs cfg)).
Proof.
  intros Hne. unfold main.setup.
  match goal with
  | |- context [New ?c] =>
      pose proof (New_no_error c) as Hn; destruct (New c) as [srv oe]
  end.
  cbn [snd] in Hn. subst oe.
  destruct (main.AllowedIPs cfg) as [|x l]; [contradiction|].
  reflexivity.
Qed.

Lemma whitelist_unparsable (entries : list string) (entry : string) :
  In entry entries -> snd (ParseAddr entry) <> None ->
  In zeroAddr (main.whitelist entries).
Proof.
  intros Hin Herr. unfold main.whitelist.
  rewrite <- (ParseAddr_error entry Herr).
  apply (in_map (fun ip => fst (ParseAddr ip))). exact Hin.
Qed.

(** C10.  The allow-list [main] installs is checked by equality of parsed
    addresses.  When an entry of [ALLOWED_IPS] fails to parse, the zero
    address is in the list; a connection whose remote host fails to parse
    has the zero address too, compares equal to it, and is admitted as
    allow-listed. *)
Theorem unparsable_entry_admits_unparsable authenticate handleRequest
    (cfg : main.params) (conn : Conn) (clientIP entry : string) (a : Addr) :
  In entry (main.AllowedIPs cfg) -> snd (ParseAddr entry) <> None ->
  client_of conn = Some (clientIP, a) -> snd (ParseAddr clientIP) <> None ->
  let server := fst (main.setup cfg) in
  (forall x : Addr,
      isIPAllowed server x = true
      <-> In x (main.whitelist (main.AllowedIPs cfg)))
  /\ In zeroAddr (main.whitelist (main.AllowedIPs cfg))
  /\ a = zeroAddr
  /\ Compare a zeroAddr = 0
  /\ admitted_as allowed_origin clientIP
       (ServeConn authenticate handleRequest server conn).
Proof.
  intros Hin Herr Hc Hcerr server.
  assert (Hne : main.AllowedIPs cfg <> []) by (intros E; now rewrite E in Hin).
  assert (Hall : forall x, isIPAllowed server x = true
                           <-> In x (main.whitelist (main.AllowedIPs cfg))).
  { intros x. unfold server. rewrite setup_isIPAllowed by assumption.
    apply scan_allowed_In. }
  pose proof (whitelist_unparsable _ _ Hin Herr) as Hz.
  assert (Ha : a = zeroAddr).
  { apply client_of_inv in Hc as [-> _]. now apply ParseAddr_error. }
  repeat (split; [assumption|]).
  split; [subst a; reflexivity|].
  eapply ServeConn_admitted; [eassumption|].
  right; right. subst a. repeat split.
  now apply Hall.
Qed.

(** With [ALLOWED_IPS=10.0.0.1,bogus], a connection whose remote address
    prints as [:4000] is admitted as allow-listed. *)
Lemma unparsable_entry_admits_unparsable_witness :
  admitted_as allowed_origin ""
    (ServeConn authenticate_noauth handleRequest_succeed
       (fst (main.setup cfg_bogus)) (conn_of ":4000" [Data [5; 1; 0]])).
Proof.
  refine (proj2 (proj2 (proj2 (proj2
            (unparsable_entry_admits_unparsable authenticate_noauth
               handleRequest_succeed cfg_bogus
               (conn_of ":4000" [Data [5; 1; 0]]) "" "bogus"
               (fst (ParseAddr "")) _ _ _ _))))).
  - vm_compute. right. left. reflexivity.
  - vm_compute. discriminate.
  - vm_compute. reflexivity.
  - vm_compute. discriminate.
Defined.

End Admission.

(** * The version check *)

Module Handshake.
Import bytealg netip socks5 Spec Examples.
Import netip_facts gate_facts handler_facts gate_runs.

(** The run of the handler on an admitted connection whose first byte is
    not 5. *)
Lemma ServeConn_bad_version authenticate handleRequest
    (s : Server) (conn : Conn) (clientIP : string) (a : Addr)
    (origin : string) (b : Z) (more : list Z) (rest : list ReadOutcome) :
  client_of conn = Some (clientIP, a) ->
  gate_admits s a origin ->
  reads conn = Data (b :: more) :: rest ->
  b <> socks5Version ->
  ServeConn authenticate handleRequest s conn
  = (Some (ErrorfV "unsupported SOCKS version: %v" [b]),
     mkState more rest (writes conn)
       [EvLog InfoLevel origin (ArgString clientIP);
        EvRead (Data (b :: more));
        EvLog ErrorLevel "socks: %v"
          (ArgError (ErrorfV "unsupported SOCKS version: %v" [b]));
        EvClose]).
Proof.
  intros Hc Hg Hr Hb. apply client_of_inv in Hc as [-> [port Hs]].
  unfold ServeConn, serve. rewrite Hs. cbv zeta.
  rewrite (gate_admits_eq s conn clientIP origin Hg).
  unfold bufio_Read, conn_Read, Infof, start.
  cbn [bufConn emit rd wr trace app]. rewrite Hr.
  cbn [set_bufConn bufConn rd wr trace emit app firstn skipn byte_at nth].
  apply Z.eqb_neq in Hb. rewrite Hb. reflexivity.
Qed.

(** C4.  An admitted connection whose first byte [b] is not 5 is closed
    with nothing written to it.  The handler takes that one byte from the
    buffered reader and fails with the unsupported-version error: its
    events are the origin log, the one read on the connection that brought
    the byte, the error log and the close; every byte after the first,
    whether it came with it or is still to come, is left unread; and the
    authentication step, which would read the method list, is not entered,
    whatever it is. *)
Theorem bad_version_closes_silently authenticate handleRequest
    (s : Server) (conn : Conn) (clientIP : string) (a : Addr)
    (origin : string) (b : Z) (more : list Z) (rest : list ReadOutcome) :
  client_of conn = Some (clientIP, a) ->
  gate_admits s a origin ->
  reads conn = Data (b :: more) :: rest ->
  b <> socks5Version ->
  let r := ServeConn authenticate handleRequest s conn in
  fst r = Some (ErrorfV "unsupported SOCKS version: %v" [b])
  /\ trace (snd r)
     = [EvLog InfoLevel origin (ArgString clientIP);
        EvRead (Data (b :: more));
        EvLog ErrorLevel "socks: %v"
          (ArgError (ErrorfV "unsupported SOCKS version: %v" [b]));
        EvClose]
  /\ Forall (fun e => ~ is_write e) (trace (snd r))
  /\ wr (snd r) = writes conn
  /\ pending (snd r) = more ++ script_bytes rest
  /\ b :: pending (snd r) = pending (start conn).
Proof.
  intros Hc Hg Hr Hb r. subst r.
  rewrite (ServeConn_bad_version authenticate handleRequest s conn clientIP a
             origin b more rest Hc Hg Hr Hb).
  cbn [fst snd trace wr]. unfold pending, start. cbn [bufConn rd]. rewrite Hr.
  repeat split; repeat constructor; cbn; tauto.
Qed.

(** A Docker peer sending version 4 and two more bytes in one segment:
    the two bytes are still unread at the close. *)
Lemma bad_version_closes_silently_witness :
  let r := ServeConn authenticate_noauth handleRequest_succeed server0
             (conn_of "172.20.1.2:51000" [Data [4; 1; 0]]) in
  fst r = Some (ErrorfV "unsupported SOCKS version: %v" [4])
  /\ trace (snd r)
     = [EvLog InfoLevel docker_origin (ArgString "172.20.1.2");
        EvRead (Data [4; 1; 0]);
        EvLog ErrorLevel "socks: %v"
          (ArgError (ErrorfV "unsupported SOCKS version: %v" [4]));
        EvClose]
  /\ pending (snd r) = [1; 0].
Proof.
  destruct (bad_version_closes_silently authenticate_noauth
              handleRequest_succeed server0
              (conn_of "172.20.1.2:51000" [Data [4; 1; 0]]) "172.20.1.2"
              (fst (ParseAddr "172.20.1.2")) docker_origin 4 [1; 0] [])
    as (Hr & Ht & _ & _ & Hp & _).
  - vm_compute. reflexivity.
  - left. split; [vm_compute|]; reflexivity.
  - reflexivity.
  - vm_compute. discriminate.
  - repeat split; assumption.
Defined.

End Handshake.

(** * Request decoding *)

Module Decoding.
Import bytealg netip socks5 Spec Examples.
Import netip_facts gate_facts handler_facts gate_runs.

Lemma fill_pending (script : list ReadOutcome) :
  forall (need : nat) (acc : list Z) (w : list (option error))
         (tr : list Event),
    (0 < need)%nat -> (need <= length (script_bytes script))%nat ->
    exists st',
      fill need acc script w tr
      = ((acc ++ firstn need (script_bytes script), None), st')
      /\ pending st' = skipn need (script_bytes script).
Proof.
  induction script as [|o script IH]; intros need acc w tr Hpos Hle;
    cbn [fill script_bytes] in *.
  - cbn in Hle. lia.
  - destruct o as [b | e]; [|cbn in Hle; lia].
    rewrite length_app in Hle.
    destruct (Nat.leb_spec need (length b)) as [Hin | Hout].
    + eexists. split.
      * rewrite firstn_app.
        replace (need - length b)%nat with 0%nat by lia.
        cbn [firstn]. rewrite app_nil_r. reflexivity.
      * unfold pending. cbn [bufConn rd].
        rewrite skipn_app.
        replace (need - length b)%nat with 0%nat by lia. reflexivity.
    + assert (Hp1 : (0 < need - length b)%nat) by lia.
      assert (Hp2 : (need - length b <= length (script_bytes script))%nat)
        by lia.
      destruct (IH (need - length b)%nat (acc ++ b) w
                  (tr ++ [EvRead (Data b)]) Hp1 Hp2) as (st' & Hf & Hp).
      exists st'. split.
      * rewrite Hf. rewrite firstn_app, (@firstn_all2 _ need b) by lia.
        now rewrite <- app_assoc.
      * rewrite Hp. rewrite skipn_app, (@skipn_all2 _ need b) by lia. reflexivity.
Qed.

(** Where enough bytes are pending, reading [need] of them through the
    buffered reader returns them and leaves the rest pending. *)
Lemma ReadFull_pending (need : nat) (st : State) :
  (need <= length (pending st))%nat ->
  exists st',
    ReadFull need st = ((firstn need (pending st), None), st')
    /\ pending st' = skipn need (pending st).
Proof.
  intros Hle. unfold ReadFull, pending in *.
  rewrite length_app in Hle.
  destruct (Nat.leb_spec need (length (bufConn st))) as [Hin | Hout].
  - eexists. split.
    + rewrite firstn_app.
      replace (need - length (bufConn st))%nat with 0%nat by lia.
      cbn [firstn]. now rewrite app_nil_r.
    + cbn [set_bufConn bufConn rd]. rewrite skipn_app.
      replace (need - length (bufConn st))%nat with 0%nat by lia.
      reflexivity.
  - assert (Hp1 : (0 < need - length (bufConn st))%nat) by lia.
    assert (Hp2 : (need - length (bufConn st)
                   <= length (script_bytes (rd st)))%nat) by lia.
    destruct (fill_pending (rd st) (need - length (bufConn st))%nat
                (bufConn st) (wr st) (trace st) Hp1 Hp2) as (st' & Hf & Hp).
    exists st'. split.
    + rewrite Hf, firstn_app, (@firstn_all2 _ need (bufConn st)) by lia. reflexivity.
    + unfold pending in Hp.
      rewrite Hp, skipn_app, (@skipn_all2 _ need (bufConn st)) by lia. reflexivity.
Qed.

(** A request with version 5 whose address type is none of 1, 3 and 4 is
    refused with the unrecognized-address-type error, whatever follows and
    however the bytes are split over reads. *)
Lemma NewRequest_unrecognized (st : State) (cmd rsv atyp : Z) (more : list Z) :
  pending st = socks5Version :: cmd :: rsv :: atyp :: more ->
  atyp <> ipv4Address -> atyp <> fqdnAddress -> atyp <> ipv6Address ->
  exists st',
    NewRequest st = (inr ErrUnrecognizedAddrType, st')
    /\ reads_only st st'.
Proof.
  intros Hp H1 H3 H4.
  assert (Hl1 : (3 <= length (pending st))%nat) by (rewrite Hp; cbn; lia).
  destruct (ReadFull_pending 3 st Hl1) as (st1 & Hr1 & Hp1).
  rewrite Hp in Hr1, Hp1. cbn [firstn skipn] in Hr1, Hp1.
  assert (Hl2 : (1 <= length (pending st1))%nat) by (rewrite Hp1; cbn; lia).
  destruct (ReadFull_pending 1 st1 Hl2) as (st2 & Hr2 & _).
  rewrite Hp1 in Hr2. cbn [firstn] in Hr2.
  assert (E : NewRequest st = (inr ErrUnrecognizedAddrType, st2)).
  { unfold NewRequest. rewrite Hr1. cbn [byte_at nth].
    rewrite Z.eqb_refl. cbn [negb].
    unfold readAddrSpec. rewrite Hr2. cbn [byte_at nth].
    apply Z.eqb_neq in H1, H3, H4. now rewrite H1, H3, H4. }
  exists st2. split; [exact E|].
  pose proof (NewRequest_reads_only st) as Hro. now rewrite E in Hro.
Qed.

(** The handler up to the decoding of the request. *)
Ltac to_decode Hreach :=
  let clientIP := fresh "clientIP" in
  let origin := fresh "origin" in
  let b := fresh "b" in
  let st0 := fresh "st0" in
  let Hc := fresh "Hc" in
  let Hg := fresh "Hg" in
  let Hr := fresh "Hr" in
  let Hv := fresh "Hv" in
  let Ha := fresh "Ha" in
  let port := fresh "port" in
  let Hs := fresh "Hs" in
  destruct Hreach as (clientIP & origin & b & st0 & Hc & Hg & Hr & Hv & Ha);
  apply client_of_inv in Hc as [_ [port Hs]];
  unfold ServeConn, serve; rewrite Hs; cbv zeta;
  rewrite (gate_admits_eq _ _ clientIP origin Hg);
  cbv beta iota; rewrite Hr; cbv beta iota;
  rewrite Hv, Z.eqb_refl; cbn [negb];
  rewrite Ha; cbv beta iota.

(** Where the decoding fails on the address type, the handler writes the
    reply with code 8 once and closes. *)
Lemma ServeConn_unrecognized authenticate handleRequest
    (s : Server) (conn : Conn) (ctx : option AuthContext) (st st' : State) :
  reaches_decode authenticate s conn ctx st ->
  NewRequest st = (inr ErrUnrecognizedAddrType, st') ->
  ServeConn authenticate handleRequest s conn
  = (Some (match fst (conn_Write reply_addrTypeNotSupported st') with
           | Some err => ErrorfE "failed to send reply: %v" err
           | None =>
               ErrorfE "failed to read destination address: %v"
                 ErrUnrecognizedAddrType
           end),
     conn_Close (snd (conn_Write reply_addrTypeNotSupported st'))).
Proof.
  intros Hreach Hn. to_decode Hreach. rewrite Hn. cbv beta iota.
  rewrite sendReply_None.
  change [socks5Version; addrTypeNotSupported; 0; ipv4Address; 0; 0; 0; 0; 0; 0]
    with reply_addrTypeNotSupported.
  destruct (conn_Write reply_addrTypeNotSupported st') as [[e|] st2];
    reflexivity.
Qed.

(** Where the decoding fails otherwise, the handler closes. *)
Lemma ServeConn_undecodable authenticate handleRequest
    (s : Server) (conn : Conn) (ctx : option AuthContext) (st st' : State)
    (e : error) :
  reaches_decode authenticate s conn ctx st ->
  NewRequest st = (inr e, st') -> e <> ErrUnrecognizedAddrType ->
  ServeConn authenticate handleRequest s conn
  = (Some (ErrorfE "failed to read destination address: %v" e),
     conn_Close st').
Proof.
  intros Hreach Hn He. to_decode Hreach. rewrite Hn. cbv beta iota.
  destruct e; try reflexivity. contradiction.
Qed.

(** Where the decoding succeeds, the request is stamped and handed to the
    request step. *)
Lemma ServeConn_stamps authenticate handleRequest
    (s : Server) (conn : Conn) (ctx : option AuthContext) (st st' : State)
    (req : Request) :
  reaches_decode authenticate s conn ctx st ->
  NewRequest st = (inl req, st') ->
  ServeConn authenticate handleRequest s conn
  = handled
      (call (handleRequest s
               (match net.asTCPAddr (ConnRemoteAddr conn) with
                | Some client =>
                    set_RemoteAddr
                      (Some (mkAddrSpec ""
                               (fst (ParseAddr
                                       (string_of_bytes (net.IP client))))
                               (net.Port client)))
                      (set_AuthContext ctx req)
                | None => set_AuthContext ctx req
                end)) st').
Proof.
  intros Hreach Hn. to_decode Hreach. rewrite Hn. cbv beta iota zeta.
  unfold handled.
  destruct (call _ st') as [[e|] st2]; reflexivity.
Qed.

(** No four characters are an IPv4 address in text. *)
Lemma parseIPv4_four_chars (c0 c1 c2 c3 : ascii) :
  fst (parseIPv4 (String c0 (String c1 (String c2 (String c3 "")))))
  = zeroAddr.
Proof.
  unfold parseIPv4, parseIPv4Fields.
  cbn [parseIPv4Fields_loop String.get Nat.sub Nat.eqb Nat.ltb Nat.leb orb].
  repeat match goal with
         | |- context [if ?c then _ else _] => destruct c
         end;
    reflexivity.
Qed.

Lemma ParseAddr_scan_not4 (s rest : string) :
  fst (parseIPv4 s) = zeroAddr -> Is4 (fst (ParseAddr_scan s rest)) = false.
Proof.
  intros H4. induction rest as [|c rest IH]; cbn [ParseAddr_scan];
    [reflexivity|].
  destruct (Ascii.eqb c "."); [now rewrite H4|].
  destruct (Ascii.eqb c ":"); [apply parseIPv6_not4|].
  destruct (Ascii.eqb c "%"); [reflexivity | exact IH].
Qed.

(** The four raw bytes of an IPv4 address, read as text, never parse to an
    IPv4 address. *)
Lemma ParseAddr_four_bytes (b0 b1 b2 b3 : Z) :
  Is4 (fst (ParseAddr (string_of_bytes [b0; b1; b2; b3]))) = false.
Proof. apply ParseAddr_scan_not4, parseIPv4_four_chars. Qed.

(** On every TCP connection from an IPv4 peer held in four bytes, the
    request handed to the request step carries the authentication context
    and the peer's port, and a remote IP that is not an IPv4 address, so
    not the peer's. *)
Lemma stamped_remote_not_peer authenticate handleRequest
    (s : Server) (conn : Conn) (ctx : option AuthContext) (st st' : State)
    (req : Request) (client : net.TCPAddr) (b0 b1 b2 b3 : Z) :
  reaches_decode authenticate s conn ctx st ->
  NewRequest st = (inl req, st') ->
  net.asTCPAddr (ConnRemoteAddr conn) = Some client ->
  net.IP client = [b0; b1; b2; b3] ->
  exists (req' : Request) (a : Addr),
    ServeConn authenticate handleRequest s conn
    = handled (call (handleRequest s req') st')
    /\ ReqAuthContext req' = ctx
    /\ RemoteAddr req' = Some (mkAddrSpec "" a (net.Port client))
    /\ Is4 a = false
    /\ a <> AddrFrom4 [b0; b1; b2; b3].
Proof.
  intros Hreach Hn Hc Hip.
  pose proof (ServeConn_stamps authenticate handleRequest s conn ctx st st'
                req Hreach Hn) as H.
  rewrite Hc, Hip in H.
  eexists _, _. split; [exact H|].
  pose proof (ParseAddr_four_bytes b0 b1 b2 b3) as H4.
  repeat split; [exact H4|].
  intros E. rewrite E in H4. discriminate.
Qed.

(** C5.  When the handler comes to decode a request with version 5 whose
    address-type byte is none of 1 (IPv4), 3 (domain) and 4 (IPv6), then
    after the reads that fetch the request the one thing it does to the
    connection is to write the reply frame with code 8, once, and then to
    close it.  When the decoding fails with any other error, it reads and
    then closes: nothing is written. *)
Theorem unrecognized_addr_type_reply authenticate handleRequest
    (s : Server) (conn : Conn) (ctx : option AuthContext) (st : State) :
  reaches_decode authenticate s conn ctx st ->
  (forall (cmd rsv atyp : Z) (more : list Z),
      pending st = socks5Version :: cmd :: rsv :: atyp :: more ->
      atyp <> ipv4Address -> atyp <> fqdnAddress -> atyp <> ipv6Address ->
      exists evs,
        Forall is_read evs
        /\ trace (snd (ServeConn authenticate handleRequest s conn))
           = trace st ++ evs ++ [EvWrite reply_addrTypeNotSupported; EvClose])
  /\ (forall (e : error) (st' : State),
         NewRequest st = (inr e, st') -> e <> ErrUnrecognizedAddrType ->
         fst (ServeConn authenticate handleRequest s conn)
         = Some (ErrorfE "failed to read destination address: %v" e)
         /\ exists evs,
              Forall is_read evs
              /\ trace (snd (ServeConn authenticate handleRequest s conn))
                 = trace st ++ evs ++ [EvClose]).
Proof.
  intros Hreach. split.
  - intros cmd rsv atyp more Hp H1 H3 H4.
    destruct (NewRequest_unrecognized st cmd rsv atyp more Hp H1 H3 H4)
      as (st' & Hn & _ & evs & Ht & Hf).
    exists evs. split; [assumption|].
    rewrite (ServeConn_unrecognized authenticate handleRequest s conn ctx st st'
               Hreach Hn).
    cbn [snd conn_Close emit trace].
    rewrite conn_Write_extends, Ht, <- !app_assoc. reflexivity.
  - intros e st' Hn He.
    rewrite (ServeConn_undecodable authenticate handleRequest s conn ctx st st'
               e Hreach Hn He).
    split; [reflexivity|].
    pose proof (NewRequest_reads_only st) as Hro. rewrite Hn in Hro.
    cbn [snd] in Hro.
    destruct Hro as (_ & evs & Ht & Hf). exists evs. split; [assumption|].
    cbn [snd conn_Close emit trace]. rewrite Ht, <- app_assoc. reflexivity.
Qed.

(** The Docker peer of the examples reaches the decoding. *)
Lemma reaches_decode_docker (request : list Z) :
  reaches_decode authenticate_noauth server0
    (tcp_conn "172.16.0.5:40000" [172; 16; 0; 5] 40000
       [Data [5; 1; 0]; Data request])
    (Some (mkAuthContext 0 [])) (at_decode request).
Proof.
  exists "172.16.0.5", docker_origin, [5],
    (mkState [1; 0] [Data request] []
       [EvLog InfoLevel docker_origin (ArgString "172.16.0.5");
        EvRead (Data [5; 1; 0])]).
  split; [reflexivity|].
  split; [left; split; [vm_compute|]; reflexivity|].
  split; [reflexivity|].
  split; reflexivity.
Qed.

(** The peer that sends address type 2 gets the reply with code 8. *)
Lemma unrecognized_addr_type_reply_witness :
  exists evs,
    Forall is_read evs
    /\ trace (snd (ServeConn authenticate_noauth handleRequest_succeed
                     server0 conn_atyp2))
       = trace (at_decode [5; 1; 0; 2; 10; 0; 0; 1; 0; 80]) ++ evs
         ++ [EvWrite reply_addrTypeNotSupported; EvClose].
Proof.
  refine (proj1 (unrecognized_addr_type_reply authenticate_noauth
            handleRequest_succeed server0 conn_atyp2
            (Some (mkAuthContext 0 []))
            (at_decode [5; 1; 0; 2; 10; 0; 0; 1; 0; 80]) _)
          1 0 2 [10; 0; 0; 1; 0; 80] _ _ _ _).
  - apply reaches_decode_docker.
  - reflexivity.
  - vm_compute. discriminate.
  - vm_compute. discriminate.
  - vm_compute. discriminate.
Defined.

(** A request cut short after its header: the decoding fails at the end
    of the stream, and the handler closes without a reply. *)
Example ServeConn_truncated_request :
  ServeConn authenticate_noauth handleRequest_succeed server0
    (tcp_conn "172.16.0.5:40000" [172; 16; 0; 5] 40000
       [Data [5; 1; 0]; Data [5; 1; 0]])
  = (Some (ErrorfE "failed to read destination address: %v" io_EOF),
     mkState [] [] []
       [EvLog InfoLevel docker_origin (ArgString "172.16.0.5");
        EvRead (Data [5; 1; 0]); EvWrite [5; 0];
        EvRead (Data [5; 1; 0]); EvRead (Fail io_EOF); EvClose]).
Proof. reflexivity. Qed.

(** A request whose version byte is not 5 fails on the version, before
    its address type is looked at: no reply. *)
Example ServeConn_request_version :
  ServeConn authenticate_noauth handleRequest_succeed server0
    (tcp_conn "172.16.0.5:40000" [172; 16; 0; 5] 40000
       [Data [5; 1; 0]; Data [4; 1; 0; 2; 10; 0; 0; 1; 0; 80]])
  = (Some (ErrorfE "failed to read destination address: %v"
             (ErrorfV "unsupported command version: %v" [4])),
     mkState [2; 10; 0; 0; 1; 0; 80] [] []
       [EvLog InfoLevel docker_origin (ArgString "172.16.0.5");
        EvRead (Data [5; 1; 0]); EvWrite [5; 0];
        EvRead (Data [4; 1; 0; 2; 10; 0; 0; 1; 0; 80]); EvClose]).
Proof. reflexivity. Qed.

(** C6.  On a TCP connection from 172.16.0.5:40000 that negotiates no-auth
    and sends a CONNECT request, the request handed to the request step
    carries the authentication context and the peer's port, but its remote
    IP is the zero address, which is not valid and is not 172.16.0.5: the
    handler parses the raw bytes of the peer's IP as if they were its
    text.  The 16-byte form of the same peer address fares no better. *)
Theorem remote_addr_not_peer_ip handleRequest :
  ServeConn authenticate_noauth handleRequest server0 conn_connect
  = handled
      (call (handleRequest server0
               (mkRequest 5 1 (Some (mkAuthContext NoAuth []))
                  (Some (mkAddrSpec "" zeroAddr 40000))
                  (Some (mkAddrSpec "" (AddrFrom4 [10; 0; 0; 1]) 80))))
         (mkState [] [] []
            [EvLog InfoLevel docker_origin (ArgString "172.16.0.5");
             EvRead (Data [5; 1; 0]); EvWrite [5; 0];
             EvRead (Data [5; 1; 0; 1; 10; 0; 0; 1; 0; 80])]))
  /\ IsValid zeroAddr = false
  /\ zeroAddr <> AddrFrom4 [172; 16; 0; 5]
  /\ fst (ParseAddr "172.16.0.5") = AddrFrom4 [172; 16; 0; 5]
  /\ fst (ParseAddr (string_of_bytes [172; 16; 0; 5])) = zeroAddr
  /\ fst (ParseAddr
            (string_of_bytes
               [0; 0; 0; 0; 0; 0; 0; 0; 0; 0; 255; 255; 172; 16; 0; 5]))
     = zeroAddr.
Proof.
  split.
  - rewrite (ServeConn_stamps authenticate_noauth handleRequest server0
               conn_connect (Some (mkAuthContext 0 []))
               (at_decode [5; 1; 0; 1; 10; 0; 0; 1; 0; 80])
               (mkState [] [] []
                  [EvLog InfoLevel docker_origin (ArgString "172.16.0.5");
                   EvRead (Data [5; 1; 0]); EvWrite [5; 0];
                   EvRead (Data [5; 1; 0; 1; 10; 0; 0; 1; 0; 80])])
               (mkRequest 5 1 None None
                  (Some (mkAddrSpec "" (AddrFrom4 [10; 0; 0; 1]) 80)))
               (reaches_decode_docker _) eq_refl).
    reflexivity.
  - repeat split; try reflexivity. vm_compute. discriminate.
Qed.

End Decoding.

(** * The construction of the server *)

Module Construction.
Import bytealg netip socks5 Spec Examples.

Lemma register_all_nonempty (l : list Authenticator) :
  forall server : Server,
    l <> [] \/ authMethods server <> ∅ ->
    authMethods
      (fold_left
         (fun server a =>
            set_authMethods (<[GetCode a := a]> (authMethods server)) server)
         l server) <> ∅.
Proof.
  induction l as [|a l IH]; intros server H; cbn [fold_left].
  - destruct H as [H | H]; [contradiction | exact H].
  - apply IH. right. cbn [authMethods set_authMethods].
    apply insert_non_empty.
Qed.

Lemma register_all_lookup (l : list Authenticator) (a : Authenticator) :
  forall server : Server,
    In a l \/ is_Some (authMethods server !! GetCode a) ->
    is_Some
      (authMethods
         (fold_left
            (fun server a =>
               set_authMethods (<[GetCode a := a]> (authMethods server))
                 server)
            l server) !! GetCode a).
Proof.
  induction l as [|x l IH]; intros server H; cbn [fold_left].
  - destruct H as [[] | H]; exact H.
  - apply IH. cbn [authMethods set_authMethods].
    destruct H as [[-> | H] | H].
    + right. rewrite lookup_insert_eq. eauto.
    + left. exact H.
    + right. destruct (decide (GetCode x = GetCode a)) as [E | E].
      * rewrite E, lookup_insert_eq. eauto.
      * rewrite lookup_insert_ne by exact E. exact H.
Qed.

(** The dispatch map [New] builds: the authenticators of the
    configuration, or the default one, registered from the empty map. *)
Lemma New_authMethods (conf : Config) :
  exists server : Server,
    authMethods server = ∅
    /\ authMethods (fst (New conf))
       = authMethods
           (fold_left
              (fun server a =>
                 set_authMethods (<[GetCode a := a]> (authMethods server))
                   server)
              (match AuthMethods conf, Credentials conf with
               | [], Some credentials => [UserPassAuthenticator credentials]
               | [], None => [NoAuthAuthenticator]
               | l, _ => l
               end)
              server).
Proof.
  destruct conf as [am cr rs ru rw bi lg di].
  destruct am as [|a l], cr as [c|], rs as [r|], ru as [u|], lg as [g|];
    eexists (mkServer _ ∅ _); split; reflexivity.
Qed.

(** C7, as amended.  [New] returns no error and a server with at least one
    authenticator in its dispatch map.  When the configuration supplies no
    authenticator, the map holds exactly one: the no-auth method when there
    is no credential store, and the username/password method over the
    store when there is one.  Otherwise every supplied authenticator's
    code is registered. *)
Theorem New_registers_authenticator (conf : Config) :
  snd (New conf) = None
  /\ authMethods (fst (New conf)) <> ∅
  /\ match AuthMethods conf, Credentials conf with
     | [], None =>
         authMethods (fst (New conf)) = {[NoAuth := NoAuthAuthenticator]}
     | [], Some credentials =>
         authMethods (fst (New conf))
         = {[UserPassAuth := UserPassAuthenticator credentials]}
     | _ :: _, _ =>
         forall a : Authenticator,
           In a (AuthMethods conf) ->
           is_Some (authMethods (fst (New conf)) !! GetCode a)
     end.
Proof.
  split; [reflexivity|].
  destruct (New_authMethods conf) as (server & Hempty & ->). split.
  - apply register_all_nonempty. left.
    destruct (AuthMethods conf), (Credentials conf); discriminate.
  - destruct (AuthMethods conf) as [|a l] eqn:Ea,
             (Credentials conf) as [c|] eqn:Ec.
    + cbn [fold_left authMethods set_authMethods GetCode].
      rewrite Hempty. apply insert_empty.
    + cbn [fold_left authMethods set_authMethods GetCode].
      rewrite Hempty. apply insert_empty.
    + intros x Hx. apply register_all_lookup. left. exact Hx.
    + intros x Hx. apply register_all_lookup. left. exact Hx.
Qed.

(** C7 as stated fails on a configuration with a credential store and no
    authenticator: the no-auth method is not registered, under its code
    or under any other. *)
Lemma New_credentials_without_noauth :
  AuthMethods conf_creds = []
  /\ ~ noauth_registered (fst (New conf_creds))
  /\ forall k : Z,
       authMethods (fst (New conf_creds)) !! k <> Some NoAuthAuthenticator.
Proof.
  assert (H : authMethods (fst (New conf_creds))
              = {[UserPassAuth := UserPassAuthenticator [("alice", "s3cret")]]}).
  { destruct (New_authMethods conf_creds) as (server & Hempty & ->).
    cbn [AuthMethods Credentials conf_creds fold_left authMethods
         set_authMethods GetCode].
    rewrite Hempty. apply insert_empty. }
  split; [reflexivity|]. unfold noauth_registered. rewrite H.
  split; [|intros k];
    match goal with
    | |- {[?i := _]} !! ?j <> _ =>
        destruct (decide (i = j)) as [<- | Hne];
        [rewrite lookup_singleton_eq | rewrite lookup_singleton_ne by exact Hne];
        discriminate
    end.
Qed.

End Construction.

(** * Facts about strings, [SplitHostPort] and [JoinHostPort] *)

Module string_facts.
Import bytealg netip.

Lemma index_last_none (c : ascii) (s : string) :
  forall i : nat, index_from i c s = None -> last_index_from i c s = None.
Proof.
  induction s as [|x s IH]; intros i; cbn [index_from last_index_from];
    [reflexivity|].
  destruct (Ascii.eqb x c); [discriminate|].
  intros H. now rewrite (IH _ H).
Qed.

Lemma SplitHostPort_no_colon (hostport : string) :
  net.has hostport ":" = false ->
  net.SplitHostPort hostport
  = ("", "", Some (AddrError "missing port in address" hostport)).
Proof.
  unfold net.has, net.SplitHostPort, IndexByteString, LastIndexByteString.
  destruct (index_from 0 ":" hostport) eqn:E; [discriminate|].
  intros _. now rewrite (index_last_none _ _ _ E).
Qed.

Local Open Scope string_scope.

Lemma sapp_cons (x : ascii) (a b : string) :
  String x a ++ b = String x (a ++ b).
Proof. reflexivity. Qed.

Lemma sapp_nil_l (b : string) : "" ++ b = b.
Proof. reflexivity. Qed.

Lemma sapp_assoc (a b c : string) : (a ++ b) ++ c = a ++ (b ++ c).
Proof. induction a as [|x a IH]; rewrite ?sapp_cons, ?sapp_nil_l; cbn [String.length]; [reflexivity | now rewrite IH]. Qed.

Lemma sapp_nil_r (a : string) : a ++ "" = a.
Proof. induction a as [|x a IH]; rewrite ?sapp_cons, ?sapp_nil_l; cbn [String.length]; [reflexivity | now rewrite IH]. Qed.

Lemma slen_app (a b : string) :
  String.length (a ++ b) = (String.length a + String.length b)%nat.
Proof. induction a as [|x a IH]; rewrite ?sapp_cons, ?sapp_nil_l; cbn [String.length]; [reflexivity | now rewrite IH]. Qed.

Lemma get_app_skip (p q : string) (k : nat) :
  String.get (String.length p + k) (p ++ q) = String.get k q.
Proof. induction p as [|x p IH]; rewrite ?sapp_cons, ?sapp_nil_l; cbn [String.length String.get String.substring Nat.add]; [reflexivity | exact IH]. Qed.

Lemma substring_all (q : string) : String.substring 0 (String.length q) q = q.
Proof. induction q as [|x q IH]; cbn [String.substring String.length]; [reflexivity | now rewrite IH]. Qed.

Lemma upto_app (p q : string) : upto (String.length p) (p ++ q) = p.
Proof.
  unfold upto. induction p as [|x p IH]; rewrite ?sapp_cons, ?sapp_nil_l; cbn [String.length String.substring].
  - destruct q; reflexivity.
  - now rewrite IH.
Qed.

Lemma substring_skip (p q : string) (m : nat) :
  String.substring (String.length p) m (p ++ q) = String.substring 0 m q.
Proof. induction p as [|x p IH]; rewrite ?sapp_cons, ?sapp_nil_l; cbn [String.length String.get String.substring Nat.add]; [reflexivity | exact IH]. Qed.

Lemma from_app (p q : string) : from (String.length p) (p ++ q) = q.
Proof.
  unfold from. rewrite substring_skip, slen_app.
  replace (String.length p + String.length q - String.length p)%nat
    with (String.length q) by lia.
  apply substring_all.
Qed.

Lemma index_from_app (c : ascii) (p q : string) :
  forall i : nat,
    index_from i c (p ++ q)
    = match index_from i c p with
      | Some j => Some j
      | None => index_from (i + String.length p) c q
      end.
Proof.
  induction p as [|x p IH]; intros i; rewrite ?sapp_cons, ?sapp_nil_l; cbn [index_from String.length].
  - now rewrite Nat.add_0_r.
  - destruct (Ascii.eqb x c); [reflexivity|].
    rewrite IH. now rewrite Nat.add_succ_comm.
Qed.

Lemma has_app (c : ascii) (p q : string) :
  net.has (p ++ q) c = net.has p c || net.has q c.
Proof.
  unfold net.has, IndexByteString. rewrite index_from_app.
  destruct (index_from 0 c p); [reflexivity|]. cbn [orb].
  generalize (0 + String.length p)%nat. generalize 0%nat.
  induction q as [|x q IH]; intros i j; cbn [index_from]; [reflexivity|].
  destruct (Ascii.eqb x c); [reflexivity | apply IH].
Qed.

Lemma has_false_index (c : ascii) (s : string) (i : nat) :
  net.has s c = false -> index_from i c s = None.
Proof.
  unfold net.has, IndexByteString. generalize 0%nat. revert i.
  induction s as [|x s IH]; intros i j; cbn [index_from]; [reflexivity|].
  destruct (Ascii.eqb x c); [discriminate | apply IH].
Qed.

Lemma last_index_none (c : ascii) (s : string) (i : nat) :
  net.has s c = false -> last_index_from i c s = None.
Proof.
  unfold net.has, IndexByteString. generalize 0%nat. revert i.
  induction s as [|x s IH]; intros i j; cbn [index_from last_index_from];
    [reflexivity|].
  destruct (Ascii.eqb x c); [discriminate|].
  intros H. now rewrite (IH _ _ H).
Qed.

Lemma last_index_app (c : ascii) (p q : string) :
  net.has q c = false ->
  forall i : nat,
    last_index_from i c (p ++ String c q) = Some (i + String.length p)%nat.
Proof.
  intros Hq. induction p as [|x p IH]; intros i;
    rewrite ?sapp_cons, ?sapp_nil_l; cbn [last_index_from String.length].
  - rewrite (last_index_none _ _ _ Hq), Ascii.eqb_refl. f_equal. lia.
  - rewrite IH. f_equal. lia.
Qed.

Lemma index_first (c : ascii) (p q : string) :
  net.has p c = false ->
  forall i : nat,
    index_from i c (p ++ String c q) = Some (i + String.length p)%nat.
Proof.
  intros Hp i. rewrite index_from_app, (has_false_index _ _ _ Hp).
  cbn [index_from]. now rewrite Ascii.eqb_refl.
Qed.


Lemma has_cons (c x : ascii) (s : string) :
  net.has (String x s) c = Ascii.eqb x c || net.has s c.
Proof.
  change (String x s) with (String x "" ++ s). rewrite has_app.
  unfold net.has at 1, IndexByteString. cbn [index_from].
  destruct (Ascii.eqb x c); reflexivity.
Qed.

Lemma Split_plain (host port : string) :
  net.has host ":" = false -> net.has host "[" = false ->
  net.has host "]" = false ->
  net.has port ":" = false -> net.has port "[" = false ->
  net.has port "]" = false ->
  net.SplitHostPort (host ++ String ":" port) = (host, port, None).
Proof.
  intros Hh0 Hh1 Hh2 Hp0 Hp1 Hp2.
  unfold net.SplitHostPort, LastIndexByteString.
  rewrite (last_index_app ":" host port Hp0 0). cbn [Nat.add].
  assert (Hhead : head_is (host ++ String ":" port) "[" = false).
  { destruct host as [|x host]; [reflexivity|].
    rewrite has_cons in Hh1. apply orb_false_iff in Hh1 as [H _].
    exact H. }
  rewrite Hhead, upto_app, Hh0.
  assert (Hf0 : from 0 (host ++ String ":" port) = host ++ String ":" port).
  { unfold from. rewrite Nat.sub_0_r. apply substring_all. }
  rewrite Hf0, !has_app, !has_cons, Hh1, Hh2, Hp1, Hp2.
  cbn [orb Ascii.eqb Bool.eqb].
  replace (from (S (String.length host)) (host ++ String ":" port)) with port;
    [reflexivity|].
  replace (host ++ String ":" port) with ((host ++ ":") ++ port)
    by (rewrite sapp_assoc; reflexivity).
  replace (S (String.length host)) with (String.length (host ++ ":"))
    by (rewrite slen_app; cbn [String.length]; lia).
  now rewrite from_app.
Qed.

Lemma Split_bracket (host port : string) :
  net.has host "[" = false -> net.has host "]" = false ->
  net.has port ":" = false -> net.has port "[" = false ->
  net.has port "]" = false ->
  net.SplitHostPort (String "[" (host ++ String "]" (String ":" port)))
  = (host, port, None).
Proof.
  intros Hh1 Hh2 Hp0 Hp1 Hp2.
  set (hp := String "[" (host ++ String "]" (String ":" port))).
  assert (E1 : hp = ("[" ++ host ++ "]") ++ String ":" port).
  { unfold hp. rewrite !sapp_cons, sapp_nil_l, sapp_assoc. reflexivity. }
  assert (L1 : String.length ("[" ++ host ++ "]") = S (S (String.length host))).
  { rewrite !sapp_cons, sapp_nil_l. cbn [String.length]. rewrite slen_app. cbn [String.length]. lia. }
  assert (Hlast : LastIndexByteString hp ":" = Some (S (S (String.length host)))).
  { unfold LastIndexByteString. rewrite E1.
    rewrite (last_index_app ":" _ port Hp0 0), L1. reflexivity. }
  assert (Hidx : IndexByteString hp "]" = Some (S (String.length host))).
  { unfold IndexByteString, hp. cbn [index_from Ascii.eqb Bool.eqb].
    rewrite (index_first "]" host (String ":" port) Hh2 1). f_equal. }
  assert (Hhead : head_is hp "[" = true) by reflexivity.
  assert (Hlen : String.length hp
                 = S (S (S (String.length host + String.length port)))).
  { unfold hp. cbn [String.length]. rewrite slen_app. cbn [String.length].
    lia. }
  assert (Hsub : String.substring 1 (S (String.length host) - 1) hp = host).
  { replace (S (String.length host) - 1)%nat with (String.length host)
      by lia.
    unfold hp. cbn [String.substring]. apply upto_app. }
  assert (Hf1 : from 1 hp = host ++ String "]" (String ":" port)).
  { unfold from, hp. cbn [String.length].
    replace (S (String.length (host ++ String "]" (String ":" port))) - 1)%nat
      with (String.length (host ++ String "]" (String ":" port))) by lia.
    cbn [String.substring]. apply substring_all. }
  assert (Hf2 : from (S (S (String.length host))) hp = String ":" port).
  { rewrite E1, <- L1. apply from_app. }
  assert (Hf3 : from (S (S (S (String.length host)))) hp = port).
  { assert (E2 : hp = ("[" ++ host ++ "]:") ++ port).
    { unfold hp. rewrite !sapp_cons, sapp_nil_l, sapp_assoc. reflexivity. }
    rewrite E2.
    replace (S (S (S (String.length host))))
      with (String.length ("[" ++ host ++ "]:")).
    - apply from_app.
    - rewrite !sapp_cons, sapp_nil_l. cbn [String.length]. rewrite slen_app. cbn [String.length]. lia. }
  unfold net.SplitHostPort. rewrite Hlast, Hhead, Hidx, Hlen.
  replace (S (S (String.length host))
           =? S (S (S (String.length host + String.length port))))%nat
    with false by (symmetry; apply Nat.eqb_neq; lia).
  rewrite Nat.eqb_refl, Hsub, Hf1, Hf2, Hf3.
  rewrite !has_app, !has_cons, Hh1, Hp1, Hp2.
  reflexivity.
Qed.

(** Splitting what [net.JoinHostPort] joined. *)
(** Splitting what [JoinHostPort] joined gives the two parts back. *)
Lemma SplitHostPort_JoinHostPort (host port : string) :
  net.has host "[" = false -> net.has host "]" = false ->
  net.has port ":" = false -> net.has port "[" = false ->
  net.has port "]" = false ->
  net.SplitHostPort (net.JoinHostPort host port) = (host, port, None).
Proof.
  intros Hh1 Hh2 Hp0 Hp1 Hp2. unfold net.JoinHostPort.
  destruct (net.has host ":") eqn:Hc.
  - now apply Split_bracket.
  - now apply Split_plain.
Qed.

End string_facts.

(** * The text of addresses, and parsing it *)

Module text_facts.
Import bytealg netip itoa socks5 Spec netip_facts gate_facts string_facts.

Local Open Scope string_scope.

Lemma appendDecimal_app (b : string) (x : Z) : appendDecimal b x = b ++ dec x.
Proof.
  unfold dec, appendDecimal.
  destruct (100 <=? x)%Z, (10 <=? x)%Z; rewrite ?sapp_nil_l, ?sapp_assoc;
    reflexivity.
Qed.

Lemma byte_cases (P : Z -> Prop) :
  (forall n : nat, (n < 256)%nat -> P (Z.of_nat n)) ->
  forall x : Z, is_byte x -> P x.
Proof.
  intros H x Hx. unfold is_byte in Hx.
  rewrite <- (Z2Nat.id x) by lia. apply H. lia.
Qed.

Tactic Notation "each_byte" tactic3(tac) :=
  let n := fresh "n" in
  let Hn := fresh "Hn" in
  let x := fresh "x" in
  let Hx := fresh "Hx" in
  intros x Hx; pattern x; revert x Hx;
  apply byte_cases; intros n Hn; cbv beta;
  do 256 (destruct n as [|n]; [tac|]); exfalso; lia.

Lemma scan_dec (s r : string) (x : Z) :
  is_byte x -> ParseAddr_scan s (dec x ++ String "." r) = parseIPv4 s.
Proof. revert x. each_byte reflexivity. Qed.

Lemma dec_clean (x : Z) :
  is_byte x ->
  net.has (dec x) ":" = false /\ net.has (dec x) "[" = false
  /\ net.has (dec x) "]" = false /\ (0 < String.length (dec x))%nat.
Proof.
  revert x. each_byte (repeat split; [reflexivity ..|vm_compute; lia]).
Qed.

Lemma dec_last_digit (x : Z) (r : string) :
  is_byte x ->
  match String.get (String.length (dec x) - 1) (dec x ++ r) with
  | Some p => Ascii.eqb p "."
  | None => false
  end = false.
Proof. revert x. each_byte reflexivity. Qed.

(** One octet and the dot after it. *)
Lemma loop_octet_dot (input s rest : string) (i pos : nat) (fields : list Z)
    (x : Z) :
  is_byte x ->
  (pos =? 3)%nat = false ->
  match rest with EmptyString => true | String _ _ => false end = false ->
  match String.get (String.length (dec x) + i - 1) s with
  | Some p => Ascii.eqb p "."
  | None => false
  end = false ->
  parseIPv4Fields_loop input s (dec x ++ String "." rest) i 0 pos 0 fields
  = parseIPv4Fields_loop input s rest (S (String.length (dec x) + i)) 0
      (S pos) 0 (<[pos := x]> fields).
Proof.
  intros Hx Hpos Hrest. revert x Hx.
  each_byte (intros Hget; simpl in Hget |- *; rewrite Hrest, Hget, Hpos;
             reflexivity).
Qed.

(** The last octet. *)
Lemma loop_last_octet (input s : string) (i : nat) (fields : list Z) (x : Z) :
  is_byte x ->
  parseIPv4Fields_loop input s (dec x) i 0 3 0 fields
  = (<[3%nat := x]> fields, None).
Proof. revert x. each_byte reflexivity. Qed.

Local Close Scope string_scope.

Lemma v4byte_AddrFrom4 (a b c d : Z) :
  is_byte a -> is_byte b -> is_byte c -> is_byte d ->
  v4byte (AddrFrom4 [a; b; c; d]) 0 = a
  /\ v4byte (AddrFrom4 [a; b; c; d]) 1 = b
  /\ v4byte (AddrFrom4 [a; b; c; d]) 2 = c
  /\ v4byte (AddrFrom4 [a; b; c; d]) 3 = d.
Proof.
  intros Ha Hb Hc Hd. rewrite AddrFrom4_value by assumption.
  unfold v4byte, v4mapped, ipv4, is_byte in *. cbn [lo].
  rewrite !Z.shiftr_div_pow2 by lia.
  change ((3 - 0) * 8) with 24. change ((3 - 1) * 8) with 16.
  change ((3 - 2) * 8) with 8. change ((3 - 3) * 8) with 0.
  repeat split; Z.div_mod_to_equations; lia.
Qed.

(** The text of an IPv4 address. *)
Lemma Addr_String_v4 (a b c d : Z) :
  is_byte a -> is_byte b -> is_byte c -> is_byte d ->
  Addr_String (AddrFrom4 [a; b; c; d])
  = (dec a ++ String "." (dec b ++ String "." (dec c ++ String "." (dec d))))%string.
Proof.
  intros Ha Hb Hc Hd.
  destruct (v4byte_AddrFrom4 a b c d Ha Hb Hc Hd) as (E0 & E1 & E2 & E3).
  unfold Addr_String. cbn [z AddrFrom4]. fold (AddrFrom4 [a; b; c; d]).
  unfold appendTo4. cbv zeta.
  rewrite !appendDecimal_app, E0, E1, E2, E3.
  rewrite sapp_nil_l, !sapp_assoc. reflexivity.
Qed.

(** Parsing the text of an IPv4 address gives the address back. *)
Lemma ParseAddr_String_v4 (a b c d : Z) :
  is_byte a -> is_byte b -> is_byte c -> is_byte d ->
  ParseAddr (Addr_String (AddrFrom4 [a; b; c; d]))
  = (AddrFrom4 [a; b; c; d], None).
Proof.
  intros Ha Hb Hc Hd. rewrite Addr_String_v4 by assumption.
  set (s := (dec a ++ String "." (dec b ++ String "." (dec c ++ String "." (dec d))))%string).
  unfold ParseAddr. unfold s at 2. rewrite scan_dec by assumption.
  unfold parseIPv4, parseIPv4Fields.
  destruct (dec_clean a Ha) as (_ & _ & _ & La).
  destruct (dec_clean b Hb) as (_ & _ & _ & Lb).
  destruct (dec_clean c Hc) as (_ & _ & _ & Lc).
  destruct (dec_clean d Hd) as (_ & _ & _ & Ld).
  assert (Hne : forall x r, is_byte x ->
            match (dec x ++ r)%string with
            | EmptyString => true | String _ _ => false end = false).
  { intros x r Hx. destruct (dec_clean x Hx) as (_ & _ & _ & L).
    destruct (dec x); [cbn in L; lia | reflexivity]. }
  unfold s at 3.
  rewrite (loop_octet_dot s s _ 0 0 [0; 0; 0; 0] a Ha eq_refl (Hne b _ Hb)).
  2:{ rewrite Nat.add_0_r. unfold s. apply dec_last_digit. exact Ha. }
  rewrite (loop_octet_dot s s _ _ 1 _ b Hb eq_refl (Hne c _ Hc)).
  2:{ unfold s.
      replace (String.length (dec b) + S (String.length (dec a) + 0) - 1)%nat
        with (String.length (dec a ++ ".") + (String.length (dec b) - 1))%nat
        by (rewrite slen_app; cbn [String.length]; lia).
      replace (dec a ++ String "." (dec b ++ String "." (dec c ++ String "." (dec d))))%string
        with ((dec a ++ ".") ++ (dec b ++ String "." (dec c ++ String "." (dec d))))%string
        by (rewrite sapp_assoc; reflexivity).
      rewrite get_app_skip. apply dec_last_digit. exact Hb. }
  assert (Hned : match dec d with
                 | EmptyString => true | String _ _ => false end = false).
  { destruct (dec d); [cbn in Ld; lia | reflexivity]. }
  rewrite (loop_octet_dot s s _ _ 2 _ c Hc eq_refl Hned).
  2:{ unfold s.
      replace (String.length (dec c)
               + S (String.length (dec b) + S (String.length (dec a) + 0)) - 1)%nat
        with (String.length ((dec a ++ ".") ++ (dec b ++ "."))
              + (String.length (dec c) - 1))%nat
        by (rewrite !slen_app; cbn [String.length]; lia).
      replace (dec a ++ String "." (dec b ++ String "." (dec c ++ String "." (dec d))))%string
        with (((dec a ++ ".") ++ (dec b ++ ".")) ++ (dec c ++ String "." (dec d)))%string
        by (rewrite !sapp_assoc; reflexivity).
      rewrite get_app_skip. apply dec_last_digit. exact Hc. }
  rewrite loop_last_octet by exact Hd.
  reflexivity.
Qed.

Lemma digit_char_clean (d : Z) :
  0 <= d <= 9 ->
  Ascii.eqb (char_of (byte_of "0" + d)) ":" = false
  /\ Ascii.eqb (char_of (byte_of "0" + d)) "[" = false
  /\ Ascii.eqb (char_of (byte_of "0" + d)) "]" = false.
Proof.
  intros H.
  assert (C : d = 0 \/ d = 1 \/ d = 2 \/ d = 3 \/ d = 4 \/ d = 5 \/ d = 6
              \/ d = 7 \/ d = 8 \/ d = 9) by lia.
  repeat (destruct C as [-> | C]; [repeat split; reflexivity|]).
  subst. repeat split; reflexivity.
Qed.

Lemma Uitoa_loop_clean (c : ascii) :
  c = ":"%char \/ c = "["%char \/ c = "]"%char ->
  forall (n : nat) (val : Z) (buf : string),
    0 <= val -> net.has buf c = false ->
    net.has (Uitoa_loop n val buf) c = false.
Proof.
  intros Hc. induction n as [|n IH]; intros val buf Hv Hb; cbn [Uitoa_loop];
    [exact Hb|].
  destruct (Z.leb_spec 10 val) as [Hge | Hlt].
  - apply IH; [apply Z.div_pos; lia|].
    rewrite has_cons, Hb, orb_false_r.
    replace (byte_of "0" + val - val / 10 * 10)
      with (byte_of "0" + (val - val / 10 * 10)) by lia.
    destruct (digit_char_clean (val - val / 10 * 10)) as (H1 & H2 & H3);
      [Z.div_mod_to_equations; lia|].
    destruct Hc as [-> | [-> | ->]]; assumption.
  - rewrite has_cons, Hb, orb_false_r.
    destruct (digit_char_clean val) as (H1 & H2 & H3); [lia|].
    destruct Hc as [-> | [-> | ->]]; assumption.
Qed.

(** The decimal text of a port has no colon and no bracket. *)
Lemma Itoa_clean (val : Z) (c : ascii) :
  c = ":"%char \/ c = "["%char \/ c = "]"%char ->
  net.has (Itoa val) c = false.
Proof.
  intros Hc.
  assert (HU : forall v, 0 <= v -> net.has (Uitoa v) c = false).
  { intros v Hv. unfold Uitoa. destruct (v =? 0).
    - destruct Hc as [-> | [-> | ->]]; reflexivity.
    - apply Uitoa_loop_clean; [exact Hc | exact Hv|].
      destruct Hc as [-> | [-> | ->]]; reflexivity. }
  unfold Itoa. destruct (Z.ltb_spec val 0).
  - change ("-" ++ Uitoa (- val))%string with (String "-" (Uitoa (- val))).
    rewrite has_cons, HU by lia.
    destruct Hc as [-> | [-> | ->]]; reflexivity.
  - apply HU. lia.
Qed.

Lemma To4_length (ip : list Z) (a b c d : Z) :
  net.To4 ip = [a; b; c; d] -> length ip = 4%nat \/ length ip = 16%nat.
Proof.
  unfold net.To4.
  destruct (Nat.eqb_spec (length ip) 4); [auto|].
  destruct (Nat.eqb_spec (length ip) 16); [auto|].
  cbn [andb]. discriminate.
Qed.

Lemma v4_text_clean (a b c d : Z) :
  is_byte a -> is_byte b -> is_byte c -> is_byte d ->
  net.has (Addr_String (AddrFrom4 [a; b; c; d])) ":" = false
  /\ net.has (Addr_String (AddrFrom4 [a; b; c; d])) "[" = false
  /\ net.has (Addr_String (AddrFrom4 [a; b; c; d])) "]" = false.
Proof.
  intros Ha Hb Hc Hd. rewrite Addr_String_v4 by assumption.
  destruct (dec_clean a Ha) as (A1 & A2 & A3 & _).
  destruct (dec_clean b Hb) as (B1 & B2 & B3 & _).
  destruct (dec_clean c Hc) as (C1 & C2 & C3 & _).
  destruct (dec_clean d Hd) as (D1 & D2 & D3 & _).
  rewrite !has_app, !has_cons, !has_app, !has_cons, !has_app, !has_cons.
  rewrite A1, A2, A3, B1, B2, B3, C1, C2, C3, D1, D2, D3.
  repeat split; reflexivity.
Qed.

(** The text of the remote address of a TCP connection from an IPv4
    peer. *)
Lemma TCPAddr_String_v4 (t : net.TCPAddr) (a b c d : Z) :
  is_byte a -> is_byte b -> is_byte c -> is_byte d ->
  net.To4 (net.IP t) = [a; b; c; d] -> net.Zone t = EmptyString ->
  net.TCPAddr_String t
  = (Addr_String (AddrFrom4 [a; b; c; d]) ++ String ":" (Itoa (net.Port t)))%string.
Proof.
  intros Ha Hb Hc Hd H4 Hz.
  destruct (v4_text_clean a b c d Ha Hb Hc Hd) as (H1 & _ & _).
  unfold net.TCPAddr_String, net.ipEmptyString, net.IP_String. rewrite Hz, H4.
  cbn [len String.length Z.of_nat Z.eqb negb length Nat.eqb].
  destruct (To4_length _ _ _ _ _ H4) as [-> | ->];
    cbn [Nat.eqb negb andb]; unfold net.JoinHostPort; now rewrite H1.
Qed.

(** What the gate makes of a TCP connection from an IPv4 peer: the peer's
    address. *)
Lemma tcp4_client (conn : Conn) (t : net.TCPAddr) (a b c d : Z) :
  is_byte a -> is_byte b -> is_byte c -> is_byte d ->
  net.To4 (net.IP t) = [a; b; c; d] -> net.Zone t = EmptyString ->
  net.String_ (ConnRemoteAddr conn) = net.TCPAddr_String t ->
  client_of conn
  = Some (Addr_String (AddrFrom4 [a; b; c; d]), AddrFrom4 [a; b; c; d]).
Proof.
  intros Ha Hb Hc Hd H4 Hz Hs.
  destruct (v4_text_clean a b c d Ha Hb Hc Hd) as (H1 & H2 & H3).
  unfold client_of.
  rewrite Hs, (TCPAddr_String_v4 t a b c d) by assumption.
  rewrite Split_plain; try assumption; try (apply Itoa_clean; auto).
  now rewrite ParseAddr_String_v4.
Qed.

Local Open Scope string_scope.

Lemma digit_hexcolon (i : Z) : hexcolon (digit i) = true.
Proof.
  unfold digit. generalize (Z.to_nat i). intros n.
  do 16 (destruct n as [|n]; [reflexivity|]). reflexivity.
Qed.

Lemma all_hexcolon_app (p q : string) :
  all_hexcolon (p ++ q) = all_hexcolon p && all_hexcolon q.
Proof.
  induction p as [|x p IH]; rewrite ?sapp_cons, ?sapp_nil_l;
    cbn [all_hexcolon]; [reflexivity | now rewrite IH, andb_assoc].
Qed.

Lemma appendHex_hexcolon (ret : string) (x : Z) :
  all_hexcolon ret = true -> all_hexcolon (appendHex ret x) = true.
Proof.
  intros H. unfold appendHex.
  destruct (0x1000 <=? x)%Z, (0x100 <=? x)%Z, (0x10 <=? x)%Z;
    rewrite ?all_hexcolon_app; cbn [all_hexcolon];
    rewrite ?digit_hexcolon, H; reflexivity.
Qed.

Lemma appendHex_has (ret : string) (x : Z) (c : ascii) :
  net.has ret c = true -> net.has (appendHex ret x) c = true.
Proof.
  intros H. unfold appendHex.
  destruct (0x1000 <=? x)%Z, (0x100 <=? x)%Z, (0x10 <=? x)%Z;
    rewrite ?has_app, H; reflexivity.
Qed.

Lemma appendTo6_loop_S (a : Addr) (zs ze : Z) (n : nat) (i : Z)
    (ret : string) :
  appendTo6_loop a zs ze (S n) i ret
  = if (8 <=? i)%Z then ret
    else if (i =? zs)%Z then
      if (8 <=? ze)%Z then ret ++ "::"
      else appendTo6_loop a zs ze n (ze + 1) (appendHex (ret ++ "::") (v6u16 a ze))
    else
      appendTo6_loop a zs ze n (i + 1)
        (appendHex (if (0 <? i)%Z then ret ++ ":" else ret) (v6u16 a i)).
Proof. reflexivity. Qed.

Lemma appendTo6_loop_hexcolon (a : Addr) (zs ze : Z) :
  forall (n : nat) (i : Z) (ret : string),
    all_hexcolon ret = true ->
    all_hexcolon (appendTo6_loop a zs ze n i ret) = true.
Proof.
  induction n as [|n IH]; intros i ret H; [exact H|].
  rewrite appendTo6_loop_S.
  destruct (8 <=? i)%Z; [exact H|].
  destruct (i =? zs)%Z.
  - destruct (8 <=? ze)%Z.
    + rewrite all_hexcolon_app, H. reflexivity.
    + apply IH, appendHex_hexcolon. rewrite all_hexcolon_app, H. reflexivity.
  - apply IH, appendHex_hexcolon.
    destruct (0 <? i)%Z; [|exact H]. rewrite all_hexcolon_app, H. reflexivity.
Qed.

Lemma appendTo6_loop_has (a : Addr) (zs ze : Z) (c : ascii) :
  forall (n : nat) (i : Z) (ret : string),
    net.has ret c = true ->
    net.has (appendTo6_loop a zs ze n i ret) c = true.
Proof.
  induction n as [|n IH]; intros i ret H; [exact H|].
  rewrite appendTo6_loop_S.
  destruct (8 <=? i)%Z; [exact H|].
  destruct (i =? zs)%Z.
  - destruct (8 <=? ze)%Z.
    + rewrite has_app, H. reflexivity.
    + apply IH, appendHex_has. rewrite has_app, H. reflexivity.
  - apply IH, appendHex_has.
    destruct (0 <? i)%Z; [|exact H]. rewrite has_app, H. reflexivity.
Qed.

(** The groups of an IPv6 address are written with at least one colon. *)
Lemma appendTo6_loop_colon (a : Addr) (zs ze : Z) :
  net.has (appendTo6_loop a zs ze 8 0 "") ":" = true.
Proof.
  rewrite appendTo6_loop_S. change (8 <=? 0)%Z with false. cbv iota.
  destruct (0 =? zs)%Z.
  - destruct (8 <=? ze)%Z; [reflexivity|].
    apply appendTo6_loop_has, appendHex_has. reflexivity.
  - change (0 <? 0)%Z with false. cbv iota.
    rewrite appendTo6_loop_S.
    change (0 + 1)%Z with 1%Z. change (8 <=? 1)%Z with false. cbv iota.
    destruct (1 =? zs)%Z.
    + destruct (8 <=? ze)%Z.
      * rewrite has_app. apply orb_true_r.
      * apply appendTo6_loop_has, appendHex_has.
        rewrite has_app. apply orb_true_r.
    + change (0 <? 1)%Z with true. cbv iota.
      apply appendTo6_loop_has, appendHex_has.
      rewrite has_app. apply orb_true_r.
Qed.

Lemma hexcolon_cases (c : ascii) :
  hexcolon c = true ->
  c = ":"%char
  \/ (Ascii.eqb c "." = false /\ Ascii.eqb c ":" = false
      /\ Ascii.eqb c "%" = false).
Proof.
  unfold hexcolon. rewrite !has_cons.
  intros H.
  repeat match type of H with
         | orb (Ascii.eqb ?x c) _ = true =>
             revert H; destruct (Ascii.eqb_spec x c) as [<- | _]; intros H;
             [first [left; reflexivity | right; repeat split; reflexivity]
             | cbn [orb] in H]
         end.
  vm_compute in H. discriminate.
Qed.

Lemma hexcolon_not_bracket (c : ascii) :
  hexcolon c = true -> Ascii.eqb c "[" = false /\ Ascii.eqb c "]" = false.
Proof.
  unfold hexcolon. rewrite !has_cons.
  intros H.
  repeat match type of H with
         | orb (Ascii.eqb ?x c) _ = true =>
             revert H; destruct (Ascii.eqb_spec x c) as [<- | _]; intros H;
             [split; reflexivity | cbn [orb] in H]
         end.
  vm_compute in H. discriminate.
Qed.

Lemma all_hexcolon_no_bracket (p : string) :
  all_hexcolon p = true -> net.has p "[" = false /\ net.has p "]" = false.
Proof.
  induction p as [|c p IH]; [split; reflexivity|].
  cbn [all_hexcolon]. intros H. apply andb_prop in H as [Hc Hp].
  destruct (hexcolon_not_bracket c Hc) as [E1 E2].
  destruct (IH Hp) as [I1 I2].
  rewrite !has_cons, E1, E2, I1, I2. split; reflexivity.
Qed.

(** A text that starts with hexadecimal digits and colons, one colon at
    least, is parsed as an IPv6 address. *)
Lemma ParseAddr_scan_hexcolon (s p r : string) :
  all_hexcolon p = true -> net.has p ":" = true ->
  ParseAddr_scan s (p ++ r) = parseIPv6 s.
Proof.
  induction p as [|c p IH]; [discriminate|].
  cbn [all_hexcolon]. intros H Hc. apply andb_prop in H as [Hx Hp].
  rewrite sapp_cons. cbn [ParseAddr_scan].
  destruct (hexcolon_cases c Hx) as [-> | (E1 & E2 & E3)]; [reflexivity|].
  rewrite E1, E2, E3. apply IH; [exact Hp|].
  rewrite has_cons, E2 in Hc. exact Hc.
Qed.

Lemma appendTo4_app (ret : string) (a : Addr) :
  appendTo4 ret a = ret ++ appendTo4 "" a.
Proof.
  unfold appendTo4. cbv zeta.
  rewrite !appendDecimal_app, sapp_nil_l, !sapp_assoc. reflexivity.
Qed.

Lemma v4byte_byte (a : Addr) (i : Z) : is_byte (v4byte a i).
Proof. unfold v4byte, is_byte. Z.div_mod_to_equations; lia. Qed.

Lemma appendTo4_no_bracket (a : Addr) :
  net.has (appendTo4 "" a) "[" = false /\ net.has (appendTo4 "" a) "]" = false.
Proof.
  unfold appendTo4. cbv zeta.
  rewrite !appendDecimal_app, sapp_nil_l.
  destruct (dec_clean _ (v4byte_byte a 0)) as (_ & A2 & A3 & _).
  destruct (dec_clean _ (v4byte_byte a 1)) as (_ & B2 & B3 & _).
  destruct (dec_clean _ (v4byte_byte a 2)) as (_ & C2 & C3 & _).
  destruct (dec_clean _ (v4byte_byte a 3)) as (_ & D2 & D3 & _).
  rewrite !has_app, A2, A3, B2, B3, C2, C3, D2, D3. split; reflexivity.
Qed.

(** The text of an IPv6 address without its zone: hexadecimal digits and
    colons first, one colon at least, and no bracket anywhere. *)
Lemma Addr_String_v6 (hi lo : Z) :
  exists p q : string,
    Addr_String (mkAddr hi lo (z6 EmptyString)) = p ++ q
    /\ all_hexcolon p = true /\ net.has p ":" = true
    /\ net.has q "[" = false /\ net.has q "]" = false.
Proof.
  unfold Addr_String. cbn [z].
  destruct (Is4In6 _).
  - exists "::ffff:", (appendTo4 "" (mkAddr 0 lo z4)).
    unfold appendTo4In6. cbv zeta. cbn [Zone z].
    change (negb (len "" =? 0)%Z) with false. cbv iota.
    rewrite sapp_nil_l, appendTo4_app.
    destruct (appendTo4_no_bracket (mkAddr 0 lo z4)) as [H1 H2].
    repeat split; try reflexivity; assumption.
  - unfold appendTo6. destruct (longest_zero_run _) as [zs ze]. cbv zeta.
    cbn [Zone z].
    change (negb (len "" =? 0)%Z) with false. cbv iota.
    eexists _, "". rewrite sapp_nil_r. split; [reflexivity|].
    repeat split;
      [now apply appendTo6_loop_hexcolon | apply appendTo6_loop_colon].
Qed.

(** The host part of the remote address of a TCP connection from an IPv6
    peer: never parsed as an IPv4 address. *)
Lemma tcp6_host (ip : list Z) (zone : string) :
  net.has zone "[" = false -> net.has zone "]" = false ->
  let host :=
    if negb (len zone =? 0)%Z then Addr_String (AddrFrom16 ip) ++ "%" ++ zone
    else Addr_String (AddrFrom16 ip) in
  net.has host "[" = false /\ net.has host "]" = false
  /\ Is4 (fst (ParseAddr host)) = false.
Proof.
  intros Hz1 Hz2 host.
  destruct (Addr_String_v6 (beUint (firstn 8 ip))
              (beUint (firstn 8 (skipn 8 ip))))
    as (p & q & E & Hp & Hc & Hq1 & Hq2).
  fold (AddrFrom16 ip) in E.
  destruct (all_hexcolon_no_bracket p Hp) as [Hp1 Hp2].
  assert (Hr : exists r, host = p ++ r /\ net.has r "[" = false
                         /\ net.has r "]" = false).
  { subst host. destruct (negb _).
    - exists (q ++ "%" ++ zone). rewrite E, sapp_assoc.
      rewrite !has_app, Hq1, Hq2, Hz1, Hz2. repeat split; reflexivity.
    - exists q. auto. }
  destruct Hr as (r & -> & Hr1 & Hr2).
  rewrite !has_app, Hp1, Hp2, Hr1, Hr2.
  repeat split. unfold ParseAddr.
  rewrite (ParseAddr_scan_hexcolon _ p r Hp Hc). apply parseIPv6_not4.
Qed.

(** What the gate makes of a TCP connection from an IPv6 peer: a host that
    is not an IPv4 address. *)
Lemma tcp6_client (conn : Conn) (t : net.TCPAddr) :
  length (net.IP t) = 16%nat -> net.To4 (net.IP t) = [] ->
  net.has (net.Zone t) "[" = false -> net.has (net.Zone t) "]" = false ->
  net.String_ (ConnRemoteAddr conn) = net.TCPAddr_String t ->
  exists host : string,
    client_of conn = Some (host, fst (ParseAddr host))
    /\ Is4 (fst (ParseAddr host)) = false.
Proof.
  intros Hl H4 Hz1 Hz2 Hs.
  destruct (tcp6_host (net.IP t) (net.Zone t) Hz1 Hz2) as (H1 & H2 & H3).
  cbv zeta in H1, H2, H3.
  unfold client_of. rewrite Hs.
  unfold net.TCPAddr_String, net.ipEmptyString, net.IP_String. rewrite Hl, H4.
  cbn [Nat.eqb negb andb length]. cbv zeta.
  destruct (negb (len (net.Zone t) =? 0)%Z).
  - rewrite SplitHostPort_JoinHostPort;
      try assumption; try (apply Itoa_clean; auto).
    eexists. split; [reflexivity | exact H3].
  - rewrite SplitHostPort_JoinHostPort;
      try assumption; try (apply Itoa_clean; auto).
    eexists. split; [reflexivity | exact H3].
Qed.

End text_facts.

(** * The dispatch map of a new server *)

Module Dispatch.
Import bytealg netip socks5 Spec Examples.
Import Construction.

Lemma find_snoc (p : Authenticator -> bool) (l : list Authenticator)
    (x : Authenticator) :
  find p (l ++ [x])
  = match find p l with
    | Some a => Some a
    | None => if p x then Some x else None
    end.
Proof.
  induction l as [|y l IH]; cbn [app find]; [reflexivity|].
  destruct (p y); [reflexivity | exact IH].
Qed.

(** Registering the authenticators of [l] one after the other leaves, under
    each method identifier, the last authenticator of [l] that has it. *)
Lemma register_all_last (l : list Authenticator) (k : Z) :
  forall server : Server,
    authMethods
      (fold_left
         (fun server a =>
            set_authMethods (<[GetCode a := a]> (authMethods server)) server)
         l server) !! k
    = match last_with_code k l with
      | Some a => Some a
      | None => authMethods server !! k
      end.
Proof.
  unfold last_with_code.
  induction l as [|x l IH]; intros server; cbn [fold_left rev find];
    [reflexivity|].
  rewrite IH, find_snoc. cbn [authMethods set_authMethods].
  destruct (find _ (rev l)); [reflexivity|].
  destruct (Z.eqb_spec (GetCode x) k) as [-> | Hne].
  - apply lookup_insert_eq.
  - now apply lookup_insert_ne.
Qed.

Lemma New_lookup (conf : Config) (k : Z) :
  AuthMethods conf <> [] ->
  authMethods (fst (New conf)) !! k = last_with_code k (AuthMethods conf).
Proof.
  intros Hne.
  destruct (New_authMethods conf) as (server & Hempty & ->).
  rewrite register_all_last, Hempty, lookup_empty.
  destruct (AuthMethods conf) as [|a l]; [contradiction|].
  destruct (last_with_code k (a :: l)); reflexivity.
Qed.

Lemma register_all_config (l : list Authenticator) :
  forall server : Server,
    config
      (fold_left
         (fun server a =>
            set_authMethods (<[GetCode a := a]> (authMethods server)) server)
         l server) = config server.
Proof.
  induction l as [|x l IH]; intros server; cbn [fold_left]; [reflexivity|].
  now rewrite IH.
Qed.

(** X1.  Where the configuration supplies authenticators, the dispatch map
    of the server [New] returns holds, under each method identifier, the
    last supplied authenticator with that identifier: an earlier one with
    the same identifier is overwritten, and nothing that was not supplied
    is registered. *)
Theorem New_dispatch_last_wins (conf : Config) (k : Z) :
  AuthMethods conf <> [] ->
  authMethods (fst (New conf)) !! k = last_with_code k (AuthMethods conf)
  /\ forall a : Authenticator,
       authMethods (fst (New conf)) !! k = Some a ->
       In a (AuthMethods conf) /\ GetCode a = k.
Proof.
  intros Hne. rewrite New_lookup by exact Hne. split; [reflexivity|].
  unfold last_with_code. intros a E.
  apply find_some in E as [Hin Hk].
  apply in_rev in Hin. apply Z.eqb_eq in Hk. auto.
Qed.

Lemma New_dispatch_last_wins_witness :
  authMethods (fst (New conf_dup)) !! 0 = Some NoAuthAuthenticator.
Proof.
  refine (proj1 (New_dispatch_last_wins conf_dup 0 _)).
  vm_compute. discriminate.
Defined.

(** X2.  Where the configuration supplies authenticators, its credential
    store plays no part in the dispatch map: [New] registers the same
    authenticators whatever the store is, and no username/password
    authenticator unless one was supplied. *)
Theorem New_ignores_credentials
    (am : list Authenticator) (cr cr' : option CredentialStore)
    (rs : option NameResolver) (ru : option RuleSet)
    (rw : option AddressRewriter) (bi : Addr) (lg : option logrus_Logger)
    (di : option Dialer) :
  am <> [] ->
  authMethods (fst (New (mkConfig am cr rs ru rw bi lg di)))
  = authMethods (fst (New (mkConfig am cr' rs ru rw bi lg di)))
  /\ ((forall a, In a am -> GetCode a <> UserPassAuth) ->
      authMethods (fst (New (mkConfig am cr rs ru rw bi lg di)))
        !! UserPassAuth = None).
Proof.
  intros Hne. split.
  - apply map_eq. intros k.
    rewrite !New_lookup by exact Hne. reflexivity.
  - intros Hno. rewrite New_lookup by exact Hne.
    cbn [AuthMethods]. unfold last_with_code.
    destruct (find _ (rev am)) as [a|] eqn:E; [|reflexivity].
    apply find_some in E as [Hin Hk].
    apply in_rev in Hin. apply Z.eqb_eq in Hk.
    now apply Hno in Hin.
Qed.

Lemma New_ignores_credentials_witness :
  authMethods
    (fst (New (mkConfig [NoAuthAuthenticator] (Some [("alice", "s3cret")])
                 None None None zeroAddr None None)))
    !! UserPassAuth = None.
Proof.
  refine (proj2 (New_ignores_credentials [NoAuthAuthenticator]
            (Some [("alice", "s3cret")]) None None None None zeroAddr
            None None _) _).
  - vm_compute. discriminate.
  - intros a [<- | []]. vm_compute. discriminate.
Defined.

(** X3.  [New] completes a configuration once and for all: the
    configuration of the server it returns has authenticators, a resolver,
    a rule set and a logger, and [New] on that configuration returns a
    server with the same configuration and the same dispatch map. *)
Theorem New_idempotent (conf : Config) :
  let s := fst (New conf) in
  AuthMethods (config s) <> []
  /\ Resolver (config s) <> None
  /\ Rules (config s) <> None
  /\ Logger (config s) <> None
  /\ config (fst (New (config s))) = config s
  /\ authMethods (fst (New (config s))) = authMethods s.
Proof.
  intros s. subst s.
  assert (Hc : config (fst (New conf))
               = mkConfig
                   (match AuthMethods conf, Credentials conf with
                    | [], Some credentials =>
                        [UserPassAuthenticator credentials]
                    | [], None => [NoAuthAuthenticator]
                    | l, _ => l
                    end)
                   (Credentials conf)
                   (Some (default DNSResolver (Resolver conf)))
                   (Some (default PermitAll (Rules conf)))
                   (Rewriter conf) (BindIP conf)
                   (Some (default StandardLogger (Logger conf)))
                   (Dial conf)).
  { unfold New. cbv zeta. cbn [fst config set_isIPAllowed].
    rewrite register_all_config. cbn [config].
    destruct conf as [am cr rs ru rw bi lg di].
    destruct am as [|a l], cr as [c|], rs as [r|], ru as [u|], lg as [g|];
      reflexivity. }
  assert (Hne : AuthMethods (config (fst (New conf))) <> []).
  { rewrite Hc. cbn [AuthMethods].
    destruct (AuthMethods conf), (Credentials conf); discriminate. }
  repeat split; try (rewrite Hc; discriminate); try exact Hne.
  - unfold New at 1. cbv zeta. cbn [fst config set_isIPAllowed].
    rewrite register_all_config. cbn [config].
    rewrite Hc. cbn.
    destruct (AuthMethods conf) as [|a l], (Credentials conf) as [c|];
      reflexivity.
  - apply map_eq. intros k.
    rewrite New_lookup by exact Hne.
    destruct (New_authMethods conf) as (server & Hempty & ->).
    rewrite register_all_last, Hempty, lookup_empty.
    rewrite Hc. cbn [AuthMethods].
    match goal with
    | |- ?o = _ => destruct o; reflexivity
    end.
Qed.

End Dispatch.

(** * The admission gate, by ranges and by octets *)

Module Gate.
Import bytealg netip itoa socks5 Spec Examples.
Import netip_facts gate_facts handler_facts gate_runs string_facts text_facts.

Lemma admitted_as_origin (o1 o2 clientIP : string) (r : option error * State) :
  admitted_as o1 clientIP r -> admitted_as o2 clientIP r -> o1 = o2.
Proof.
  intros (x1 & r1 & H1) (x2 & r2 & H2). rewrite H1 in H2. now inversion H2.
Qed.

Lemma admitted_not_denied (o clientIP : string) (conn : Conn)
    (r : option error * State) :
  admitted_as o clientIP r -> denied conn clientIP r -> False.
Proof.
  intros (x & rest & H) Hd. unfold denied in Hd. subst r.
  cbn [snd trace] in H. discriminate.
Qed.

Ltac split_iffs :=
  repeat match goal with
         | |- _ /\ _ => split
         | |- _ <-> _ => split
         end.

Ltac outside_range :=
  intros [_ [H1 H2]]; vm_compute in H1, H2;
  first [now apply H1 | now apply H2].

(** The four ways through the gate, by the three checks of the code. *)
Lemma gate_outcome authenticate handleRequest
    (s : Server) (conn : Conn) (clientIP : string) (a : Addr) :
  client_of conn = Some (clientIP, a) ->
  let r := ServeConn authenticate handleRequest s conn in
  (admitted_as docker_origin clientIP r <-> IsDockerNetwork s a = true)
  /\ (admitted_as tailscale_origin clientIP r
      <-> IsDockerNetwork s a = false /\ IsTailScale s a = true)
  /\ (admitted_as allowed_origin clientIP r
      <-> IsDockerNetwork s a = false /\ IsTailScale s a = false
          /\ isIPAllowed s a = true)
  /\ (denied conn clientIP r
      <-> IsDockerNetwork s a = false /\ IsTailScale s a = false
          /\ isIPAllowed s a = false).
Proof.
  intros Hc r.
  assert (Hdo : docker_origin <> tailscale_origin) by discriminate.
  assert (Hda : docker_origin <> allowed_origin) by discriminate.
  assert (Hta : tailscale_origin <> allowed_origin) by discriminate.
  destruct (IsDockerNetwork s a) eqn:E1;
    [|destruct (IsTailScale s a) eqn:E2; [|destruct (isIPAllowed s a) eqn:E3]].
  - assert (Hr : admitted_as docker_origin clientIP r)
      by (eapply ServeConn_admitted; [eassumption | left; auto]).
    split_iffs; try tauto; try (intros (? & ?); discriminate);
      try (intros (? & ? & ?); discriminate); intros H;
      try (pose proof (admitted_as_origin _ _ _ _ Hr H); congruence);
      exfalso; eapply admitted_not_denied; eassumption.
  - assert (Hr : admitted_as tailscale_origin clientIP r)
      by (eapply ServeConn_admitted; [eassumption | right; left; auto]).
    split_iffs; try tauto; try discriminate;
      try (intros (? & ? & ?); discriminate); intros H;
      try (pose proof (admitted_as_origin _ _ _ _ Hr H); congruence);
      exfalso; eapply admitted_not_denied; eassumption.
  - assert (Hr : admitted_as allowed_origin clientIP r)
      by (eapply ServeConn_admitted; [eassumption | right; right; auto]).
    split_iffs; try tauto; try discriminate;
      try (intros (? & ?); discriminate);
      try (intros (? & ? & ?); discriminate); intros H;
      try (pose proof (admitted_as_origin _ _ _ _ Hr H); congruence);
      exfalso; eapply admitted_not_denied; eassumption.
  - assert (Hr : denied conn clientIP r)
      by (now apply ServeConn_denied with (a := a)).
    split_iffs; try tauto; try discriminate;
      try (intros (? & ?); discriminate);
      try (intros (? & ? & ?); discriminate); intros H;
      exfalso; eapply admitted_not_denied; eassumption.
Qed.

(** X5.  The gate's decision on a connection whose remote address splits
    into host and port, by the address the host parses to: the connection
    is admitted as a Docker one exactly when the address is inside
    172.16.0.0/12, as a Tailscale one exactly when it is inside
    100.64.0.0/10, as an allow-listed one exactly when it is in neither
    range and the allow-list check holds, and denied exactly when it is in
    neither range and the check fails. *)
Theorem gate_decision authenticate handleRequest
    (s : Server) (conn : Conn) (clientIP : string) (a : Addr) :
  client_of conn = Some (clientIP, a) ->
  let r := ServeConn authenticate handleRequest s conn in
  (admitted_as docker_origin clientIP r <-> inside_172_16_12 a)
  /\ (admitted_as tailscale_origin clientIP r <-> inside_100_64_10 a)
  /\ (admitted_as allowed_origin clientIP r
      <-> ~ inside_172_16_12 a /\ ~ inside_100_64_10 a
          /\ isIPAllowed s a = true)
  /\ (denied conn clientIP r
      <-> ~ inside_172_16_12 a /\ ~ inside_100_64_10 a
          /\ isIPAllowed s a = false).
Proof.
  intros Hc r.
  pose proof (client_wf _ _ _ Hc) as Hwf.
  pose proof (IsDockerNetwork_iff s a Hwf) as Hd.
  pose proof (IsTailScale_iff s a Hwf) as Ht.
  pose proof (ranges_disjoint a) as Hdis.
  destruct (gate_outcome authenticate handleRequest s conn clientIP a Hc)
    as (G1 & G2 & G3 & G4).
  fold r in G1, G2, G3, G4.
  rewrite G1, G2, G3, G4, <- Hd, <- Ht.
  destruct (IsDockerNetwork s a) eqn:E1, (IsTailScale s a) eqn:E2;
    try (exfalso; apply Hdis; [now apply Hd | now apply Ht]);
    split_iffs; intuition congruence.
Qed.

Lemma gate_decision_witness :
  let r := ServeConn authenticate_noauth handleRequest_succeed server0
             (conn_of "172.20.1.2:5000" [Data [5; 1; 0]]) in
  let a := fst (ParseAddr "172.20.1.2") in
  (admitted_as docker_origin "172.20.1.2" r <-> inside_172_16_12 a)
  /\ (admitted_as tailscale_origin "172.20.1.2" r <-> inside_100_64_10 a)
  /\ (admitted_as allowed_origin "172.20.1.2" r
      <-> ~ inside_172_16_12 a /\ ~ inside_100_64_10 a
          /\ isIPAllowed server0 a = true)
  /\ (denied (conn_of "172.20.1.2:5000" [Data [5; 1; 0]]) "172.20.1.2" r
      <-> ~ inside_172_16_12 a /\ ~ inside_100_64_10 a
          /\ isIPAllowed server0 a = false).
Proof.
  apply (gate_decision authenticate_noauth handleRequest_succeed server0
           (conn_of "172.20.1.2:5000" [Data [5; 1; 0]]) "172.20.1.2"
           (fst (ParseAddr "172.20.1.2"))).
  vm_compute. reflexivity.
Defined.

Local Opaque v4mapped.

(** The two range checks on the address of four bytes, by its octets. *)
Lemma range_checks_octets (s : Server) (a b c d : Z) :
  is_byte a -> is_byte b -> is_byte c -> is_byte d ->
  IsDockerNetwork s (AddrFrom4 [a; b; c; d])
  = (a =? 172) && (16 <=? b) && (b <=? 31)
  /\ IsTailScale s (AddrFrom4 [a; b; c; d])
     = (a =? 100) && (64 <=? b) && (b <=? 127).
Proof.
  intros Ha Hb Hc Hd.
  rewrite AddrFrom4_value by assumption.
  pose proof (ipv4_bound a b c d Ha Hb Hc Hd) as Hv.
  rewrite IsDockerNetwork_wf4, IsTailScale_wf4 by assumption.
  unfold is_byte, ipv4 in *.
  split.
  - destruct (Z.eqb_spec a 172), (Z.leb_spec 16 b), (Z.leb_spec b 31);
      cbn [andb]; try (apply Z.eqb_eq); try (apply Z.eqb_neq);
      Z.div_mod_to_equations; lia.
  - destruct (Z.eqb_spec a 100), (Z.leb_spec 64 b), (Z.leb_spec b 127);
      cbn [andb]; try (apply Z.eqb_eq); try (apply Z.eqb_neq);
      Z.div_mod_to_equations; lia.
Qed.

Lemma octets_docker (a b : Z) :
  (a =? 172) && (16 <=? b) && (b <=? 31) = true <-> a = 172 /\ 16 <= b <= 31.
Proof. rewrite !andb_true_iff, Z.eqb_eq, !Z.leb_le. tauto. Qed.

Lemma octets_tailscale (a b : Z) :
  (a =? 100) && (64 <=? b) && (b <=? 127) = true <-> a = 100 /\ 64 <= b <= 127.
Proof. rewrite !andb_true_iff, Z.eqb_eq, !Z.leb_le. tauto. Qed.

(** X4.  On the IPv4 address of octets [a.b.c.d], [IsDockerNetwork] holds
    exactly when [a] is 172 and [b] is between 16 and 31, and [IsTailScale]
    exactly when [a] is 100 and [b] is between 64 and 127: the last two
    octets play no part. *)
Theorem range_checks_by_octets (s : Server) (a b c d : Z) :
  is_byte a -> is_byte b -> is_byte c -> is_byte d ->
  (IsDockerNetwork s (AddrFrom4 [a; b; c; d]) = true
   <-> a = 172 /\ 16 <= b <= 31)
  /\ (IsTailScale s (AddrFrom4 [a; b; c; d]) = true
      <-> a = 100 /\ 64 <= b <= 127).
Proof.
  intros Ha Hb Hc Hd.
  destruct (range_checks_octets s a b c d Ha Hb Hc Hd) as [-> ->].
  split; [apply octets_docker | apply octets_tailscale].
Qed.

Lemma range_checks_by_octets_witness :
  (IsDockerNetwork server0 (AddrFrom4 [172; 31; 255; 255]) = true
   <-> 172 = 172 /\ 16 <= 31 <= 31)
  /\ (IsTailScale server0 (AddrFrom4 [172; 31; 255; 255]) = true
      <-> 172 = 100 /\ 64 <= 31 <= 127).
Proof.
  apply (range_checks_by_octets server0 172 31 255 255);
    unfold is_byte; lia.
Defined.

(** X7.  The text of the remote address of a TCP connection from an IPv4
    peer (an address of four bytes, or of sixteen in the IPv4-mapped form)
    goes through the handler's two first steps without loss:
    [SplitHostPort] gives a host and the port with no error, and
    [ParseAddr] on that host gives the peer's IPv4 address with no
    error. *)
Theorem tcp4_remote_addr (t : net.TCPAddr) (a b c d : Z) :
  is_byte a -> is_byte b -> is_byte c -> is_byte d ->
  net.To4 (net.IP t) = [a; b; c; d] -> net.Zone t = EmptyString ->
  exists host : string,
    net.SplitHostPort (net.TCPAddr_String t) = (host, Itoa (net.Port t), None)
    /\ ParseAddr host = (AddrFrom4 [a; b; c; d], None).
Proof.
  intros Ha Hb Hc Hd H4 Hz.
  destruct (v4_text_clean a b c d Ha Hb Hc Hd) as (H1 & H2 & H3).
  exists (Addr_String (AddrFrom4 [a; b; c; d])).
  rewrite (TCPAddr_String_v4 t a b c d) by assumption.
  rewrite Split_plain; try assumption; try (apply Itoa_clean; auto).
  now rewrite ParseAddr_String_v4.
Qed.

Lemma tcp4_remote_addr_witness :
  exists host : string,
    net.SplitHostPort
      (net.TCPAddr_String (net.mkTCPAddr [172; 16; 0; 5] 40000 ""))
    = (host, Itoa 40000, None)
    /\ ParseAddr host = (AddrFrom4 [172; 16; 0; 5], None).
Proof.
  apply (tcp4_remote_addr (net.mkTCPAddr [172; 16; 0; 5] 40000 "")
           172 16 0 5); try (unfold is_byte; lia); reflexivity.
Defined.

(** X8.  The gate on a TCP connection from the IPv4 peer [a.b.c.d]: it is
    admitted as a Docker connection exactly when [a] is 172 and [b] between
    16 and 31, as a Tailscale one exactly when [a] is 100 and [b] between
    64 and 127, as an allow-listed one exactly when neither holds and the
    allow-list check holds of the peer's address, and it is denied exactly
    when neither holds and the check fails. *)
Theorem tcp4_gate authenticate handleRequest
    (s : Server) (conn : Conn) (t : net.TCPAddr) (a b c d : Z) :
  is_byte a -> is_byte b -> is_byte c -> is_byte d ->
  net.To4 (net.IP t) = [a; b; c; d] -> net.Zone t = EmptyString ->
  net.String_ (ConnRemoteAddr conn) = net.TCPAddr_String t ->
  let r := ServeConn authenticate handleRequest s conn in
  let host := Addr_String (AddrFrom4 [a; b; c; d]) in
  (admitted_as docker_origin host r <-> a = 172 /\ 16 <= b <= 31)
  /\ (admitted_as tailscale_origin host r <-> a = 100 /\ 64 <= b <= 127)
  /\ (admitted_as allowed_origin host r
      <-> ~ (a = 172 /\ 16 <= b <= 31) /\ ~ (a = 100 /\ 64 <= b <= 127)
          /\ isIPAllowed s (AddrFrom4 [a; b; c; d]) = true)
  /\ (denied conn host r
      <-> ~ (a = 172 /\ 16 <= b <= 31) /\ ~ (a = 100 /\ 64 <= b <= 127)
          /\ isIPAllowed s (AddrFrom4 [a; b; c; d]) = false).
Proof.
  intros Ha Hb Hc Hd H4 Hz Hs r host.
  pose proof (tcp4_client conn t a b c d Ha Hb Hc Hd H4 Hz Hs) as Hc'.
  destruct (gate_outcome authenticate handleRequest s conn _ _ Hc')
    as (G1 & G2 & G3 & G4).
  fold r host in G1, G2, G3, G4.
  destruct (range_checks_octets s a b c d Ha Hb Hc Hd) as [Ed Et].
  rewrite G1, G2, G3, G4, <- octets_docker, <- octets_tailscale, Ed, Et.
  destruct ((a =? 172) && (16 <=? b) && (b <=? 31)) eqn:B1,
           ((a =? 100) && (64 <=? b) && (b <=? 127)) eqn:B2;
    try (apply octets_docker in B1; apply octets_tailscale in B2; lia);
    split_iffs; intuition congruence.
Qed.

Lemma tcp4_gate_witness :
  let conn := conn_of (net.TCPAddr_String (net.mkTCPAddr [100; 100; 7; 9] 5555 ""))
                [Data [5; 1; 0]] in
  let r := ServeConn authenticate_noauth handleRequest_succeed server0 conn in
  let host := Addr_String (AddrFrom4 [100; 100; 7; 9]) in
  (admitted_as docker_origin host r <-> 100 = 172 /\ 16 <= 100 <= 31)
  /\ (admitted_as tailscale_origin host r <-> 100 = 100 /\ 64 <= 100 <= 127)
  /\ (admitted_as allowed_origin host r
      <-> ~ (100 = 172 /\ 16 <= 100 <= 31) /\ ~ (100 = 100 /\ 64 <= 100 <= 127)
          /\ isIPAllowed server0 (AddrFrom4 [100; 100; 7; 9]) = true)
  /\ (denied conn host r
      <-> ~ (100 = 172 /\ 16 <= 100 <= 31) /\ ~ (100 = 100 /\ 64 <= 100 <= 127)
          /\ isIPAllowed server0 (AddrFrom4 [100; 100; 7; 9]) = false).
Proof.
  apply (tcp4_gate authenticate_noauth handleRequest_succeed server0
           (conn_of (net.TCPAddr_String (net.mkTCPAddr [100; 100; 7; 9] 5555 ""))
              [Data [5; 1; 0]])
           (net.mkTCPAddr [100; 100; 7; 9] 5555 "") 100 100 7 9);
    try (unfold is_byte; lia); reflexivity.
Defined.

(** X9.  The gate on a TCP connection from an IPv6 peer (an address of
    sixteen bytes that [net.To4] does not take for an IPv4 one, with or
    without a zone): the host of its remote address is never parsed as an
    IPv4 address, so the connection is never admitted as a Docker or a
    Tailscale one; it is admitted exactly when the allow-list check holds
    of the parsed host, and denied exactly when it fails. *)
Theorem tcp6_gate authenticate handleRequest
    (s : Server) (conn : Conn) (t : net.TCPAddr) :
  length (net.IP t) = 16%nat -> net.To4 (net.IP t) = [] ->
  net.has (net.Zone t) "[" = false -> net.has (net.Zone t) "]" = false ->
  net.String_ (ConnRemoteAddr conn) = net.TCPAddr_String t ->
  let r := ServeConn authenticate handleRequest s conn in
  exists host : string,
    client_of conn = Some (host, fst (ParseAddr host))
    /\ ~ admitted_as docker_origin host r
    /\ ~ admitted_as tailscale_origin host r
    /\ (admitted_as allowed_origin host r
        <-> isIPAllowed s (fst (ParseAddr host)) = true)
    /\ (denied conn host r
        <-> isIPAllowed s (fst (ParseAddr host)) = false).
Proof.
  intros Hl H4 Hz1 Hz2 Hs r.
  destruct (tcp6_client conn t Hl H4 Hz1 Hz2 Hs) as (host & Hc & Hn4).
  exists host. split; [exact Hc|].
  destruct (gate_outcome authenticate handleRequest s conn _ _ Hc)
    as (G1 & G2 & G3 & G4).
  fold r in G1, G2, G3, G4.
  destruct (range_checks_not4 s _ Hn4) as [Ed Et].
  rewrite G1, G2, G3, G4, Ed, Et.
  split_iffs; intuition congruence.
Qed.

Lemma tcp6_gate_witness :
  let conn := conn_of (net.TCPAddr_String peer6) [Data [5; 1; 0]] in
  let r := ServeConn authenticate_noauth handleRequest_succeed server0 conn in
  exists host : string,
    client_of conn = Some (host, fst (ParseAddr host))
    /\ ~ admitted_as docker_origin host r
    /\ ~ admitted_as tailscale_origin host r
    /\ (admitted_as allowed_origin host r
        <-> isIPAllowed server0 (fst (ParseAddr host)) = true)
    /\ (denied conn host r
        <-> isIPAllowed server0 (fst (ParseAddr host)) = false).
Proof.
  apply (tcp6_gate authenticate_noauth handleRequest_succeed server0
           (conn_of (net.TCPAddr_String peer6) [Data [5; 1; 0]]) peer6);
    reflexivity.
Defined.

(** X6.  The allow-list installed by [SetIPWhitelist] matches an address
    with its family and its zone: a connection from outside both reserved
    ranges is denied when every entry of the list differs from its address
    in family or in zone, as the IPv4-mapped IPv6 form of an IPv4 peer
    does. *)
Theorem allowlist_exact_family_zone authenticate handleRequest
    (s : Server) (allowedIPs : list Addr) (conn : Conn)
    (clientIP : string) (a : Addr) :
  client_of conn = Some (clientIP, a) ->
  ~ inside_172_16_12 a -> ~ inside_100_64_10 a ->
  Forall (fun x => BitLen x <> BitLen a \/ Zone x <> Zone a) allowedIPs ->
  denied conn clientIP
    (ServeConn authenticate handleRequest (SetIPWhitelist s allowedIPs) conn).
Proof.
  intros Hc Hd Ht Hall.
  pose proof (client_wf _ _ _ Hc) as Hwf.
  apply ServeConn_denied with (a := a); try assumption.
  - destruct (IsDockerNetwork _ a) eqn:E; [|reflexivity].
    apply (IsDockerNetwork_iff _ _ Hwf) in E; contradiction.
  - destruct (IsTailScale _ a) eqn:E; [|reflexivity].
    apply (IsTailScale_iff _ _ Hwf) in E; contradiction.
  - destruct (isIPAllowed _ a) eqn:E; [|reflexivity].
    apply SetIPWhitelist_allowed in E.
    rewrite List.Forall_forall in Hall. destruct (Hall a E); congruence.
Qed.

Lemma allowlist_exact_family_zone_witness :
  denied (conn_of "10.0.0.1:4000" [Data [5; 1; 0]]) "10.0.0.1"
    (ServeConn authenticate_noauth handleRequest_succeed
       (SetIPWhitelist server0 (main.whitelist ["::ffff:10.0.0.1"]))
       (conn_of "10.0.0.1:4000" [Data [5; 1; 0]]))
  /\ denied (conn_of "[fe80::1%eth0]:4000" [Data [5; 1; 0]]) "fe80::1%eth0"
       (ServeConn authenticate_noauth handleRequest_succeed
          (SetIPWhitelist server0 (main.whitelist ["fe80::1"]))
          (conn_of "[fe80::1%eth0]:4000" [Data [5; 1; 0]])).
Proof.
  split.
  - refine (allowlist_exact_family_zone authenticate_noauth
              handleRequest_succeed server0
              (main.whitelist ["::ffff:10.0.0.1"])
              (conn_of "10.0.0.1:4000" [Data [5; 1; 0]]) "10.0.0.1"
              (fst (ParseAddr "10.0.0.1")) _ _ _ _).
    + vm_compute. reflexivity.
    + outside_range.
    + outside_range.
    + constructor; [left; vm_compute; discriminate | constructor].
  - refine (allowlist_exact_family_zone authenticate_noauth
              handleRequest_succeed server0 (main.whitelist ["fe80::1"])
              (conn_of "[fe80::1%eth0]:4000" [Data [5; 1; 0]])
              "fe80::1%eth0" (fst (ParseAddr "fe80::1%eth0")) _ _ _ _).
    + vm_compute. reflexivity.
    + intros [H _]. discriminate H.
    + intros [H _]. discriminate H.
    + constructor; [right; vm_compute; discriminate | constructor].
Defined.

End Gate.

(** * The handler after the gate *)

Module Session.
Import bytealg netip socks5 Spec Examples.
Import netip_facts gate_facts handler_facts gate_runs Decoding string_facts.

(** X10.  Where [SplitHostPort] fails on the text of the remote address,
    [ServeConn] returns that error after logging it and closing the
    connection, with nothing read from or written to it and no gate check
    made; a remote address with no colon in it, as of a connection that is
    not a TCP one, fails so, with a missing port. *)
Theorem no_port_rejected authenticate handleRequest
    (s : Server) (conn : Conn) (err : error) :
  snd (net.SplitHostPort (net.String_ (ConnRemoteAddr conn))) = Some err ->
  ServeConn authenticate handleRequest s conn
  = (Some err,
     mkState [] (reads conn) (writes conn)
       [EvLog ErrorLevel "failed to get client IP address: %v" (ArgError err);
        EvClose])
  /\ (net.has (net.String_ (ConnRemoteAddr conn)) ":" = false ->
      err = AddrError "missing port in address"
              (net.String_ (ConnRemoteAddr conn))).
Proof.
  intros H. split.
  - unfold ServeConn, serve.
    destruct (net.SplitHostPort _) as [[h p] [e|]]; cbn [snd] in H;
      [|discriminate].
    injection H as ->. reflexivity.
  - intros Hno. rewrite (SplitHostPort_no_colon _ Hno) in H.
    cbn [snd] in H. congruence.
Qed.

Lemma no_port_rejected_witness :
  ServeConn authenticate_noauth handleRequest_succeed server0
    (conn_of "pipe" [Data [5; 1; 0]])
  = (Some (AddrError "missing port in address" "pipe"),
     mkState [] [Data [5; 1; 0]] []
       [EvLog ErrorLevel "failed to get client IP address: %v"
          (ArgError (AddrError "missing port in address" "pipe"));
        EvClose]).
Proof.
  exact (proj1 (no_port_rejected authenticate_noauth handleRequest_succeed
                  server0 (conn_of "pipe" [Data [5; 1; 0]])
                  (AddrError "missing port in address" "pipe") eq_refl)).
Defined.

(** X11.  Where the first read on an admitted connection fails, as it does
    with [io.EOF] when the peer has closed, [ServeConn] returns the error of
    the read, logged as a failure to get the version byte, and closes the
    connection without writing to it. *)
Theorem version_read_error authenticate handleRequest
    (s : Server) (conn : Conn) (clientIP : string) (a : Addr)
    (origin : string) (e : error) :
  client_of conn = Some (clientIP, a) ->
  gate_admits s a origin ->
  hd (Fail io_EOF) (reads conn) = Fail e ->
  ServeConn authenticate handleRequest s conn
  = (Some e,
     mkState [] (tl (reads conn)) (writes conn)
       [EvLog InfoLevel origin (ArgString clientIP);
        EvRead (Fail e);
        EvLog ErrorLevel "failed to get version byte: %v" (ArgError e);
        EvClose]).
Proof.
  intros Hc Hg Hr. apply client_of_inv in Hc as [-> [port Hs]].
  unfold ServeConn, serve. rewrite Hs. cbv zeta.
  rewrite (gate_admits_eq s conn clientIP origin Hg).
  unfold bufio_Read, conn_Read, Infof, start.
  cbn [bufConn emit rd wr trace app].
  destruct (reads conn) as [|[b | e'] rest]; cbn [hd] in Hr;
    try discriminate; injection Hr as <-; reflexivity.
Qed.

Lemma version_read_error_witness :
  ServeConn authenticate_noauth handleRequest_succeed server0
    (conn_of "172.20.1.2:51000" [])
  = (Some io_EOF,
     mkState [] [] []
       [EvLog InfoLevel docker_origin (ArgString "172.20.1.2");
        EvRead (Fail io_EOF);
        EvLog ErrorLevel "failed to get version byte: %v" (ArgError io_EOF);
        EvClose]).
Proof.
  refine (version_read_error authenticate_noauth handleRequest_succeed
            server0 (conn_of "172.20.1.2:51000" []) "172.20.1.2"
            (fst (ParseAddr "172.20.1.2")) docker_origin io_EOF _ _ _).
  - vm_compute. reflexivity.
  - left. split; [vm_compute|]; reflexivity.
  - reflexivity.
Defined.

(** X12.  Where the first read on an admitted connection returns no byte
    and no error, the version byte is the zero the handler's buffer was
    made with: the connection is turned down for the unsupported version 0
    and closed, with nothing written. *)
Theorem empty_read_is_version_0 authenticate handleRequest
    (s : Server) (conn : Conn) (clientIP : string) (a : Addr)
    (origin : string) (rest : list ReadOutcome) :
  client_of conn = Some (clientIP, a) ->
  gate_admits s a origin ->
  reads conn = Data [] :: rest ->
  ServeConn authenticate handleRequest s conn
  = (Some (ErrorfV "unsupported SOCKS version: %v" [0]),
     mkState [] rest (writes conn)
       [EvLog InfoLevel origin (ArgString clientIP);
        EvRead (Data []);
        EvLog ErrorLevel "socks: %v"
          (ArgError (ErrorfV "unsupported SOCKS version: %v" [0]));
        EvClose]).
Proof.
  intros Hc Hg Hr. apply client_of_inv in Hc as [-> [port Hs]].
  unfold ServeConn, serve. rewrite Hs. cbv zeta.
  rewrite (gate_admits_eq s conn clientIP origin Hg).
  unfold bufio_Read, conn_Read, Infof, start.
  cbn [bufConn emit rd wr trace app]. rewrite Hr. reflexivity.
Qed.

Lemma empty_read_is_version_0_witness :
  ServeConn authenticate_noauth handleRequest_succeed server0
    (conn_of "172.20.1.2:51000" [Data []; Data [5; 1; 0]])
  = (Some (ErrorfV "unsupported SOCKS version: %v" [0]),
     mkState [] [Data [5; 1; 0]] []
       [EvLog InfoLevel docker_origin (ArgString "172.20.1.2");
        EvRead (Data []);
        EvLog ErrorLevel "socks: %v"
          (ArgError (ErrorfV "unsupported SOCKS version: %v" [0]));
        EvClose]).
Proof.
  refine (empty_read_is_version_0 authenticate_noauth handleRequest_succeed
            server0 (conn_of "172.20.1.2:51000" [Data []; Data [5; 1; 0]])
            "172.20.1.2" (fst (ParseAddr "172.20.1.2")) docker_origin
            [Data [5; 1; 0]] _ _ _).
  - vm_compute. reflexivity.
  - left. split; [vm_compute|]; reflexivity.
  - reflexivity.
Defined.

(** X13.  Where the authentication step fails on a connection that sent
    version 5, [ServeConn] returns the error wrapped as a failure to
    authenticate, logs it and closes the connection: after the
    authentication step nothing is read and nothing is written, and no
    request is decoded. *)
Theorem authentication_failure authenticate handleRequest
    (s : Server) (conn : Conn) (clientIP : string) (a : Addr)
    (origin : string) (b : list Z) (st0 st1 : State)
    (ctx : option AuthContext) (e : error) :
  client_of conn = Some (clientIP, a) ->
  gate_admits s a origin ->
  bufio_Read 1 (Infof origin (ArgString clientIP) (start conn))
  = ((b, None), st0) ->
  byte_at (match b with [] => [0] | _ => b end) 0 = socks5Version ->
  call (authenticate s) st0 = ((ctx, Some e), st1) ->
  let r := ServeConn authenticate handleRequest s conn in
  fst r = Some (ErrorfE "failed to authenticate: %v" e)
  /\ trace (snd r)
     = trace st1
       ++ [EvLog ErrorLevel "socks: %v"
             (ArgError (ErrorfE "failed to authenticate: %v" e));
           EvClose]
  /\ pending (snd r) = pending st1
  /\ wr (snd r) = wr st1.
Proof.
  intros Hc Hg Hr Hv Ha r. subst r.
  apply client_of_inv in Hc as [-> [port Hs]].
  unfold ServeConn, serve. rewrite Hs. cbv zeta.
  rewrite (gate_admits_eq s conn clientIP origin Hg).
  cbv beta iota. rewrite Hr. cbv beta iota.
  rewrite Hv, Z.eqb_refl. cbn [negb]. rewrite Ha. cbv beta iota.
  cbn [fst snd conn_Close Errorf emit trace wr].
  rewrite <- app_assoc. repeat split.
Qed.

Lemma authentication_failure_witness :
  let r := ServeConn authenticate_noauth handleRequest_succeed server0
             (conn_of "172.20.1.2:51000" [Data [5; 1; 2]; Data [5; 1; 0; 1]])
  in
  fst r
  = Some (ErrorfE "failed to authenticate: %v"
            (Errorf0 "no supported authentication mechanism"))
  /\ pending (snd r) = [5; 1; 0; 1].
Proof.
  destruct (authentication_failure authenticate_noauth handleRequest_succeed
              server0
              (conn_of "172.20.1.2:51000" [Data [5; 1; 2]; Data [5; 1; 0; 1]])
              "172.20.1.2" (fst (ParseAddr "172.20.1.2")) docker_origin [5]
              (mkState [1; 2] [Data [5; 1; 0; 1]] []
                 [EvLog InfoLevel docker_origin (ArgString "172.20.1.2");
                  EvRead (Data [5; 1; 2])])
              (mkState [] [Data [5; 1; 0; 1]] []
                 [EvLog InfoLevel docker_origin (ArgString "172.20.1.2");
                  EvRead (Data [5; 1; 2]); EvWrite [5; 255]])
              None (Errorf0 "no supported authentication mechanism"))
    as (Hr & _ & Hp & _).
  - vm_compute. reflexivity.
  - left. split; [vm_compute|]; reflexivity.
  - reflexivity.
  - reflexivity.
  - reflexivity.
  - split; assumption.
Defined.

Lemma ServeConn_stamped authenticate handleRequest
    (s : Server) (conn : Conn) (ctx : option AuthContext) (st st' : State)
    (req : Request) :
  reaches_decode authenticate s conn ctx st ->
  NewRequest st = (inl req, st') ->
  ServeConn authenticate handleRequest s conn
  = handled (call (handleRequest s (stamped conn ctx req)) st').
Proof. apply ServeConn_stamps. Qed.

(** X14.  [ServeConn] returns [nil] exactly when every step succeeded:
    the connection passed the gate, its first byte was 5, the
    authentication step succeeded, a request was decoded, and the request
    step, on that request with the authentication context attached,
    returned [nil]. *)
Theorem success_iff_all_steps authenticate handleRequest
    (s : Server) (conn : Conn) :
  fst (ServeConn authenticate handleRequest s conn) = None
  <-> exists ctx st req st',
        reaches_decode authenticate s conn ctx st
        /\ NewRequest st = (inl req, st')
        /\ fst (call (handleRequest s (stamped conn ctx req)) st') = None.
Proof.
  split.
  - unfold ServeConn.
    destruct (serve authenticate handleRequest s conn (start conn))
      as [r stf] eqn:E.
    cbn [fst]. intros ->. revert E. unfold serve.
    destruct (net.SplitHostPort _) as [[clientIP port] [e|]] eqn:Hs;
      [discriminate|].
    cbv zeta.
    assert (Hc : client_of conn = Some (clientIP, fst (ParseAddr clientIP)))
      by (unfold client_of; now rewrite Hs).
    assert (Hg : (exists origin,
                     gate_admits s (fst (ParseAddr clientIP)) origin)
                 \/ (IsDockerNetwork s (fst (ParseAddr clientIP)) = false
                     /\ IsTailScale s (fst (ParseAddr clientIP)) = false
                     /\ isIPAllowed s (fst (ParseAddr clientIP)) = false)).
    { unfold gate_admits.
      destruct (IsDockerNetwork s _); [left; eexists; left; eauto|].
      destruct (IsTailScale s _); [left; eexists; right; left; eauto|].
      destruct (isIPAllowed s _); [left; eexists; right; right; eauto|].
      right. auto. }
    destruct Hg as [[origin Hg] | (E1 & E2 & E3)];
      [|rewrite E1, E2, E3; discriminate].
    rewrite (gate_admits_eq s conn clientIP origin Hg). cbv beta iota.
    destruct (bufio_Read 1 _) as [[b [e|]] st0] eqn:Hr; [discriminate|].
    cbv beta iota zeta.
    destruct (Z.eqb_spec (byte_at (match b with [] => [0] | _ => b end) 0)
                socks5Version) as [Hv | Hv]; cbn [negb]; [|discriminate].
    destruct (call (authenticate s) st0) as [[ctx [e|]] st1] eqn:Ha;
      [discriminate|].
    destruct (NewRequest st1) as [[req | err] st2] eqn:Hn.
    + change (match net.asTCPAddr (ConnRemoteAddr conn) with
              | Some client =>
                  set_RemoteAddr
                    (Some (mkAddrSpec ""
                             (fst (ParseAddr
                                     (string_of_bytes (net.IP client))))
                             (net.Port client)))
                    (set_AuthContext ctx req)
              | None => set_AuthContext ctx req
              end) with (stamped conn ctx req).
      destruct (call (handleRequest s (stamped conn ctx req)) st2)
        as [[e|] st3] eqn:Hh; [discriminate|].
      intros _. exists ctx, st1, req, st2. repeat split; try assumption.
      * exists clientIP, origin, b, st0. auto.
      * now rewrite Hh.
    + destruct err; try discriminate.
      destruct (sendReply _ _ _) as [[e|] st3]; discriminate.
  - intros (ctx & st & req & st' & Hreach & Hn & Hh).
    rewrite (ServeConn_stamped authenticate handleRequest s conn ctx st st' req
               Hreach Hn).
    unfold handled.
    destruct (call _ st') as [[e|] st2]; cbn [fst] in *; congruence.
Qed.

(** X15.  What the request step is handed: the decoded request with its
    version, command and destination unchanged, the authentication context
    the authentication step returned, and, on a TCP connection, a remote
    address with the peer's port. *)
Theorem request_step_input authenticate handleRequest
    (s : Server) (conn : Conn) (ctx : option AuthContext) (st st' : State)
    (req : Request) :
  reaches_decode authenticate s conn ctx st ->
  NewRequest st = (inl req, st') ->
  exists req' : Request,
    ServeConn authenticate handleRequest s conn
    = handled (call (handleRequest s req') st')
    /\ Version req' = Version req
    /\ Command req' = Command req
    /\ DestAddr req' = DestAddr req
    /\ ReqAuthContext req' = ctx
    /\ match net.asTCPAddr (ConnRemoteAddr conn) with
       | Some client =>
           exists a : Addr,
             RemoteAddr req' = Some (mkAddrSpec "" a (net.Port client))
       | None => RemoteAddr req' = RemoteAddr req
       end.
Proof.
  intros Hreach Hn. exists (stamped conn ctx req).
  split; [now apply ServeConn_stamped with (st := st)|].
  unfold stamped.
  destruct (net.asTCPAddr (ConnRemoteAddr conn)) as [client|];
    repeat split; eauto.
Qed.

Lemma request_step_input_witness :
  exists req' : Request,
    ServeConn authenticate_noauth handleRequest_succeed server0
      (conn_of "172.16.0.5:40000"
         [Data [5; 1; 0]; Data [5; 1; 0; 1; 10; 0; 0; 1; 0; 80]])
    = handled
        (call (handleRequest_succeed server0 req')
           (mkState [] [] []
              [EvLog InfoLevel docker_origin (ArgString "172.16.0.5");
               EvRead (Data [5; 1; 0]); EvWrite [5; 0];
               EvRead (Data [5; 1; 0; 1; 10; 0; 0; 1; 0; 80])]))
    /\ Command req' = 1
    /\ DestAddr req' = Some (mkAddrSpec "" (AddrFrom4 [10; 0; 0; 1]) 80)
    /\ ReqAuthContext req' = Some (mkAuthContext NoAuth [])
    /\ RemoteAddr req' = None.
Proof.
  destruct (request_step_input authenticate_noauth handleRequest_succeed
              server0
              (conn_of "172.16.0.5:40000"
                 [Data [5; 1; 0]; Data [5; 1; 0; 1; 10; 0; 0; 1; 0; 80]])
              (Some (mkAuthContext NoAuth []))
              (at_decode [5; 1; 0; 1; 10; 0; 0; 1; 0; 80])
              (mkState [] [] []
                 [EvLog InfoLevel docker_origin (ArgString "172.16.0.5");
                  EvRead (Data [5; 1; 0]); EvWrite [5; 0];
                  EvRead (Data [5; 1; 0; 1; 10; 0; 0; 1; 0; 80])])
              (mkRequest 5 1 None None
                 (Some (mkAddrSpec "" (AddrFrom4 [10; 0; 0; 1]) 80))))
    as (req' & Hrun & _ & Hc & Hd & Ha & Hr).
  - exists "172.16.0.5", docker_origin, [5],
      (mkState [1; 0] [Data [5; 1; 0; 1; 10; 0; 0; 1; 0; 80]] []
         [EvLog InfoLevel docker_origin (ArgString "172.16.0.5");
          EvRead (Data [5; 1; 0])]).
    split; [reflexivity|].
    split; [left; split; [vm_compute|]; reflexivity|].
    split; [reflexivity|]. split; reflexivity.
  - reflexivity.
  - exists req'. repeat split; assumption.
Defined.

(** X21.  The error [ServeConn] returns for a request whose address type is
    none of 1, 3 and 4 depends on the write of the reply: where that write
    fails the error is the failure to send the reply, wrapping the write
    error, and where it succeeds the error is the failure to read the
    destination address, wrapping the unrecognized-address-type error.
    The reply is the one write made after the decoding. *)
Theorem unrecognized_addr_type_error authenticate handleRequest
    (s : Server) (conn : Conn) (ctx : option AuthContext) (st : State)
    (cmd rsv atyp : Z) (more : list Z) :
  reaches_decode authenticate s conn ctx st ->
  pending st = socks5Version :: cmd :: rsv :: atyp :: more ->
  atyp <> ipv4Address -> atyp <> fqdnAddress -> atyp <> ipv6Address ->
  let r := ServeConn authenticate handleRequest s conn in
  fst r
  = Some (match wr st with
          | Some err :: _ => ErrorfE "failed to send reply: %v" err
          | _ =>
              ErrorfE "failed to read destination address: %v"
                ErrUnrecognizedAddrType
          end)
  /\ wr (snd r) = tl (wr st).
Proof.
  intros Hreach Hp H1 H3 H4 r. subst r.
  destruct (NewRequest_unrecognized st cmd rsv atyp more Hp H1 H3 H4)
    as (st' & Hn & Hw & _).
  rewrite (ServeConn_unrecognized authenticate handleRequest s conn ctx st st'
             Hreach Hn).
  unfold conn_Write. rewrite Hw.
  destruct (wr st) as [|[e|] rest] eqn:E;
    cbn [fst snd conn_Close emit wr]; rewrite ?Hw; split; reflexivity.
Qed.

Lemma unrecognized_addr_type_error_witness :
  fst (ServeConn authenticate_noauth handleRequest_succeed server0
         conn_atyp2_broken)
  = Some (ErrorfE "failed to send reply: %v" (TransportError "broken pipe")).
Proof.
  refine (proj1 (unrecognized_addr_type_error authenticate_noauth
            handleRequest_succeed server0 conn_atyp2_broken
            (Some (mkAuthContext 0 []))
            (mkState [] [Data [5; 1; 0; 2; 10; 0; 0; 1; 0; 80]]
               [Some (TransportError "broken pipe")]
               [EvLog InfoLevel docker_origin (ArgString "172.16.0.5");
                EvRead (Data [5; 1; 0]); EvWrite [5; 0]])
            1 0 2 [10; 0; 0; 1; 0; 80] _ _ _ _ _)).
  - exists "172.16.0.5", docker_origin, [5],
      (mkState [1; 0] [Data [5; 1; 0; 2; 10; 0; 0; 1; 0; 80]]
         [None; Some (TransportError "broken pipe")]
         [EvLog InfoLevel docker_origin (ArgString "172.16.0.5");
          EvRead (Data [5; 1; 0])]).
    split; [reflexivity|].
    split; [left; split; [vm_compute|]; reflexivity|].
    split; [reflexivity|].
    split; reflexivity.
  - reflexivity.
  - vm_compute. discriminate.
  - vm_compute. discriminate.
  - vm_compute. discriminate.
Defined.

End Session.

(** * Start-up: [main], [ListenAndServe] and [Serve] *)

Module Startup.
Import bytealg netip socks5 Spec Examples.
Import netip_facts gate_facts handler_facts gate_runs.

(** X16.  The server [main] builds, by its parameters: [New] does not fail
    on it; with no user and no password the only method registered is
    no-auth, and with either set the only one is username/password with
    the one credential, no-auth being absent; the rule set is the
    destination pattern where one is configured and permit-all otherwise;
    the resolver is the DNS one. *)
Theorem setup_authentication (cfg : main.params) :
  let s := fst (main.setup cfg) in
  snd (main.setup cfg) = None
  /\ match (main.User cfg ++ main.Password cfg)%string with
     | EmptyString =>
         authMethods s = {[NoAuth := NoAuthAuthenticator]}
     | String _ _ =>
         authMethods s
         = {[UserPassAuth :=
               UserPassAuthenticator [(main.User cfg, main.Password cfg)]]}
         /\ authMethods s !! NoAuth = None
     end
  /\ Rules (config s)
     = Some (match main.AllowedDestFqdn cfg with
             | EmptyString => PermitAll
             | String _ _ => PermitDestAddrPattern (main.AllowedDestFqdn cfg)
             end)
  /\ Resolver (config s) = Some DNSResolver.
Proof.
  intros s. subst s. unfold main.setup.
  destruct cfg as [u p port fq ips]. cbn [main.User main.Password
    main.AllowedDestFqdn main.AllowedIPs].
  destruct (u ++ p)%string eqn:Eup; destruct fq; destruct ips;
    cbn [len String.length Z.of_nat Z.eqb negb Pos.of_succ_nat];
    repeat split; try reflexivity;
    try (cbn; rewrite ?insert_empty; reflexivity).
Qed.

(** X17.  The allow-list check of the server [main] builds holds of an
    address exactly when some configured entry parses to it, the parse
    error being dropped; with no entry configured it holds of no
    address. *)
Theorem setup_allowlist (cfg : main.params) (x : Addr) :
  isIPAllowed (fst (main.setup cfg)) x = true
  <-> exists entry : string,
        In entry (main.AllowedIPs cfg) /\ fst (ParseAddr entry) = x.
Proof.
  destruct (main.AllowedIPs cfg) as [|e l] eqn:E.
  - split; [|intros (entry & [] & _)].
    unfold main.setup. rewrite E.
    match goal with
    | |- context [New ?c] =>
        pose proof (New_isIPAllowed c x) as Hn; destruct (New c) as [srv [?|]]
    end; cbn [fst length Nat.ltb Nat.leb] in *; congruence.
  - rewrite Admission.setup_isIPAllowed by congruence.
    rewrite scan_allowed_In, E. unfold main.whitelist.
    rewrite in_map_iff. split; intros (entry & H1 & H2); eauto.
Qed.

(** X18.  The allow-list of [main] matches by value, not by text: a
    connection is admitted whenever some configured entry parses to the
    address its host parses to, however either is written. *)
Theorem setup_allowlist_by_value authenticate handleRequest
    (cfg : main.params) (conn : Conn) (clientIP entry : string) (a : Addr) :
  client_of conn = Some (clientIP, a) ->
  In entry (main.AllowedIPs cfg) ->
  fst (ParseAddr entry) = a ->
  exists origin : string,
    admitted_as origin clientIP
      (ServeConn authenticate handleRequest (fst (main.setup cfg)) conn).
Proof.
  intros Hc Hin Hp.
  assert (Ha : isIPAllowed (fst (main.setup cfg)) a = true).
  { rewrite Admission.setup_isIPAllowed
      by (destruct (main.AllowedIPs cfg); [destruct Hin | discriminate]).
    rewrite scan_allowed_In. unfold main.whitelist.
    rewrite in_map_iff. eauto. }
  destruct (IsDockerNetwork (fst (main.setup cfg)) a) eqn:E1.
  { exists docker_origin. eapply ServeConn_admitted; [eassumption|].
    left. auto. }
  destruct (IsTailScale (fst (main.setup cfg)) a) eqn:E2.
  { exists tailscale_origin. eapply ServeConn_admitted; [eassumption|].
    right; left. auto. }
  exists allowed_origin. eapply ServeConn_admitted; [eassumption|].
  right; right. auto.
Qed.

Lemma setup_allowlist_by_value_witness :
  exists origin : string,
    admitted_as origin "2001:db8::1"
      (ServeConn authenticate_noauth handleRequest_succeed
         (fst (main.setup
                 (main.mkParams "" "" "1080" ""
                    ["2001:DB8:0:0:0:0:0:1"])))
         (conn_of "[2001:db8::1]:4000" [Data [5; 1; 0]])).
Proof.
  refine (setup_allowlist_by_value authenticate_noauth handleRequest_succeed
            (main.mkParams "" "" "1080" "" ["2001:DB8:0:0:0:0:0:1"])
            (conn_of "[2001:db8::1]:4000" [Data [5; 1; 0]])
            "2001:db8::1" "2001:DB8:0:0:0:0:0:1"
            (fst (ParseAddr "2001:db8::1")) _ _ _).
  - vm_compute. reflexivity.
  - left. reflexivity.
  - vm_compute. reflexivity.
Defined.

Lemma Serve_not_nil authenticate handleRequest
    (s : Server) (l : list AcceptOutcome) :
  fst (Serve authenticate handleRequest s l) <> Returns None.
Proof.
  induction l as [|[c | e] l IH]; cbn [Serve]; try discriminate.
  destruct (Serve _ _ s l). exact IH.
Qed.

(** X19.  [Serve] hands every accepted connection to a run of [ServeConn],
    in the order of acceptance, and goes on whatever those runs return: it
    returns only when [Accept] fails, and then that error, the connections
    accepted before having been handed over and none after; it never
    returns [nil]. *)
Theorem Serve_until_accept_error authenticate handleRequest
    (s : Server) (conns : list Conn) :
  (forall (err : error) (rest : list AcceptOutcome),
      Serve authenticate handleRequest s
        (map Accepted conns ++ AcceptFail err :: rest)
      = (Returns (Some err),
         map (ServeConn authenticate handleRequest s) conns))
  /\ Serve authenticate handleRequest s (map Accepted conns)
     = (Blocks, map (ServeConn authenticate handleRequest s) conns)
  /\ forall l : list AcceptOutcome,
       fst (Serve authenticate handleRequest s l) <> Returns None.
Proof.
  repeat split.
  - intros err rest. induction conns as [|c conns IH]; cbn [map app Serve];
      [reflexivity|]. now rewrite IH.
  - induction conns as [|c conns IH]; cbn [map Serve]; [reflexivity|].
    now rewrite IH.
  - apply Serve_not_nil.
Qed.

(** X20.  [ListenAndServe] never returns [nil]; where [net.Listen] fails it
    returns that error and no connection is handled, and where it succeeds
    every run of [ServeConn] it starts is on a connection the listener
    accepted. *)
Theorem ListenAndServe_outcome authenticate handleRequest
    (net_Listen : string -> string -> list AcceptOutcome * option error)
    (s : Server) (network addr : string) :
  let r := ListenAndServe authenticate handleRequest net_Listen s network addr
  in
  fst r <> Returns None
  /\ (forall err : error,
        snd (net_Listen network addr) = Some err ->
        r = (Returns (Some err), []))
  /\ (forall run : option error * State,
        In run (snd r) ->
        exists conn : Conn,
          In (Accepted conn) (fst (net_Listen network addr))
          /\ run = ServeConn authenticate handleRequest s conn).
Proof.
  intros r. subst r. unfold ListenAndServe.
  destruct (net_Listen network addr) as [l [e|]]; cbn [fst snd].
  - repeat split; try discriminate.
    + intros err H. congruence.
    + intros run [].
  - split; [apply Serve_not_nil|]. split; [discriminate|].
    induction l as [|[c | e] l IH]; cbn [Serve]; try (intros run []).
    destruct (Serve _ _ s l) as [o spawned]. cbn [snd] in *.
    intros run [<- | Hin].
    + exists c. split; [left|]; reflexivity.
    + destruct (IH run Hin) as (conn & H1 & H2).
      exists conn. split; [right|]; assumption.
Qed.

End Startup.
